(** * The accelerator device manager of the LAMMPS GPU library

    A shallow embedding of [lib/gpu/device.cpp] (class [Device<numtyp,acctyp>])
    and the properties of its topology resolution, attach/detach life cycle,
    kernel-constant resolution and overhead benchmark.

    Conventions of the embedding.
    - A C++ [int] is a [Z].  Signed overflow is undefined in C++, so the
      model covers the executions that stay inside the [int] range; the one
      place where the source converts between [size_t] and [int] has the
      wrap-around written out ([to_size_t], [to_int]).
    - A [double] is the rational it denotes ([Q]).  An arithmetic operation
      on doubles rounds its exact result to the nearest double, ties to even
      ([Double.round], IEEE 754 binary64); comparisons and [MPI_MAX] are
      exact.  Results beyond the largest finite double are outside the
      model, as overflowing [int]s are.  The one exception is
      [ceil(double(a)/b)] on [int] operands, where the rounding of the
      quotient never crosses an integer (the operands are below 2^53) and
      the model takes the ceiling of the exact quotient
      ([procs_per_gpu_of_double]).
    - Calls into collaborators that are not part of this file (MPI, the
      Geryon device layer, [Atom], [Answer], [Neighbor]) take their results
      from an explicit environment and are recorded in an event log. *)

From Stdlib Require Import ZArith QArith Qround Qminmax Qpower Bool List String.
From Stdlib Require Import Ascii Lia Lqa.
From Stdlib Require Import OrderedTypeEx.
Import ListNotations.
Open Scope Z_scope.

(** ** [std::map<std::string,int>]

    The map keeps its entries ordered by key ([std::less<std::string>], the
    lexicographic order on unsigned bytes, which is [String.compare]);
    iteration, and [begin()] in particular, follows that order. *)
Module NameMap.

Definition t := list (string * Z).

(** [m.find(k)]: the value stored under [k], [None] for [m.end()]. *)
Fixpoint find (k : string) (m : t) : option Z :=
  match m with
  | [] => None
  | (k', v) :: m' => if String.eqb k k' then Some v else find k m'
  end.

(** [m[k] = v] and, for a key that is present, [np->second = v]. *)
Fixpoint set (k : string) (v : Z) (m : t) : t :=
  match m with
  | [] => [(k, v)]
  | (k', v') :: m' =>
      match String.compare k k' with
      | Lt => (k, v) :: (k', v') :: m'
      | Eq => (k, v) :: m'
      | Gt => (k', v') :: set k v m'
      end
  end.

(** [m.begin()], [None] when it equals [m.end()]. *)
Definition begin (m : t) : option (string * Z) := hd_error m.

Definition keys (m : t) : list string := map fst m.

(** Keys strictly ascending. *)
Fixpoint sorted (m : t) : Prop :=
  match m with
  | [] => True
  | (k, _) :: m' =>
      match m' with
      | [] => True
      | (k', _) :: _ => String.compare k k' = Lt
      end /\ sorted m'
  end.

End NameMap.

(** ** [double] arithmetic

    IEEE 754 binary64 with the default rounding: a finite double is
    [m * 2^e] with [|m| < 2^53] and [-1074 <= e]; an operation returns the
    double nearest to its exact result, and of two nearest the one with an
    even [m]. *)
Module Double.

Definition pow2 (k : Z) : Q := (2 ^ k)%Q.

(** [floor (log2 x)] for a positive [x]. *)
Definition ilog2 (x : Q) : Z :=
  let k := Z.log2 (Qnum x) - Z.log2 (Zpos (Qden x)) in
  if Qle_bool (pow2 k) x then k else k - 1.

(** The integer nearest to [q], the even one of two. *)
Definition rne (q : Q) : Z :=
  let f := Qfloor q in
  match (q - inject_Z f ?= 1 # 2)%Q with
  | Lt => f
  | Gt => f + 1
  | Eq => if Z.even f then f else f + 1
  end.

(** The exponent of the doubles around a positive [x]: 53 significant bits,
    and the fixed exponent of the subnormal range at the bottom. *)
Definition exponent (x : Q) : Z := Z.max (ilog2 x - 52) (-1074).

Definition round_pos (x : Q) : Q :=
  let e := exponent x in
  (inject_Z (rne (x / pow2 e)) * pow2 e)%Q.

Definition round (x : Q) : Q :=
  match (x ?= 0)%Q with
  | Eq => 0%Q
  | Gt => round_pos x
  | Lt => (- round_pos (- x))%Q
  end.

Definition add (x y : Q) : Q := round (x + y).
Definition sub (x y : Q) : Q := round (x - y).
Definition mul (x y : Q) : Q := round (x * y).
Definition div (x y : Q) : Q := round (x / y).

(** The unit roundoff: in the normal range one rounding changes a value by
    at most this, relatively. *)
Definition unit_roundoff : Q := pow2 (-53).

(** [q] to the power [n]. *)
Fixpoint qpow (q : Q) (n : nat) : Q :=
  match n with
  | O => 1%Q
  | S n' => (q * qpow q n')%Q
  end.

End Double.

(** ** Topology resolution (the first half of [Device::init_device]) *)

(** The counting loop over the gathered names, lines 85-92:
    [for (i=0; i<_world_size; i++)] reads name [i] of the [MPI_Allgather]
    buffer, which holds one name per rank of the world. *)
Fixpoint count_nodes (node_names : list string) (name_map : NameMap.t)
  : NameMap.t :=
  match node_names with
  | [] => name_map
  | i_string :: rest =>
      count_nodes rest
        (match NameMap.find i_string name_map with
         | None => NameMap.set i_string 1 name_map
         | Some c => NameMap.set i_string (c + 1) name_map
         end)
  end.

(** [name_map.begin()->second], line 93.  Dereferencing [begin()] of an empty
    map is undefined; the world has at least one rank, so the map is never
    empty there.  The model yields 0 in that case. *)
Definition procs_per_node_of (name_map : NameMap.t) : Z :=
  match NameMap.begin name_map with
  | Some (_, c) => c
  | None => 0
  end.

(** The node numbering loop, lines 96-101. *)
Fixpoint assign_split_id (name_map : NameMap.t) (node_string : string)
  (split_num split_id : Z) : Z :=
  match name_map with
  | [] => split_id
  | (first, _) :: rest =>
      assign_split_id rest node_string (split_num + 1)
        (if String.eqb first node_string then split_num else split_id)
  end.

(** Lines 110-111:
    [static_cast<int>(ceil(static_cast<double>(procs_per_node)/
                           (last_gpu-first_gpu+1)))]. *)
Definition procs_per_gpu_of (procs_per_node first_gpu last_gpu : Z) : Z :=
  Qceiling (inject_Z procs_per_node / inject_Z (last_gpu - first_gpu + 1)).

(** Line 112: [node_rank/_procs_per_gpu+first_gpu], C++ integer division
    (truncation toward zero). *)
Definition my_gpu_of (node_rank procs_per_gpu first_gpu : Z) : Z :=
  Z.quot node_rank procs_per_gpu + first_gpu.

(** The grouping as the specification words it: one group per distinct host
    identifier, in first-seen order. *)
Fixpoint first_seen_add (name : string) (groups : list (string * Z))
  : list (string * Z) :=
  match groups with
  | [] => [(name, 1)]
  | (k, c) :: rest =>
      if String.eqb name k then (k, c + 1) :: rest
      else (k, c) :: first_seen_add name rest
  end.

Definition first_seen_groups (node_names : list string) : list (string * Z) :=
  fold_left (fun groups name => first_seen_add name groups) node_names [].

Definition first_seen_procs_per_node (node_names : list string) : Z :=
  match first_seen_groups node_names with
  | [] => 0
  | (_, c) :: _ => c
  end.

(** ** Data model *)

(** Build-time configuration: the preprocessor switches of the file, the
    width of the accumulation type, and the constants that [device.h] and
    the Geryon headers declare. *)
Record Build := {
  USE_OPENCL : bool;          (* #ifdef USE_OPENCL *)
  _OPENMP : bool;             (* #ifdef _OPENMP *)
  acctyp_is_double : bool;    (* sizeof(acctyp)==sizeof(double) *)
  GPU_FORCE : Z;
  GPU_NEIGH : Z;
  UCL_SUCCESS : Z
}.

(** Communicator handles are opaque. *)
Definition MPI_Comm := Z.

(** What the MPI library answers to the calls of [init_device]. *)
Record MPIEnv := {
  MPI_Comm_rank : MPI_Comm -> Z;
  MPI_Comm_size : MPI_Comm -> Z;
  (* MPI_Comm_split comm color key *)
  MPI_Comm_split : MPI_Comm -> Z -> Z -> MPI_Comm;
  MPI_Get_processor_name : string;
  (* the names gathered by MPI_Allgather, one per rank, in rank order *)
  MPI_Allgather_names : MPI_Comm -> list string
}.

(** What the device layer answers: the properties of the node's devices,
    the outcome of the kernel build and the buffer that [kernel_info]
    fills. *)
Record Hardware := {
  num_devices : Z;            (* gpu->num_devices() *)
  double_precision : bool;    (* gpu->double_precision() *)
  arch : Q;                   (* gpu->arch() *)
  group_size : Z;             (* gpu->group_size(), a size_t *)
  load_string : Z;            (* dev_program->load_string(device,flags) *)
  h_gpu_lib_data : nat -> Z   (* the 14 ints copied back from the device *)
}.

(** [UCL_Device]: the device selected by [set], if any. *)
Record UCL_Device := { current_device : option Z }.

(** [UCL_Program]: whether a module was loaded into it. *)
Record UCL_Program := { loaded : bool }.

(** Modelled from the spec: the per-atom container [Atom] ([atom.h] is not
    part of this file).  It owns the device-resident atom storage, sized on
    the first attach for the requested capability flags (charge,
    orientation) and extended in place when a later client needs a field
    that is missing.  Whether an allocation succeeds comes from the
    environment; a failed call leaves the container as it was. *)
Record Atom := {
  atom_allocated : bool;
  atom_charge : bool;         (* atom.charge() *)
  atom_quat : bool            (* atom.quat() *)
}.

Definition Atom_new : Atom :=
  {| atom_allocated := false; atom_charge := false; atom_quat := false |}.

Definition Atom_init (ok charge rot : bool) (a : Atom) : bool * Atom :=
  if ok
  then (true, {| atom_allocated := true; atom_charge := charge;
                 atom_quat := rot |})
  else (false, a).

Definition Atom_add_fields (ok charge rot : bool) (a : Atom) : bool * Atom :=
  if ok
  then (true, {| atom_allocated := atom_allocated a;
                 atom_charge := atom_charge a || charge;
                 atom_quat := atom_quat a || rot |})
  else (false, a).

Definition Atom_clear (a : Atom) : Atom := Atom_new.

(** The members that [init_device] derives from the process topology. *)
Record Topology := {
  _comm_world : MPI_Comm;
  _comm_replica : MPI_Comm;
  _comm_gpu : MPI_Comm;
  _first_device : Z;
  _last_device : Z;
  _gpu_mode : Z;
  _particle_split : Q;
  _world_me : Z;
  _world_size : Z;
  _replica_me : Z;
  _replica_size : Z;
  _procs_per_gpu : Z;
  _time_device : bool;
  _gpu_rank : Z
}.

(** The capability constants that [compile_kernels] reads back. *)
Record Registry := {
  _ptx_arch : Q;
  _num_mem_threads : Z;
  _warp_size : Z;
  _pppm_max_spline : Z;
  _pppm_block : Z;
  _block_pair : Z;
  _max_shared_types : Z;
  _block_cell_2d : Z;
  _block_cell_id : Z;
  _block_nbor_build : Z;
  _block_bio_pair : Z;
  _max_bio_shared_types : Z
}.

(** The members of [Device].  The topology members and the capability
    constants are grouped in the two records above; every member keeps its
    name. *)
Record Device := {
  _init_count : Z;
  _device_init : bool;
  _compiled : bool;
  _nthreads : Z;
  _threads_per_atom : Z;
  _threads_per_charge : Z;
  topo : Topology;
  caps : Registry;
  gpu : option UCL_Device;            (* None: no live object behind it *)
  _long_range_precompute : Z;
  pppm_single : option Z;
  pppm_double : option Z;
  dev_program : option UCL_Program;
  k_zero : bool;                      (* bound to a function of the module *)
  k_info : bool;
  _data_in_estimate : Z;
  _data_out_estimate : Z;
  atom : Atom;
  _neighbor_shared : bool             (* holds device resources *)
}.

Definition set_init_count (v : Z) (s : Device) : Device :=
  {| _init_count := v; _device_init := _device_init s;
     _compiled := _compiled s; _nthreads := _nthreads s;
     _threads_per_atom := _threads_per_atom s;
     _threads_per_charge := _threads_per_charge s; topo := topo s;
     caps := caps s; gpu := gpu s;
     _long_range_precompute := _long_range_precompute s;
     pppm_single := pppm_single s; pppm_double := pppm_double s;
     dev_program := dev_program s; k_zero := k_zero s; k_info := k_info s;
     _data_in_estimate := _data_in_estimate s;
     _data_out_estimate := _data_out_estimate s; atom := atom s;
     _neighbor_shared := _neighbor_shared s |}.

Definition set_device_init (v : bool) (s : Device) : Device :=
  {| _init_count := _init_count s; _device_init := v;
     _compiled := _compiled s; _nthreads := _nthreads s;
     _threads_per_atom := _threads_per_atom s;
     _threads_per_charge := _threads_per_charge s; topo := topo s;
     caps := caps s; gpu := gpu s;
     _long_range_precompute := _long_range_precompute s;
     pppm_single := pppm_single s; pppm_double := pppm_double s;
     dev_program := dev_program s; k_zero := k_zero s; k_info := k_info s;
     _data_in_estimate := _data_in_estimate s;
     _data_out_estimate := _data_out_estimate s; atom := atom s;
     _neighbor_shared := _neighbor_shared s |}.

Definition set_compiled (v : bool) (s : Device) : Device :=
  {| _init_count := _init_count s; _device_init := _device_init s;
     _compiled := v; _nthreads := _nthreads s;
     _threads_per_atom := _threads_per_atom s;
     _threads_per_charge := _threads_per_charge s; topo := topo s;
     caps := caps s; gpu := gpu s;
     _long_range_precompute := _long_range_precompute s;
     pppm_single := pppm_single s; pppm_double := pppm_double s;
     dev_program := dev_program s; k_zero := k_zero s; k_info := k_info s;
     _data_in_estimate := _data_in_estimate s;
     _data_out_estimate := _data_out_estimate s; atom := atom s;
     _neighbor_shared := _neighbor_shared s |}.

Definition set_nthreads (v : Z) (s : Device) : Device :=
  {| _init_count := _init_count s; _device_init := _device_init s;
     _compiled := _compiled s; _nthreads := v;
     _threads_per_atom := _threads_per_atom s;
     _threads_per_charge := _threads_per_charge s; topo := topo s;
     caps := caps s; gpu := gpu s;
     _long_range_precompute := _long_range_precompute s;
     pppm_single := pppm_single s; pppm_double := pppm_double s;
     dev_program := dev_program s; k_zero := k_zero s; k_info := k_info s;
     _data_in_estimate := _data_in_estimate s;
     _data_out_estimate := _data_out_estimate s; atom := atom s;
     _neighbor_shared := _neighbor_shared s |}.

Definition set_threads_per_atom (v : Z) (s : Device) : Device :=
  {| _init_count := _init_count s; _device_init := _device_init s;
     _compiled := _compiled s; _nthreads := _nthreads s;
     _threads_per_atom := v; _threads_per_charge := _threads_per_charge s;
     topo := topo s; caps := caps s; gpu := gpu s;
     _long_range_precompute := _long_range_precompute s;
     pppm_single := pppm_single s; pppm_double := pppm_double s;
     dev_program := dev_program s; k_zero := k_zero s; k_info := k_info s;
     _data_in_estimate := _data_in_estimate s;
     _data_out_estimate := _data_out_estimate s; atom := atom s;
     _neighbor_shared := _neighbor_shared s |}.

Definition set_threads_per_charge (v : Z) (s : Device) : Device :=
  {| _init_count := _init_count s; _device_init := _device_init s;
     _compiled := _compiled s; _nthreads := _nthreads s;
     _threads_per_atom := _threads_per_atom s; _threads_per_charge := v;
     topo := topo s; caps := caps s; gpu := gpu s;
     _long_range_precompute := _long_range_precompute s;
     pppm_single := pppm_single s; pppm_double := pppm_double s;
     dev_program := dev_program s; k_zero := k_zero s; k_info := k_info s;
     _data_in_estimate := _data_in_estimate s;
     _data_out_estimate := _data_out_estimate s; atom := atom s;
     _neighbor_shared := _neighbor_shared s |}.

Definition set_topo (v : Topology) (s : Device) : Device :=
  {| _init_count := _init_count s; _device_init := _device_init s;
     _compiled := _compiled s; _nthreads := _nthreads s;
     _threads_per_atom := _threads_per_atom s;
     _threads_per_charge := _threads_per_charge s; topo := v; caps := caps s;
     gpu := gpu s; _long_range_precompute := _long_range_precompute s;
     pppm_single := pppm_single s; pppm_double := pppm_double s;
     dev_program := dev_program s; k_zero := k_zero s; k_info := k_info s;
     _data_in_estimate := _data_in_estimate s;
     _data_out_estimate := _data_out_estimate s; atom := atom s;
     _neighbor_shared := _neighbor_shared s |}.

Definition set_caps (v : Registry) (s : Device) : Device :=
  {| _init_count := _init_count s; _device_init := _device_init s;
     _compiled := _compiled s; _nthreads := _nthreads s;
     _threads_per_atom := _threads_per_atom s;
     _threads_per_charge := _threads_per_charge s; topo := topo s; caps := v;
     gpu := gpu s; _long_range_precompute := _long_range_precompute s;
     pppm_single := pppm_single s; pppm_double := pppm_double s;
     dev_program := dev_program s; k_zero := k_zero s; k_info := k_info s;
     _data_in_estimate := _data_in_estimate s;
     _data_out_estimate := _data_out_estimate s; atom := atom s;
     _neighbor_shared := _neighbor_shared s |}.

Definition set_gpu (v : option UCL_Device) (s : Device) : Device :=
  {| _init_count := _init_count s; _device_init := _device_init s;
     _compiled := _compiled s; _nthreads := _nthreads s;
     _threads_per_atom := _threads_per_atom s;
     _threads_per_charge := _threads_per_charge s; topo := topo s;
     caps := caps s; gpu := v;
     _long_range_precompute := _long_range_precompute s;
     pppm_single := pppm_single s; pppm_double := pppm_double s;
     dev_program := dev_program s; k_zero := k_zero s; k_info := k_info s;
     _data_in_estimate := _data_in_estimate s;
     _data_out_estimate := _data_out_estimate s; atom := atom s;
     _neighbor_shared := _neighbor_shared s |}.

Definition set_long_range_precompute (v : Z) (s : Device) : Device :=
  {| _init_count := _init_count s; _device_init := _device_init s;
     _compiled := _compiled s; _nthreads := _nthreads s;
     _threads_per_atom := _threads_per_atom s;
     _threads_per_charge := _threads_per_charge s; topo := topo s;
     caps := caps s; gpu := gpu s; _long_range_precompute := v;
     pppm_single := pppm_single s; pppm_double := pppm_double s;
     dev_program := dev_program s; k_zero := k_zero s; k_info := k_info s;
     _data_in_estimate := _data_in_estimate s;
     _data_out_estimate := _data_out_estimate s; atom := atom s;
     _neighbor_shared := _neighbor_shared s |}.

Definition set_pppm_single (v : option Z) (s : Device) : Device :=
  {| _init_count := _init_count s; _device_init := _device_init s;
     _compiled := _compiled s; _nthreads := _nthreads s;
     _threads_per_atom := _threads_per_atom s;
     _threads_per_charge := _threads_per_charge s; topo := topo s;
     caps := caps s; gpu := gpu s;
     _long_range_precompute := _long_range_precompute s; pppm_single := v;
     pppm_double := pppm_double s; dev_program := dev_program s;
     k_zero := k_zero s; k_info := k_info s;
     _data_in_estimate := _data_in_estimate s;
     _data_out_estimate := _data_out_estimate s; atom := atom s;
     _neighbor_shared := _neighbor_shared s |}.

Definition set_pppm_double (v : option Z) (s : Device) : Device :=
  {| _init_count := _init_count s; _device_init := _device_init s;
     _compiled := _compiled s; _nthreads := _nthreads s;
     _threads_per_atom := _threads_per_atom s;
     _threads_per_charge := _threads_per_charge s; topo := topo s;
     caps := caps s; gpu := gpu s;
     _long_range_precompute := _long_range_precompute s;
     pppm_single := pppm_single s; pppm_double := v;
     dev_program := dev_program s; k_zero := k_zero s; k_info := k_info s;
     _data_in_estimate := _data_in_estimate s;
     _data_out_estimate := _data_out_estimate s; atom := atom s;
     _neighbor_shared := _neighbor_shared s |}.

Definition set_dev_program (v : option UCL_Program) (s : Device) : Device :=
  {| _init_count := _init_count s; _device_init := _device_init s;
     _compiled := _compiled s; _nthreads := _nthreads s;
     _threads_per_atom := _threads_per_atom s;
     _threads_per_charge := _threads_per_charge s; topo := topo s;
     caps := caps s; gpu := gpu s;
     _long_range_precompute := _long_range_precompute s;
     pppm_single := pppm_single s; pppm_double := pppm_double s;
     dev_program := v; k_zero := k_zero s; k_info := k_info s;
     _data_in_estimate := _data_in_estimate s;
     _data_out_estimate := _data_out_estimate s; atom := atom s;
     _neighbor_shared := _neighbor_shared s |}.

Definition set_k_zero (v : bool) (s : Device) : Device :=
  {| _init_count := _init_count s; _device_init := _device_init s;
     _compiled := _compiled s; _nthreads := _nthreads s;
     _threads_per_atom := _threads_per_atom s;
     _threads_per_charge := _threads_per_charge s; topo := topo s;
     caps := caps s; gpu := gpu s;
     _long_range_precompute := _long_range_precompute s;
     pppm_single := pppm_single s; pppm_double := pppm_double s;
     dev_program := dev_program s; k_zero := v; k_info := k_info s;
     _data_in_estimate := _data_in_estimate s;
     _data_out_estimate := _data_out_estimate s; atom := atom s;
     _neighbor_shared := _neighbor_shared s |}.

Definition set_k_info (v : bool) (s : Device) : Device :=
  {| _init_count := _init_count s; _device_init := _device_init s;
     _compiled := _compiled s; _nthreads := _nthreads s;
     _threads_per_atom := _threads_per_atom s;
     _threads_per_charge := _threads_per_charge s; topo := topo s;
     caps := caps s; gpu := gpu s;
     _long_range_precompute := _long_range_precompute s;
     pppm_single := pppm_single s; pppm_double := pppm_double s;
     dev_program := dev_program s; k_zero := k_zero s; k_info := v;
     _data_in_estimate := _data_in_estimate s;
     _data_out_estimate := _data_out_estimate s; atom := atom s;
     _neighbor_shared := _neighbor_shared s |}.

Definition set_data_in_estimate (v : Z) (s : Device) : Device :=
  {| _init_count := _init_count s; _device_init := _device_init s;
     _compiled := _compiled s; _nthreads := _nthreads s;
     _threads_per_atom := _threads_per_atom s;
     _threads_per_charge := _threads_per_charge s; topo := topo s;
     caps := caps s; gpu := gpu s;
     _long_range_precompute := _long_range_precompute s;
     pppm_single := pppm_single s; pppm_double := pppm_double s;
     dev_program := dev_program s; k_zero := k_zero s; k_info := k_info s;
     _data_in_estimate := v; _data_out_estimate := _data_out_estimate s;
     atom := atom s; _neighbor_shared := _neighbor_shared s |}.

Definition set_data_out_estimate (v : Z) (s : Device) : Device :=
  {| _init_count := _init_count s; _device_init := _device_init s;
     _compiled := _compiled s; _nthreads := _nthreads s;
     _threads_per_atom := _threads_per_atom s;
     _threads_per_charge := _threads_per_charge s; topo := topo s;
     caps := caps s; gpu := gpu s;
     _long_range_precompute := _long_range_precompute s;
     pppm_single := pppm_single s; pppm_double := pppm_double s;
     dev_program := dev_program s; k_zero := k_zero s; k_info := k_info s;
     _data_in_estimate := _data_in_estimate s; _data_out_estimate := v;
     atom := atom s; _neighbor_shared := _neighbor_shared s |}.

Definition set_atom (v : Atom) (s : Device) : Device :=
  {| _init_count := _init_count s; _device_init := _device_init s;
     _compiled := _compiled s; _nthreads := _nthreads s;
     _threads_per_atom := _threads_per_atom s;
     _threads_per_charge := _threads_per_charge s; topo := topo s;
     caps := caps s; gpu := gpu s;
     _long_range_precompute := _long_range_precompute s;
     pppm_single := pppm_single s; pppm_double := pppm_double s;
     dev_program := dev_program s; k_zero := k_zero s; k_info := k_info s;
     _data_in_estimate := _data_in_estimate s;
     _data_out_estimate := _data_out_estimate s; atom := v;
     _neighbor_shared := _neighbor_shared s |}.

Definition set_neighbor_shared (v : bool) (s : Device) : Device :=
  {| _init_count := _init_count s; _device_init := _device_init s;
     _compiled := _compiled s; _nthreads := _nthreads s;
     _threads_per_atom := _threads_per_atom s;
     _threads_per_charge := _threads_per_charge s; topo := topo s;
     caps := caps s; gpu := gpu s;
     _long_range_precompute := _long_range_precompute s;
     pppm_single := pppm_single s; pppm_double := pppm_double s;
     dev_program := dev_program s; k_zero := k_zero s; k_info := k_info s;
     _data_in_estimate := _data_in_estimate s;
     _data_out_estimate := _data_out_estimate s; atom := atom s;
     _neighbor_shared := v |}.

(** [Device::Device()], lines 34-37.  The constructor initialises
    [_init_count], [_device_init], [_gpu_mode], [_first_device],
    [_last_device] and [_compiled]; the scalar members it leaves
    uninitialised are 0 here, the pointers hold no object and the member
    objects are freshly constructed. *)
Definition Device_new (cfg : Build) : Device :=
  {| _init_count := 0; _device_init := false; _compiled := false;
     _nthreads := 0; _threads_per_atom := 0; _threads_per_charge := 0;
     topo := {| _comm_world := 0; _comm_replica := 0; _comm_gpu := 0;
                _first_device := 0; _last_device := 0;
                _gpu_mode := GPU_FORCE cfg; _particle_split := 0%Q;
                _world_me := 0; _world_size := 0; _replica_me := 0;
                _replica_size := 0; _procs_per_gpu := 0;
                _time_device := false; _gpu_rank := 0 |};
     caps := {| _ptx_arch := 0%Q; _num_mem_threads := 0; _warp_size := 0;
                _pppm_max_spline := 0; _pppm_block := 0; _block_pair := 0;
                _max_shared_types := 0; _block_cell_2d := 0;
                _block_cell_id := 0; _block_nbor_build := 0;
                _block_bio_pair := 0; _max_bio_shared_types := 0 |};
     gpu := None; _long_range_precompute := 0;
     pppm_single := None; pppm_double := None; dev_program := None;
     k_zero := false; k_info := false;
     _data_in_estimate := 0; _data_out_estimate := 0;
     atom := Atom_new; _neighbor_shared := false |}.

(** The calls into collaborators that acquire or release a resource, in the
    order the manager issues them. *)
Inductive Event :=
| omp_set_num_threads (n : Z)
| new_UCL_Device
| device_set (i : Z)
| delete_gpu
| new_UCL_Program
| program_load_string (result : Z)
| set_function (name : string)
| kernel_info_run
| delete_dev_program
| k_zero_clear
| k_info_clear
| atom_init (nall : Z) (charge rot gpu_nbor bonds ok : bool)
| atom_add_fields (charge rot gpu_nbor bonds ok : bool)
| atom_clear
| ans_init (n : Z) (charge rot ok : bool)
| nbor_init (ok : bool)
| nbor_cell_size (cell_size : Q)
| neighbor_shared_clear.

(** The result of a member function: its return value, the manager after
    the call and the collaborator calls it made. *)
Record Outcome := {
  status : Z;
  after : Device;
  calls : list Event
}.

(** ** Kernel compilation and capability read-back *)

(** [static_cast<size_t>(x)] on a 64-bit target and the conversion of a
    [size_t] back to [int]. *)
Definition to_size_t (x : Z) : Z := x mod 2 ^ 64.
Definition to_int (x : Z) : Z := (x + 2 ^ 31) mod 2 ^ 32 - 2 ^ 31.

(** Lines 577-580 (and 581-584 for the charge loops):
    [if (t>_warp_size) t=_warp_size; if (_warp_size%t!=0) t=1;].
    [%] truncates like [Z.rem]; a zero divisor is undefined in C++ and
    leaves the dividend here. *)
Definition clamp_threads (warp_size threads : Z) : Z :=
  let threads := if threads >? warp_size then warp_size else threads in
  if negb (Z.rem warp_size threads =? 0) then 1 else threads.

(** Lines 573-576: a block size beyond the device's group size is cut down
    to it. *)
Definition clamp_block (hw : Hardware) (block : Z) : Z :=
  if to_size_t block >? group_size hw then to_int (group_size hw) else block.

Definition Qltb (x y : Q) : bool := negb (Qle_bool y x).

(** [Device::compile_kernels], lines 529-587. *)
Definition compile_kernels (cfg : Build) (hw : Hardware) (s : Device)
  : Outcome :=
  let flag := 0 in
  if _compiled s then {| status := flag; after := s; calls := [] |}
  else
    let success := load_string hw in
    let s := set_dev_program
               (Some {| loaded := success =? UCL_SUCCESS cfg |}) s in
    let build := [new_UCL_Program; program_load_string success] in
    if negb (success =? UCL_SUCCESS cfg)
    then {| status := -4; after := s; calls := build |}
    else
      let s := set_k_zero true s in
      let s := set_k_info true s in
      let s := set_compiled true s in
      let query := build ++ [set_function "kernel_zero";
                             set_function "kernel_info"; kernel_info_run] in
      let h := h_gpu_lib_data hw in
      (* _ptx_arch=static_cast<double>(h[0])/100.0 *)
      let ptx_arch := Double.div (inject_Z (h 0%nat)) 100 in
      let c := caps s in
      let s := set_caps
                 {| _ptx_arch := ptx_arch;
                    _num_mem_threads := _num_mem_threads c;
                    _warp_size := _warp_size c;
                    _pppm_max_spline := _pppm_max_spline c;
                    _pppm_block := _pppm_block c;
                    _block_pair := _block_pair c;
                    _max_shared_types := _max_shared_types c;
                    _block_cell_2d := _block_cell_2d c;
                    _block_cell_id := _block_cell_id c;
                    _block_nbor_build := _block_nbor_build c;
                    _block_bio_pair := _block_bio_pair c;
                    _max_bio_shared_types := _max_bio_shared_types c |} s in
      if negb (USE_OPENCL cfg) && Qltb (arch hw) ptx_arch
      then {| status := -4; after := s; calls := query |}
      else
        let warp_size := h 2%nat in
        let s := if _threads_per_atom s <? 1
                 then set_threads_per_atom (h 3%nat) s else s in
        let s := if _threads_per_charge s <? 1
                 then set_threads_per_charge (h 13%nat) s else s in
        let s := set_caps
                   {| _ptx_arch := ptx_arch;
                      _num_mem_threads := h 1%nat;
                      _warp_size := warp_size;
                      _pppm_max_spline := h 4%nat;
                      _pppm_block := h 5%nat;
                      _block_pair := clamp_block hw (h 6%nat);
                      _max_shared_types := h 7%nat;
                      _block_cell_2d := h 8%nat;
                      _block_cell_id := h 9%nat;
                      _block_nbor_build := h 10%nat;
                      _block_bio_pair := clamp_block hw (h 11%nat);
                      _max_bio_shared_types := h 12%nat |} s in
        let s := set_threads_per_atom
                   (clamp_threads warp_size (_threads_per_atom s)) s in
        let s := set_threads_per_charge
                   (clamp_threads warp_size (_threads_per_charge s)) s in
        {| status := flag; after := s; calls := query |}.

(** ** Binding: [Device::init_device], lines 44-134 *)

Record InitDeviceArgs := {
  world : MPI_Comm;
  replica : MPI_Comm;
  first_gpu : Z;
  last_gpu : Z;
  gpu_mode : Z;
  p_split : Q;
  nthreads : Z;
  t_per_atom : Z
}.

Definition init_device (cfg : Build) (hw : Hardware) (mpi : MPIEnv)
  (a : InitDeviceArgs) (s : Device) : Outcome :=
  let s := set_nthreads (nthreads a) s in
  let omp := if _OPENMP cfg then [omp_set_num_threads (nthreads a)] else [] in
  let s := set_threads_per_atom (t_per_atom a) s in
  let s := set_threads_per_charge (t_per_atom a) s in
  if _device_init s then {| status := 0; after := s; calls := omp |}
  else
    let s := set_device_init true s in
    (* the names of all nodes, and the number of procs per node *)
    let node_string := MPI_Get_processor_name mpi in
    let name_map := count_nodes (MPI_Allgather_names mpi (world a)) [] in
    let procs_per_node := procs_per_node_of name_map in
    (* a unique id for each node, the per node communicator *)
    let split_id := assign_split_id name_map node_string 0 0 in
    let node_comm := MPI_Comm_split mpi (world a) split_id 0 in
    let node_rank := MPI_Comm_rank mpi node_comm in
    (* the device id *)
    let procs_per_gpu :=
      procs_per_gpu_of procs_per_node (first_gpu a) (last_gpu a) in
    let my_gpu := my_gpu_of node_rank procs_per_gpu (first_gpu a) in
    (* the per device communicator *)
    let comm_gpu := MPI_Comm_split mpi node_comm my_gpu 0 in
    let s := set_topo
               {| _comm_world := world a;
                  _comm_replica := replica a;
                  _comm_gpu := comm_gpu;
                  _first_device := first_gpu a;
                  _last_device := last_gpu a;
                  _gpu_mode := gpu_mode a;
                  _particle_split := p_split a;
                  _world_me := MPI_Comm_rank mpi (world a);
                  _world_size := MPI_Comm_size mpi (world a);
                  _replica_me := MPI_Comm_rank mpi (replica a);
                  _replica_size := MPI_Comm_size mpi (replica a);
                  _procs_per_gpu := procs_per_gpu;
                  _time_device := if procs_per_gpu >? 1 then false else true;
                  _gpu_rank := MPI_Comm_rank mpi comm_gpu |} s in
    let s := set_gpu (Some {| current_device := None |}) s in
    if my_gpu >=? num_devices hw
    then {| status := -2; after := s; calls := omp ++ [new_UCL_Device] |}
    else
      let s := set_gpu (Some {| current_device := Some my_gpu |}) s in
      let s := set_long_range_precompute 0 s in
      let compiled := compile_kernels cfg hw s in
      {| status := status compiled; after := after compiled;
         calls := omp ++ [new_UCL_Device; device_set my_gpu]
                      ++ calls compiled |}.

(** ** Attach and detach: [Device::init] and [Device::clear] *)

Record InitArgs := {
  charge : bool;
  rot : bool;
  nlocal : Z;
  host_nlocal : Z;
  nall : Z;
  maxspecial : Z;
  gpu_host : Z;
  max_nbors : Z;
  cell_size : Q;
  pre_cut : bool
}.

(** Whether the allocations attempted by one [init] call succeed:
    [atom.init] or [atom.add_fields], [ans.init], [nbor->init]. *)
Record Allocator := {
  atom_ok : bool;
  ans_ok : bool;
  nbor_ok : bool
}.

(** [static_cast<int>] of a [double]: truncation toward zero. *)
Definition Qtruncate (x : Q) : Z :=
  if Qle_bool 0 x then Qfloor x else Qceiling x.

Definition incr_data_in (s : Device) : Device :=
  set_data_in_estimate (_data_in_estimate s + 1) s.

(** Lines 180-190 of [init]: the answer and neighbor storage of the client,
    then the attach credit. *)
Definition init_rest (al : Allocator) (a : InitArgs) (ef_nlocal : Z)
  (s : Device) (done : list Event) : Outcome :=
  let done := done ++ [ans_init ef_nlocal (charge a) (rot a) (ans_ok al)] in
  if negb (ans_ok al) then {| status := -3; after := s; calls := done |}
  else
    let done := done ++ [nbor_init (nbor_ok al)] in
    if negb (nbor_ok al) then {| status := -3; after := s; calls := done |}
    else
      let s := set_neighbor_shared true s in
      let s := set_init_count (_init_count s + 1) s in
      {| status := 0; after := s;
         calls := done ++ [nbor_cell_size (cell_size a)] |}.

(** [Device::init] with the full sizing descriptor, lines 136-191. *)
Definition init (cfg : Build) (hw : Hardware) (al : Allocator) (a : InitArgs)
  (s : Device) : Outcome :=
  if negb (_device_init s) then {| status := -1; after := s; calls := [] |}
  else if acctyp_is_double cfg && negb (double_precision hw)
  then {| status := -5; after := s; calls := [] |}
  else
    let s := set_data_in_estimate 0 s in
    let s := set_data_out_estimate 1 s in
    let split := _particle_split (topo s) in
    let ef_nlocal :=
      if Qltb split 1 && Qltb 0 split
      then Qtruncate (Double.mul split (inject_Z (nlocal a)))
      else nlocal a in
    let gpu_nbor := _gpu_mode (topo s) =? GPU_NEIGH cfg in
    if _init_count s =? 0 then
      let bonds := gpu_nbor && (maxspecial a >? 0) in
      let (ok, atom') := Atom_init (atom_ok al) (charge a) (rot a) (atom s) in
      let done := [atom_init (nall a) (charge a) (rot a) gpu_nbor bonds ok] in
      let s := set_atom atom' s in
      if negb ok then {| status := -3; after := s; calls := done |}
      else
        let s := incr_data_in s in
        let s := if charge a then incr_data_in s else s in
        let s := if rot a then incr_data_in s else s in
        init_rest al a ef_nlocal s done
    else
      let s := if negb (atom_charge (atom s)) && charge a
               then incr_data_in s else s in
      let s := if negb (atom_quat (atom s)) && rot a
               then incr_data_in s else s in
      let bonds := gpu_nbor && negb (maxspecial a =? 0) in
      let (ok, atom') :=
        Atom_add_fields (atom_ok al) (charge a) (rot a) (atom s) in
      let done := [atom_add_fields (charge a) (rot a) gpu_nbor bonds ok] in
      let s := set_atom atom' s in
      if negb ok then {| status := -3; after := s; calls := done |}
      else init_rest al a ef_nlocal s done.

(** The second overload, [Device::init(ans,nlocal,nall)], lines 193-214,
    used by the long-range solver: charge only, no neighbor storage. *)
Definition init' (cfg : Build) (hw : Hardware) (al : Allocator)
  (nlocal nall : Z) (s : Device) : Outcome :=
  if negb (_device_init s) then {| status := -1; after := s; calls := [] |}
  else if acctyp_is_double cfg && negb (double_precision hw)
  then {| status := -5; after := s; calls := [] |}
  else
    let (ok, atom') :=
      if _init_count s =? 0
      then Atom_init (atom_ok al) true false (atom s)
      else Atom_add_fields (atom_ok al) true false (atom s) in
    let done :=
      if _init_count s =? 0
      then [atom_init nall true false false false ok]
      else [atom_add_fields true false false false ok] in
    let s := set_atom atom' s in
    if negb ok then {| status := -3; after := s; calls := done |}
    else
      let done := done ++ [ans_init nlocal true false (ans_ok al)] in
      if negb (ans_ok al) then {| status := -3; after := s; calls := done |}
      else
        let s := set_init_count (_init_count s + 1) s in
        {| status := 0; after := s; calls := done |}.

(** [Device::set_single_precompute] and [Device::set_double_precompute],
    lines 216-228. *)
Definition set_single_precompute (pppm : Z) (s : Device) : Device :=
  let s := set_long_range_precompute 1 s in
  set_pppm_single (Some pppm) s.

Definition set_double_precompute (pppm : Z) (s : Device) : Device :=
  let s := set_long_range_precompute 2 s in
  set_pppm_double (Some pppm) s.

(** [Device::clear], lines 501-517. *)
Definition clear (s : Device) : Device * list Event :=
  if _init_count s >? 0 then
    let s := set_long_range_precompute 0 s in
    let s := set_init_count (_init_count s - 1) s in
    if _init_count s =? 0 then
      let s := set_atom (Atom_clear (atom s)) s in
      let s := set_neighbor_shared false s in
      let released := [atom_clear; neighbor_shared_clear] in
      if _compiled s then
        let s := set_k_zero false s in
        let s := set_k_info false s in
        let s := set_dev_program None s in
        let s := set_compiled false s in
        (s, released ++ [k_zero_clear; k_info_clear; delete_dev_program])
      else (s, released)
    else (s, [])
  else (s, []).

(** [while (_init_count>0) clear();], line 521-522.  Each pass lowers
    [_init_count] by one, so [Z.to_nat (_init_count s)] passes suffice
    ([clear_loop_done] below). *)
Fixpoint clear_loop (passes : nat) (s : Device) : Device * list Event :=
  match passes with
  | O => (s, [])
  | S passes' =>
      if _init_count s >? 0 then
        let (s1, released1) := clear s in
        let (s2, released2) := clear_loop passes' s1 in
        (s2, released1 ++ released2)
      else (s, [])
  end.

(** [Device::clear_device], lines 519-527. *)
Definition clear_device (s : Device) : Device * list Event :=
  let (s, released) := clear_loop (Z.to_nat (_init_count s)) s in
  if _device_init s then
    let s := set_gpu None s in
    let s := set_device_init false s in
    (s, released ++ [delete_gpu])
  else (s, released).

(** ** Sequences of client calls *)

Inductive Call :=
| call_init (al : Allocator) (a : InitArgs)
| call_init' (al : Allocator) (nlocal nall : Z)
| call_clear.

Definition is_init (c : Call) : bool :=
  match c with call_clear => false | _ => true end.

Definition is_clear (c : Call) : bool :=
  match c with call_clear => true | _ => false end.

(** What a run of client calls leaves: the status of every attach call, in
    order, the manager, and the collaborator calls made. *)
Record Run := {
  statuses : list Z;
  final : Device;
  trace : list Event
}.

Definition do_call (cfg : Build) (hw : Hardware) (c : Call) (s : Device)
  : Run :=
  match c with
  | call_init al a =>
      let o := init cfg hw al a s in
      {| statuses := [status o]; final := after o; trace := calls o |}
  | call_init' al nlocal nall =>
      let o := init' cfg hw al nlocal nall s in
      {| statuses := [status o]; final := after o; trace := calls o |}
  | call_clear =>
      {| statuses := []; final := fst (clear s); trace := snd (clear s) |}
  end.

Fixpoint run (cfg : Build) (hw : Hardware) (cs : list Call) (s : Device)
  : Run :=
  match cs with
  | [] => {| statuses := []; final := s; trace := [] |}
  | c :: cs' =>
      let r1 := do_call cfg hw c s in
      let r := run cfg hw cs' (final r1) in
      {| statuses := statuses r1 ++ statuses r; final := final r;
         trace := trace r1 ++ trace r |}
  end.

(** Every prefix of the sequence holds at least as many attach calls as
    detach calls, counting [credit] attachments made before it: no [clear]
    is issued while nothing is attached. *)
Fixpoint matched (credit : Z) (cs : list Call) : Prop :=
  match cs with
  | [] => True
  | c :: cs' =>
      if is_init c then matched (credit + 1) cs'
      else 0 < credit /\ matched (credit - 1) cs'
  end.

Definition count_calls (p : Call -> bool) (cs : list Call) : Z :=
  Z.of_nat (List.length (filter p cs)).

Definition is_atom_init (e : Event) : bool :=
  match e with atom_init _ _ _ _ _ _ => true | _ => false end.

Definition is_load (e : Event) : bool :=
  match e with program_load_string _ => true | _ => false end.

Definition count_events (p : Event -> bool) (es : list Event) : nat :=
  List.length (filter p es).

(** A sequence of [init_device] calls, each with its own arguments. *)
Fixpoint rebind (cfg : Build) (hw : Hardware) (mpi : MPIEnv)
  (calls_ : list InitDeviceArgs) (s : Device) : Run :=
  match calls_ with
  | [] => {| statuses := []; final := s; trace := [] |}
  | a :: rest =>
      let o := init_device cfg hw mpi a s in
      let r := rebind cfg hw mpi rest (after o) in
      {| statuses := status o :: statuses r; final := final r;
         trace := calls o ++ trace r |}
  end.

(** ** The overhead benchmark: [Device::estimate_gpu_overhead] *)

(** The three families of buffers and timers of the benchmark. *)
Inductive Family := data_in | data_out | kernel.

Inductive BenchEvent :=
| new_arrays (f : Family) (n : Z)
| alloc (f : Family) (i : Z)
| gpu_sync
| gpu_barrier
| over_timer_start
| over_timer_stop
| over_timer_seconds
| MPI_Wtime
| timer_start (f : Family) (i : Z)
| timer_stop (f : Family) (i : Z)
| ucl_copy_to_device (i : Z)
| zero (i : Z)
| ucl_copy_to_host (i : Z)
| add_to_total (f : Family) (i : Z)
| MPI_Allreduce_MAX (comm : MPI_Comm) (value : Q)
| delete_arrays (f : Family).

(** What the clocks and the other processes of the per-device communicator
    contribute to one trial. *)
Record Trial := {
  seconds : Q;                (* over_timer.seconds() *)
  wtime_before : Q;           (* MPI_Wtime() at the start of the region *)
  wtime_after : Q;            (* MPI_Wtime() at its end *)
  peer_times : list Q;        (* the other ranks' [time] *)
  peer_driver_times : list Q  (* the other ranks' [driver_time] *)
}.

(** [MPI_Allreduce(..., MPI_MAX, comm)]: every rank receives the largest
    contribution. *)
Definition allreduce_max (mine : Q) (peers : list Q) : Q :=
  fold_left Qmax peers mine.

(** [for (int i=0; i<n; i++) body(i)] *)
Definition for_loop {A : Type} (n : Z) (body : Z -> list A) : list A :=
  flat_map body (map Z.of_nat (seq 0 (Z.to_nat n))).

(** One pass of the loop at lines 319-363: the events, and the two reduced
    times that are added to the running sums. *)
Definition trial (kernel_calls : Z) (s : Device) (t : Trial)
  : Q * Q * list BenchEvent :=
  let time := seconds t in
  let driver_time := Double.sub (wtime_after t) (wtime_before t) in
  let mpi_time := allreduce_max time (peer_times t) in
  let mpi_driver_time := allreduce_max driver_time (peer_driver_times t) in
  (mpi_time, mpi_driver_time,
   [gpu_sync; gpu_barrier; over_timer_start; gpu_sync; gpu_barrier; MPI_Wtime]
   ++ for_loop (_data_in_estimate s)
        (fun i => [timer_start data_in i; ucl_copy_to_device i;
                   timer_stop data_in i])
   ++ for_loop kernel_calls
        (fun i => [timer_start kernel i; zero i; timer_stop kernel i])
   ++ for_loop (_data_out_estimate s)
        (fun i => [timer_start data_out i; ucl_copy_to_host i;
                   timer_stop data_out i])
   ++ [over_timer_stop; over_timer_seconds; MPI_Wtime]
   ++ (if _time_device (topo s)
       then for_loop (_data_in_estimate s) (fun i => [add_to_total data_in i])
            ++ for_loop kernel_calls (fun i => [add_to_total kernel i])
            ++ for_loop (_data_out_estimate s)
                 (fun i => [add_to_total data_out i])
       else [])
   ++ [MPI_Allreduce_MAX (_comm_gpu (topo s)) time;
       MPI_Allreduce_MAX (_comm_gpu (topo s)) driver_time]).

(** The trial loop, [for (int i=0; i<10; i++)], with its two running sums. *)
Fixpoint trials (kernel_calls : Z) (s : Device) (clock : nat -> Trial)
  (todo : list nat) (gpu_overhead gpu_driver_overhead : Q)
  : Q * Q * list BenchEvent :=
  match todo with
  | [] => (gpu_overhead, gpu_driver_overhead, [])
  | i :: todo' =>
      let '(mpi_time, mpi_driver_time, events) :=
        trial kernel_calls s (clock i) in
      let '(g, d, events') :=
        trials kernel_calls s clock todo'
          (Double.add gpu_overhead mpi_time)
          (Double.add gpu_driver_overhead mpi_driver_time) in
      (g, d, events ++ events')
  end.

Definition bench_setup (kernel_calls : Z) (s : Device) : list BenchEvent :=
  (if _data_in_estimate s >? 0
   then [new_arrays data_in (_data_in_estimate s)] else [])
  ++ (if _data_out_estimate s >? 0
      then [new_arrays data_out (_data_out_estimate s)] else [])
  ++ (if kernel_calls >? 0 then [new_arrays kernel kernel_calls] else [])
  ++ for_loop (_data_in_estimate s) (fun i => [alloc data_in i])
  ++ for_loop (_data_out_estimate s) (fun i => [alloc data_out i])
  ++ for_loop kernel_calls (fun i => [alloc kernel i]).

Definition bench_teardown (kernel_calls : Z) (s : Device) : list BenchEvent :=
  (if _data_in_estimate s >? 0 then [delete_arrays data_in] else [])
  ++ (if _data_out_estimate s >? 0 then [delete_arrays data_out] else [])
  ++ (if kernel_calls >? 0 then [delete_arrays kernel] else []).

(** [Device::estimate_gpu_overhead], lines 273-383: the two overheads it
    stores through its reference parameters, and its events. *)
Definition estimate_gpu_overhead (kernel_calls : Z) (clock : nat -> Trial)
  (s : Device) : Q * Q * list BenchEvent :=
  let '(gpu_overhead, gpu_driver_overhead, events) :=
    trials kernel_calls s clock (seq 0 10) 0%Q 0%Q in
  (Double.div gpu_overhead 10, Double.div gpu_driver_overhead 10,
   bench_setup kernel_calls s ++ events ++ bench_teardown kernel_calls s).

(** The benchmark as the specification words it. *)

(** The region timed in one trial: every inbound transfer, then every
    kernel launch, then every outbound transfer. *)
Definition timed_region (n_in n_kernel n_out : Z) : list BenchEvent :=
  for_loop n_in
    (fun i => [timer_start data_in i; ucl_copy_to_device i;
               timer_stop data_in i])
  ++ for_loop n_kernel
       (fun i => [timer_start kernel i; zero i; timer_stop kernel i])
  ++ for_loop n_out
       (fun i => [timer_start data_out i; ucl_copy_to_host i;
                  timer_stop data_out i]).

(** The average as [double] arithmetic computes it: the values are added
    one after the other to 0.0 and the sum is divided by their number. *)
Definition mean (xs : list Q) : Q :=
  Double.div (fold_left Double.add xs 0%Q)
    (inject_Z (Z.of_nat (List.length xs))).

(** The average of rational numbers. *)
Definition exact_mean (xs : list Q) : Q :=
  (fold_right Qplus 0 xs / inject_Z (Z.of_nat (List.length xs)))%Q.

(** A time in seconds that is zero, or neither so small nor so large that a
    sum of ten such times leaves the normal range of the doubles. *)
Definition ordinary_time (x : Q) : Prop :=
  (x == 0)%Q \/
  ((Double.pow2 (-1000) <= x)%Q /\ (x <= Double.pow2 1000)%Q).

(** [x] is [m] up to a relative error of [2^-49], sixteen times the unit
    roundoff. *)
Definition close_to (x m : Q) : Prop :=
  ((1 - Double.pow2 (-49)) * m <= x)%Q /\
  (x <= (1 + Double.pow2 (-49)) * m)%Q.

(** [m] is the largest of the contributions [xs]. *)
Definition is_maximum (m : Q) (xs : list Q) : Prop :=
  In m xs /\ forall x, In x xs -> (x <= m)%Q.

Definition is_start (e : BenchEvent) : bool :=
  match e with over_timer_start => true | _ => false end.

(** ** Sample configuration

    A CUDA build with single-precision accumulation, one node type, and a
    run of eight ranks on two hosts, seen from world rank 5. *)

Definition cuda_mixed : Build :=
  {| USE_OPENCL := false; _OPENMP := true; acctyp_is_double := false;
     GPU_FORCE := 0; GPU_NEIGH := 1; UCL_SUCCESS := 0 |}.

Definition cuda_double : Build :=
  {| USE_OPENCL := false; _OPENMP := true; acctyp_is_double := true;
     GPU_FORCE := 0; GPU_NEIGH := 1; UCL_SUCCESS := 0 |}.

Definition fermi : Hardware :=
  {| num_devices := 2; double_precision := true; arch := 2%Q;
     group_size := 1024; load_string := 0;
     h_gpu_lib_data := fun i =>
       nth i [200; 32; 32; 4; 8; 32; 128; 11; 8; 128; 128; 64; 128; 8] 0 |}.

Definition tesla_single : Hardware :=
  {| num_devices := 2; double_precision := false; arch := 2%Q;
     group_size := 512; load_string := 0;
     h_gpu_lib_data := fun i =>
       nth i [110; 16; 32; 4; 8; 32; 64; 8; 8; 128; 64; 64; 128; 8] 0 |}.

Definition two_hosts : list string :=
  ["nodeB"; "nodeB"; "nodeA"; "nodeA"; "nodeB"; "nodeB"; "nodeA"; "nodeA"]
  %string.

Definition rank5 : MPIEnv :=
  {| MPI_Comm_rank := fun comm => if comm =? 0 then 5 else
                                    if comm <? 1000 then 3 else 1;
     MPI_Comm_size := fun comm => if comm =? 0 then 8 else
                                    if comm <? 1000 then 4 else 2;
     MPI_Comm_split := fun comm color key => 100 * (comm + 1) + color;
     MPI_Get_processor_name := "nodeB"%string;
     MPI_Allgather_names := fun _ => two_hosts |}.

Definition bind_default : InitDeviceArgs :=
  {| world := 0; replica := 0; first_gpu := 0; last_gpu := 1;
     gpu_mode := 0; p_split := 1%Q; nthreads := 1; t_per_atom := -1 |}.

Definition all_ok : Allocator :=
  {| atom_ok := true; ans_ok := true; nbor_ok := true |}.

Definition lj_client : InitArgs :=
  {| charge := false; rot := false; nlocal := 1000; host_nlocal := 0;
     nall := 1500; maxspecial := 0; gpu_host := 0; max_nbors := 300;
     cell_size := 3%Q; pre_cut := false |}.

Definition steady_clock (i : nat) : Trial :=
  {| seconds := (inject_Z (Z.of_nat i) + 1)%Q;
     wtime_before := 10%Q; wtime_after := 12%Q;
     peer_times := [3%Q]; peer_driver_times := [1%Q] |}.

(** ** Observations used in the statements *)

(** The count stored under a key, 0 when the key is absent. *)
Definition stored (m : NameMap.t) (k : string) : Z :=
  match NameMap.find k m with Some c => c | None => 0 end.

(** The rank of the caller in its node communicator, as [init_device]
    obtains it at lines 105-107. *)
Definition node_comm_of (mpi : MPIEnv) (a : InitDeviceArgs) : MPI_Comm :=
  let name_map := count_nodes (MPI_Allgather_names mpi (world a)) [] in
  MPI_Comm_split mpi (world a)
    (assign_split_id name_map (MPI_Get_processor_name mpi) 0 0) 0.

Definition node_rank_of (mpi : MPIEnv) (a : InitDeviceArgs) : Z :=
  MPI_Comm_rank mpi (node_comm_of mpi a).

Definition procs_per_node (mpi : MPIEnv) (a : InitDeviceArgs) : Z :=
  procs_per_node_of (count_nodes (MPI_Allgather_names mpi (world a)) []).

(** The device the manager is bound to: the index given to [gpu->set]. *)
Definition device_index (s : Device) : option Z :=
  match gpu s with
  | Some d => current_device d
  | None => None
  end.

(** [k] is the ceiling of [num/den]: the least integer not below it. *)
Definition is_ceiling (num den k : Z) : Prop :=
  den * (k - 1) < num <= den * k.

(** A gathered list on which the first-seen order and the key order of the
    map differ. *)
Definition late_first_host : list string :=
  ["nodeB"; "nodeA"; "nodeA"]%string.

(** The lane count that [compile_kernels] resolves from a request, on a
    device of warp size [W] whose kernel reports the default [d]: a request
    below 1 stands for the default; a count above [W] becomes [W]; a count
    within [1..W] that does not divide [W] becomes 1. *)
Definition resolved_lanes (W d request : Z) : Z :=
  let wanted := if request <? 1 then d else request in
  if W <? wanted then W
  else if Z.rem W wanted =? 0 then wanted else 1.

(** A binding request for 40 lanes per particle, more than a warp holds. *)
Definition bind_wide : InitDeviceArgs :=
  {| world := 0; replica := 0; first_gpu := 0; last_gpu := 1;
     gpu_mode := 0; p_split := 1%Q; nthreads := 1; t_per_atom := 40 |}.

(** A node with a single device: rank 5 computes device index 1, which is
    out of range there. *)
Definition one_device : Hardware :=
  {| num_devices := 1; double_precision := true; arch := 2%Q;
     group_size := 1024; load_string := 0;
     h_gpu_lib_data := h_gpu_lib_data fermi |}.

(** A manager with two clients attached and a single-precision long-range
    precompute client registered. *)
Definition two_attached : Device :=
  set_single_precompute 7
    (final (run cuda_mixed fermi
              [call_init all_ok lj_client; call_init' all_ok 1000 1500]
              (after (init_device cuda_mixed fermi rank5 bind_default
                        (Device_new cuda_mixed))))).

(** The attach counter is not negative and the device handle holds a live
    object exactly while the manager is bound: what every member function
    preserves, starting from the constructor. *)
Definition consistent (s : Device) : Prop :=
  0 <= _init_count s /\ (_device_init s = true <-> gpu s <> None).

(** No device-resident atom or neighbor storage and no compiled module. *)
Definition released (s : Device) : Prop :=
  atom_allocated (atom s) = false /\
  _neighbor_shared s = false /\
  _compiled s = false.

(** The module builds and the device is not older than its target. *)
Definition build_ok (cfg : Build) (hw : Hardware) : bool :=
  (load_string hw =? UCL_SUCCESS cfg)
  && negb (negb (USE_OPENCL cfg)
           && Qltb (arch hw)
                (Double.div (inject_Z (h_gpu_lib_data hw 0%nat)) 100)).

(** The device index that [init_device] computes at line 112. *)
Definition my_gpu (mpi : MPIEnv) (a : InitDeviceArgs) : Z :=
  my_gpu_of (node_rank_of mpi a)
    (procs_per_gpu_of (procs_per_node mpi a) (first_gpu a) (last_gpu a))
    (first_gpu a).

Definition is_delete_gpu (e : Event) : bool :=
  match e with delete_gpu => true | _ => false end.

(** [n] detach calls in a row. *)
Fixpoint detach (n : nat) (s : Device) : Device :=
  match n with
  | O => s
  | S n' => detach n' (fst (clear s))
  end.

(** The manager of rank 5 after a successful binding, nothing attached. *)
Definition bound_rank5 : Device :=
  after (init_device cuda_mixed fermi rank5 bind_default
           (Device_new cuda_mixed)).

(** One detach call followed by one attach call. *)
Definition clear_then_init : list Call :=
  [call_clear; call_init all_ok lj_client].

(** Three clients attach, one of them the long-range solver. *)
Definition three_clients : list Call :=
  [call_init all_ok lj_client; call_init' all_ok 1000 1500;
   call_init all_ok lj_client].

(** Two clients attach and detach, interleaved. *)
Definition two_runs : list Call :=
  [call_init all_ok lj_client; call_init' all_ok 1000 1500; call_clear;
   call_init all_ok lj_client; call_clear; call_clear].

(** The parts of one trial. *)
Definition trial_events (kernel_calls : Z) (s : Device) (t : Trial)
  : list BenchEvent := snd (trial kernel_calls s t).

Definition trial_time (kernel_calls : Z) (s : Device) (t : Trial) : Q :=
  fst (fst (trial kernel_calls s t)).

Definition trial_driver_time (kernel_calls : Z) (s : Device) (t : Trial) : Q :=
  snd (fst (trial kernel_calls s t)).

Definition is_add_to_total (e : BenchEvent) : bool :=
  match e with add_to_total _ _ => true | _ => false end.

(** The states a manager can be in: the constructed one, and what the
    member functions make of a state it can be in. *)
Inductive reachable (cfg : Build) : Device -> Prop :=
| reach_new : reachable cfg (Device_new cfg)
| reach_init_device (hw : Hardware) (mpi : MPIEnv) (a : InitDeviceArgs)
    (s : Device) :
    reachable cfg s -> reachable cfg (after (init_device cfg hw mpi a s))
| reach_init (hw : Hardware) (al : Allocator) (a : InitArgs) (s : Device) :
    reachable cfg s -> reachable cfg (after (init cfg hw al a s))
| reach_init' (hw : Hardware) (al : Allocator) (nlocal nall : Z)
    (s : Device) :
    reachable cfg s -> reachable cfg (after (init' cfg hw al nlocal nall s))
| reach_single_precompute (pppm : Z) (s : Device) :
    reachable cfg s -> reachable cfg (set_single_precompute pppm s)
| reach_double_precompute (pppm : Z) (s : Device) :
    reachable cfg s -> reachable cfg (set_double_precompute pppm s)
| reach_clear (s : Device) :
    reachable cfg s -> reachable cfg (fst (clear s))
| reach_clear_device (s : Device) :
    reachable cfg s -> reachable cfg (fst (clear_device s)).

(** ** Further observations *)

(** The sum of the counts held by the map. *)
Definition total_count (m : NameMap.t) : Z :=
  fold_right (fun entry sum => snd entry + sum) 0 m.

(** The node id that [init_device] gives a host name, lines 96-101. *)
Definition split_id_of (node_names : list string) (node_string : string)
  : Z :=
  assign_split_id (count_nodes node_names []) node_string 0 0.

(** A device whose module builds but whose architecture is older than the
    one the kernels were generated for. *)
Definition old_device : Hardware :=
  {| num_devices := 2; double_precision := false; arch := 1%Q;
     group_size := 512; load_string := 0;
     h_gpu_lib_data := h_gpu_lib_data fermi |}.

(** A device of architecture 1.2, which as a [double] is the one nearest
    to 12/10, with kernels generated for that architecture ([h[0]] is
    120). *)
Definition arch_1_2 : Hardware :=
  {| num_devices := 2; double_precision := false;
     arch := Double.round (12 # 10);
     group_size := 512; load_string := 0;
     h_gpu_lib_data := fun i =>
       nth i [120; 16; 32; 4; 8; 32; 64; 8; 8; 128; 64; 64; 128; 8] 0 |}.

(** A device whose kernel reports block sizes beyond its group size, one
    of them negative. *)
Definition small_groups : Hardware :=
  {| num_devices := 2; double_precision := true; arch := 2%Q;
     group_size := 64; load_string := 0;
     h_gpu_lib_data := fun i =>
       nth i [200; 32; 32; 4; 8; 32; 128; 11; 8; 128; 128; -64; 128; 8] 0 |}.

(** Three ranks on one host, seen from world rank 1. *)
Definition rank1_of_three : MPIEnv :=
  {| MPI_Comm_rank := fun comm => 1;
     MPI_Comm_size := fun comm => 3;
     MPI_Comm_split := fun comm color key => 100 * (comm + 1) + color;
     MPI_Get_processor_name := "nodeA"%string;
     MPI_Allgather_names := fun _ => ["nodeA"; "nodeA"; "nodeA"]%string |}.

Definition is_nbor_init (e : Event) : bool :=
  match e with nbor_init _ => true | _ => false end.

Definition is_atom_clear (e : Event) : bool :=
  match e with atom_clear => true | _ => false end.

(** The particle counts for which [ans.init] was called. *)
Definition ans_init_sizes (es : list Event) : list Z :=
  flat_map (fun e => match e with ans_init n _ _ _ => [n] | _ => [] end) es.

(** A manager bound with three quarters of the particles on the device. *)
Definition bind_split : InitDeviceArgs :=
  {| world := 0; replica := 0; first_gpu := 0; last_gpu := 1;
     gpu_mode := 1; p_split := 3 # 4; nthreads := 1; t_per_atom := 4 |}.

Definition bound_split : Device :=
  after (init_device cuda_mixed fermi rank5 bind_split
           (Device_new cuda_mixed)).

(** A particle split of [0.7]: the literal denotes the double nearest to
    7/10, which is 3152519739159347 / 2^52. *)
Definition bind_uneven_split : InitDeviceArgs :=
  {| world := 0; replica := 0; first_gpu := 0; last_gpu := 1;
     gpu_mode := 1; p_split := Double.round (7 # 10); nthreads := 1;
     t_per_atom := 4 |}.

Definition bound_uneven_split : Device :=
  after (init_device cuda_mixed fermi rank5 bind_uneven_split
           (Device_new cuda_mixed)).

(** A client with ten local particles. *)
Definition small_client : InitArgs :=
  {| charge := false; rot := false; nlocal := 10; host_nlocal := 0;
     nall := 15; maxspecial := 0; gpu_host := 0; max_nbors := 300;
     cell_size := 3%Q; pre_cut := false |}.

(** The atom storage is allocated, the answer storage is not. *)
Definition ans_fails : Allocator :=
  {| atom_ok := true; ans_ok := false; nbor_ok := true |}.

(** A client that needs charge and orientation. *)
Definition charged_ellipsoid : InitArgs :=
  {| charge := true; rot := true; nlocal := 1000; host_nlocal := 0;
     nall := 1500; maxspecial := 2; gpu_host := 0; max_nbors := 300;
     cell_size := 3%Q; pre_cut := false |}.

(** Counting the events of the benchmark. *)
Definition count_bench (p : BenchEvent -> bool) (es : list BenchEvent)
  : nat := List.length (filter p es).

Definition Family_eqb (f g : Family) : bool :=
  match f, g with
  | data_in, data_in | data_out, data_out | kernel, kernel => true
  | _, _ => false
  end.

Definition is_copy_to_device (e : BenchEvent) : bool :=
  match e with ucl_copy_to_device _ => true | _ => false end.

Definition is_copy_to_host (e : BenchEvent) : bool :=
  match e with ucl_copy_to_host _ => true | _ => false end.

Definition is_zero (e : BenchEvent) : bool :=
  match e with zero _ => true | _ => false end.

Definition is_new_arrays (f : Family) (e : BenchEvent) : bool :=
  match e with new_arrays g _ => Family_eqb f g | _ => false end.

Definition is_alloc (f : Family) (e : BenchEvent) : bool :=
  match e with alloc g _ => Family_eqb f g | _ => false end.

Definition is_delete_arrays (f : Family) (e : BenchEvent) : bool :=
  match e with delete_arrays g => Family_eqb f g | _ => false end.

(** The events that touch the kernel buffers and timers. *)
Definition is_kernel_event (e : BenchEvent) : bool :=
  match e with
  | new_arrays kernel _ | alloc kernel _ | timer_start kernel _
  | timer_stop kernel _ | add_to_total kernel _ | delete_arrays kernel
  | zero _ => true
  | _ => false
  end.

(** The number of buffers of a family that the benchmark uses. *)
Definition family_size (kernel_calls : Z) (s : Device) (f : Family) : Z :=
  match f with
  | data_in => _data_in_estimate s
  | data_out => _data_out_estimate s
  | kernel => kernel_calls
  end.

(** ** The start-up message: [Device::init_message], lines 230-271 *)

(** An argument of an [fprintf] call. *)
Inductive Arg :=
| arg_int (n : Z)
| arg_str (t : string).

(** One [fprintf(screen, format, arguments...)]. *)
Definition Printed : Type := string * list Arg.

Definition LF : string := String (ascii_of_nat 10) EmptyString.

(** What the device layer and [toa] give for the texts of a device line:
    [gpu->name(i)], [toa(gpu->cores(i))], [toa(gpu->gigabytes(i))],
    [toa(gpu->clock_rate(i))] and [toa(gpu->free_gigabytes())]. *)
Record DeviceTexts := {
  gpu_name : Z -> string;
  gpu_cores : Z -> string;
  gpu_gigabytes : Z -> string;
  gpu_clock_rate : Z -> string;
  gpu_free_gigabytes : string
}.

(** [for (int i=first; i<last; i++)]: the values of [i], in order. *)
Definition int_range (first last : Z) : list Z :=
  map (fun k => first + Z.of_nat k) (seq 0 (Z.to_nat (last - first))).

(** Lines 257-263; [numtyp_is_float] is [sizeof(PRECISION)==4]. *)
Definition precision_label (cfg : Build) (numtyp_is_float : bool) : string :=
  if numtyp_is_float
  then if negb (acctyp_is_double cfg)
       then "Single Precision)"%string else "Mixed Precision)"%string
  else "Double Precision)"%string.

Definition init_message (cfg : Build) (numtyp_is_float : bool)
  (hw : Hardware) (texts : DeviceTexts) (screen : bool) (name : string)
  (first_gpu last_gpu : Z) (s : Device) : list Printed :=
  let fs := if USE_OPENCL cfg then EmptyString
            else (gpu_free_gigabytes texts ++ "/")%string in
  if (_replica_me (topo s) =? 0) && screen then
    let rule :=
      [((LF ++ "-------------------------------------")%string, []);
       (("-------------------------------------" ++ LF)%string, [])] in
    let last := last_gpu + 1 in
    let last := if last >? num_devices hw then num_devices hw else last in
    rule
    ++ [(("- Using GPGPU acceleration for %s:" ++ LF)%string, [arg_str name]);
        (("-  with %d proc(s) per device." ++ LF)%string,
         [arg_int (_procs_per_gpu (topo s))])]
    ++ (if _OPENMP cfg
        then [(("-  with %d thread(s) per proc." ++ LF)%string,
               [arg_int (_nthreads s)])]
        else [])
    ++ [("-------------------------------------"%string, []);
        (("-------------------------------------" ++ LF)%string, [])]
    ++ map (fun i =>
              let sname :=
                (gpu_name texts i ++ ", " ++ gpu_cores texts i ++ " cores, "
                 ++ fs ++ gpu_gigabytes texts i ++ " GB, "
                 ++ gpu_clock_rate texts i ++ " GHZ ("
                 ++ precision_label cfg numtyp_is_float)%string in
              (("GPU %d: %s" ++ LF)%string, [arg_int i; arg_str sname]))
         (int_range first_gpu last)
    ++ [("-------------------------------------"%string, []);
        (("-------------------------------------" ++ LF ++ LF)%string, [])]
  else [].

(** The devices that a message lists, in the order of its lines. *)
Definition listed_devices (out : list Printed) : list Z :=
  flat_map (fun line =>
              match line with
              | (_, [arg_int i; arg_str _]) => [i]
              | _ => []
              end) out.

Definition plain_texts : DeviceTexts :=
  {| gpu_name := fun _ => "Tesla"%string;
     gpu_cores := fun _ => "448"%string;
     gpu_gigabytes := fun _ => "3"%string;
     gpu_clock_rate := fun _ => "1.15"%string;
     gpu_free_gigabytes := "2.9"%string |}.

(** A binding request for the second device only. *)
Definition bind_second : InitDeviceArgs :=
  {| world := 0; replica := 0; first_gpu := 1; last_gpu := 1;
     gpu_mode := 0; p_split := 1%Q; nthreads := 1; t_per_atom := 4 |}.

(** A single rank on one host. *)
Definition alone : MPIEnv :=
  {| MPI_Comm_rank := fun comm => 0;
     MPI_Comm_size := fun comm => 1;
     MPI_Comm_split := fun comm color key => 100 * (comm + 1) + color;
     MPI_Get_processor_name := "nodeA"%string;
     MPI_Allgather_names := fun _ => ["nodeA"]%string |}.

Definition bind_first : InitDeviceArgs :=
  {| world := 0; replica := 0; first_gpu := 0; last_gpu := 0;
     gpu_mode := 0; p_split := 1%Q; nthreads := 1; t_per_atom := 4 |}.

(** * Properties *)

(** ** Rounding to the nearest double *)

Module DoubleFacts.
Import Double.

Lemma pow2_pos (k : Z) : (0 < pow2 k)%Q.
Proof. apply Qpower_0_lt. reflexivity. Qed.

Lemma pow2_plus (a b : Z) : (pow2 (a + b) == pow2 a * pow2 b)%Q.
Proof. apply Qpower_plus. discriminate. Qed.

Lemma pow2_le (a b : Z) : a <= b -> (pow2 a <= pow2 b)%Q.
Proof. intro H. apply Qpower_le_compat_l; [exact H|discriminate]. Qed.

Lemma pow2_lt_inv (a b : Z) : (pow2 a < pow2 b)%Q -> a < b.
Proof. intro H. apply (Qpower_lt_compat_l_inv 2); [exact H|reflexivity]. Qed.

Lemma pow2_Z (k : Z) : 0 <= k -> (pow2 k == inject_Z (2 ^ k))%Q.
Proof. intro H. unfold pow2. rewrite Zpower_Qpower by exact H. reflexivity. Qed.

Lemma Qmake_mult_den (n : Z) (d : positive) :
  ((n # d) * inject_Z (Zpos d) == inject_Z n)%Q.
Proof. unfold Qeq, Qmult, inject_Z. simpl. lia. Qed.

Lemma ilog2_spec (x : Q) :
  (0 < x)%Q -> (pow2 (ilog2 x) <= x)%Q /\ (x < pow2 (ilog2 x + 1))%Q.
Proof.
  intro Hx. destruct x as [n d].
  assert (Hn : 0 < n) by (unfold Qlt in Hx; simpl in Hx; lia).
  pose proof (Z.log2_spec n Hn) as (Hn1 & Hn2).
  pose proof (Z.log2_spec (Zpos d) (Pos2Z.is_pos d)) as (Hd1 & Hd2).
  pose proof (Z.log2_nonneg n) as Ha.
  pose proof (Z.log2_nonneg (Zpos d)) as Hb.
  unfold ilog2. cbn [Qnum Qden].
  set (a := Z.log2 n) in *. set (b := Z.log2 (Zpos d)) in *.
  pose proof (Qmake_mult_den n d) as Hxd.
  assert (Hx0 : (0 <= n # d)%Q) by (apply Qlt_le_weak; exact Hx).
  assert (Hup : (n # d < pow2 (a - b + 1))%Q).
  { apply (proj1 (Qmult_lt_r _ _ (pow2 b) (pow2_pos b))).
    rewrite <- pow2_plus. replace (a - b + 1 + b) with (Z.succ a) by lia.
    apply Qle_lt_trans with ((n # d) * inject_Z (Zpos d))%Q.
    - apply Qmult_le_compat_nonneg.
      + split; [exact Hx0|apply Qle_refl].
      + split; [apply Qlt_le_weak, pow2_pos|].
        rewrite pow2_Z by exact Hb. rewrite <- Zle_Qle. exact Hd1.
    - rewrite Hxd, pow2_Z by lia. rewrite <- Zlt_Qlt. exact Hn2. }
  assert (Hlo : (pow2 (a - b - 1) <= n # d)%Q).
  { apply (proj1 (Qmult_le_r _ _ (pow2 (b + 1)) (pow2_pos (b + 1)))).
    rewrite <- pow2_plus. replace (a - b - 1 + (b + 1)) with a by lia.
    apply Qle_trans with ((n # d) * inject_Z (Zpos d))%Q.
    - rewrite Hxd, pow2_Z by lia. rewrite <- Zle_Qle. exact Hn1.
    - apply Qmult_le_compat_nonneg.
      + split; [exact Hx0|apply Qle_refl].
      + split; [change 0%Q with (inject_Z 0); rewrite <- Zle_Qle; lia|].
        rewrite pow2_Z by lia. rewrite <- Zle_Qle.
        change (Z.succ b) with (b + 1) in Hd2. lia. }
  destruct (Qle_bool (pow2 (a - b)) (n # d)) eqn:E.
  - split; [apply Qle_bool_iff; exact E|exact Hup].
  - split; [exact Hlo|].
    replace (a - b - 1 + 1) with (a - b) by lia.
    apply Qnot_le_lt. intro C. apply Qle_bool_iff in C. congruence.
Qed.

Lemma ilog2_le (x y : Q) : (0 < x)%Q -> (x <= y)%Q -> ilog2 x <= ilog2 y.
Proof.
  intros Hx Hxy.
  destruct (ilog2_spec x Hx) as (Lx & _).
  destruct (ilog2_spec y (Qlt_le_trans _ _ _ Hx Hxy)) as (_ & Uy).
  assert (H : (pow2 (ilog2 x) < pow2 (ilog2 y + 1))%Q).
  { apply Qle_lt_trans with x; [exact Lx|].
    apply Qle_lt_trans with y; assumption. }
  apply pow2_lt_inv in H. lia.
Qed.

Lemma rne_comp (q q' : Q) : (q == q')%Q -> rne q = rne q'.
Proof.
  intro H. unfold rne. rewrite (Qfloor_comp _ _ H).
  assert (E : (q - inject_Z (Qfloor q') == q' - inject_Z (Qfloor q'))%Q)
    by (rewrite H; reflexivity).
  rewrite (Qcompare_comp _ _ E _ _ (Qeq_refl (1 # 2))). reflexivity.
Qed.

Lemma rne_bounds (q : Q) : Qfloor q <= rne q <= Qfloor q + 1.
Proof.
  unfold rne.
  destruct (q - inject_Z (Qfloor q) ?= 1 # 2)%Q;
    [destruct (Z.even (Qfloor q))|..]; lia.
Qed.

Lemma rne_Z (z : Z) : rne (inject_Z z) = z.
Proof.
  unfold rne. rewrite Qfloor_Z.
  assert (E : (inject_Z z - inject_Z z ?= 1 # 2)%Q = Lt).
  { apply Qlt_alt.
    setoid_replace (inject_Z z - inject_Z z)%Q with 0%Q by ring.
    reflexivity. }
  rewrite E. reflexivity.
Qed.

Lemma rne_le (q q' : Q) : (q <= q')%Q -> rne q <= rne q'.
Proof.
  intro H. pose proof (Qfloor_resp_le _ _ H) as Hf.
  destruct (Z.eq_dec (Qfloor q) (Qfloor q')) as [E|N].
  - unfold rne. rewrite E.
    generalize (Z.even (Qfloor q')). intro ev.
    generalize dependent (inject_Z (Qfloor q')). intros c.
    destruct (Qcompare_spec (q - c) (1 # 2)) as [C|C|C];
      destruct (Qcompare_spec (q' - c) (1 # 2)) as [C'|C'|C'];
      try (destruct ev); try lia; exfalso; lra.
  - pose proof (rne_bounds q). pose proof (rne_bounds q'). lia.
Qed.

Lemma exponent_ge (x : Q) : ilog2 x - 52 <= exponent x /\ -1074 <= exponent x.
Proof. unfold exponent. lia. Qed.

Lemma scaled_le (x y : Q) (e : Z) :
  (x <= y)%Q -> (x / pow2 e <= y / pow2 e)%Q.
Proof.
  intro H. unfold Qdiv. apply Qmult_le_compat_r; [exact H|].
  apply Qlt_le_weak, Qinv_lt_0_compat, pow2_pos.
Qed.

Lemma round_pos_nonneg (x : Q) : (0 <= x)%Q -> (0 <= round_pos x)%Q.
Proof.
  intro H. unfold round_pos.
  apply Qmult_le_0_compat; [|apply Qlt_le_weak, pow2_pos].
  change 0%Q with (inject_Z 0). rewrite <- Zle_Qle.
  rewrite <- (rne_Z 0). apply rne_le.
  apply Qle_shift_div_l; [apply pow2_pos|].
  change (inject_Z 0) with 0%Q. rewrite Qmult_0_l. exact H.
Qed.

Lemma round_pos_le (x y : Q) :
  (0 < x)%Q -> (x <= y)%Q -> (round_pos x <= round_pos y)%Q.
Proof.
  intros Hx Hxy.
  assert (Hy : (0 < y)%Q) by (apply Qlt_le_trans with x; assumption).
  pose proof (ilog2_le x y Hx Hxy) as Hl.
  destruct (ilog2_spec x Hx) as (_ & Ux).
  destruct (ilog2_spec y Hy) as (Ly & _).
  unfold round_pos.
  destruct (Z.eq_dec (exponent x) (exponent y)) as [E|N].
  - rewrite E. apply Qmult_le_compat_r; [|apply Qlt_le_weak, pow2_pos].
    rewrite <- Zle_Qle. apply rne_le, scaled_le. exact Hxy.
  - assert (Hlt : exponent x < exponent y) by (unfold exponent in *; lia).
    assert (Ey : exponent y = ilog2 y - 52) by (unfold exponent in *; lia).
    apply Qle_trans with (pow2 (exponent x + 53)).
    + rewrite Z.add_comm, pow2_plus.
      apply Qmult_le_compat_r; [|apply Qlt_le_weak, pow2_pos].
      rewrite (pow2_Z 53) by lia. rewrite <- Zle_Qle.
      apply Z.le_trans with (rne (inject_Z (2 ^ 53)));
        [apply rne_le|rewrite rne_Z; apply Z.le_refl].
      apply Qle_shift_div_r; [apply pow2_pos|].
      rewrite <- (pow2_Z 53), <- pow2_plus by lia.
      apply Qle_trans with (pow2 (ilog2 x + 1));
        [apply Qlt_le_weak; exact Ux|].
      apply pow2_le. unfold exponent. lia.
    + apply Qle_trans with (pow2 (52 + exponent y));
        [apply pow2_le; lia|].
      rewrite pow2_plus.
      apply Qmult_le_compat_r; [|apply Qlt_le_weak, pow2_pos].
      rewrite (pow2_Z 52) by lia. rewrite <- Zle_Qle.
      apply Z.le_trans with (rne (inject_Z (2 ^ 52)));
        [rewrite rne_Z; apply Z.le_refl|apply rne_le].
      apply Qle_shift_div_l; [apply pow2_pos|].
      rewrite <- (pow2_Z 52), <- pow2_plus by lia.
      replace (52 + exponent y) with (ilog2 y) by lia. exact Ly.
Qed.

Lemma round_nonneg (x : Q) : (0 <= x)%Q -> (0 <= round x)%Q.
Proof.
  intro H. unfold round. destruct (Qcompare_spec x 0) as [C|C|C].
  - apply Qle_refl.
  - exfalso. lra.
  - apply round_pos_nonneg. exact H.
Qed.

Lemma round_nonpos (x : Q) : (x <= 0)%Q -> (round x <= 0)%Q.
Proof.
  intro H. unfold round. destruct (Qcompare_spec x 0) as [C|C|C].
  - apply Qle_refl.
  - pose proof (round_pos_nonneg (- x)) as P.
    assert (H0 : (0 <= - x)%Q) by lra. specialize (P H0). lra.
  - exfalso. lra.
Qed.

(** Rounding is monotone. *)
Lemma round_le (x y : Q) : (x <= y)%Q -> (round x <= round y)%Q.
Proof.
  intro H. 
  destruct (Qlt_le_dec 0 x) as [Px|Nx].
  - assert (Py : (0 < y)%Q) by lra.
    unfold round.
    assert (Cx : (x ?= 0)%Q = Gt) by (apply Qgt_alt; exact Px).
    assert (Cy : (y ?= 0)%Q = Gt) by (apply Qgt_alt; exact Py).
    rewrite Cx, Cy. apply round_pos_le; assumption.
  - destruct (Qlt_le_dec y 0) as [Ny|Py].
    + assert (Nx' : (x < 0)%Q) by lra.
      unfold round.
      assert (Cx : (x ?= 0)%Q = Lt) by (apply Qlt_alt; exact Nx').
      assert (Cy : (y ?= 0)%Q = Lt) by (apply Qlt_alt; exact Ny).
      rewrite Cx, Cy.
      assert (P : (round_pos (- y) <= round_pos (- x))%Q)
        by (apply round_pos_le; lra).
      lra.
    + apply Qle_trans with 0%Q; [apply round_nonpos|apply round_nonneg];
        assumption.
Qed.

Lemma round_pos_Z (z : Z) :
  0 < z < 2 ^ 53 -> (round_pos (inject_Z z) == inject_Z z)%Q.
Proof.
  intros (Hz & Hlt).
  assert (Hx : (0 < inject_Z z)%Q)
    by (change 0%Q with (inject_Z 0); rewrite <- Zlt_Qlt; exact Hz).
  destruct (ilog2_spec _ Hx) as (L & _).
  assert (Hl : ilog2 (inject_Z z) < 53).
  { apply pow2_lt_inv. apply Qle_lt_trans with (inject_Z z); [exact L|].
    rewrite pow2_Z by lia. rewrite <- Zlt_Qlt. exact Hlt. }
  unfold round_pos.
  pose proof (exponent_ge (inject_Z z)) as (_ & He).
  assert (He' : exponent (inject_Z z) <= 0) by (unfold exponent; lia).
  set (e := exponent (inject_Z z)) in *.
  assert (P : (pow2 (- e) * pow2 e == 1)%Q).
  { rewrite <- pow2_plus. replace (- e + e) with 0 by lia. reflexivity. }
  assert (S : (inject_Z z / pow2 e == inject_Z (z * 2 ^ (- e)))%Q).
  { rewrite inject_Z_mult, <- (pow2_Z (- e)) by lia.
    unfold Qdiv, pow2. rewrite Qpower_opp. reflexivity. }
  rewrite (rne_comp _ _ S), rne_Z, inject_Z_mult, <- (pow2_Z (- e)) by lia.
  rewrite <- Qmult_assoc, P. ring.
Qed.

(** Integers below [2^53] in magnitude are doubles. *)
Lemma round_Z (z : Z) :
  - 2 ^ 53 < z < 2 ^ 53 -> (round (inject_Z z) == inject_Z z)%Q.
Proof.
  intros (Hlo & Hhi). unfold round.
  destruct (Qcompare_spec (inject_Z z) 0) as [C|C|C].
  - symmetry. exact C.
  - change 0%Q with (inject_Z 0) in C. rewrite <- Zlt_Qlt in C.
    rewrite <- inject_Z_opp, round_pos_Z by lia.
    rewrite inject_Z_opp. ring.
  - change 0%Q with (inject_Z 0) in C. rewrite <- Zlt_Qlt in C.
    apply round_pos_Z. lia.
Qed.

Lemma rne_error (q : Q) :
  (q - (1 # 2) <= inject_Z (rne q))%Q /\ (inject_Z (rne q) <= q + (1 # 2))%Q.
Proof.
  unfold rne.
  pose proof (Qfloor_le q) as Hlo. pose proof (Qlt_floor q) as Hhi.
  rewrite inject_Z_plus in Hhi. change (inject_Z 1) with 1%Q in Hhi.
  assert (Hs : (inject_Z (Qfloor q + 1) == inject_Z (Qfloor q) + 1)%Q)
    by (rewrite inject_Z_plus; reflexivity).
  destruct (Qcompare_spec (q - inject_Z (Qfloor q)) (1 # 2)) as [C|C|C];
    [destruct (Z.even (Qfloor q))|..]; try rewrite Hs;
    revert Hlo Hhi C; generalize (inject_Z (Qfloor q)); intros c Hlo Hhi C;
    split; lra.
Qed.

Lemma round_pos_error (x : Q) :
  (pow2 (-1022) <= x)%Q ->
  ((1 - unit_roundoff) * x <= round_pos x)%Q /\
  (round_pos x <= (1 + unit_roundoff) * x)%Q.
Proof.
  intro Hx.
  assert (Hpos : (0 < x)%Q)
    by (apply Qlt_le_trans with (pow2 (-1022)); [apply pow2_pos|exact Hx]).
  destruct (ilog2_spec x Hpos) as (L & U).
  assert (Hl : -1022 <= ilog2 x).
  { assert (H : (pow2 (-1022) < pow2 (ilog2 x + 1))%Q)
      by (apply Qle_lt_trans with x; assumption).
    apply pow2_lt_inv in H. lia. }
  unfold round_pos.
  assert (He : exponent x = ilog2 x - 52) by (unfold exponent; lia).
  rewrite He. set (e := ilog2 x - 52).
  destruct (rne_error (x / pow2 e)) as (R1 & R2).
  pose proof (pow2_pos e) as Pe.
  assert (Hne : ~ (pow2 e == 0)%Q)
    by (intro C; rewrite C in Pe; discriminate Pe).
  assert (Hq : (x / pow2 e * pow2 e == x)%Q) by (field; exact Hne).
  clear Hne.
  assert (Hu : (pow2 e * (1 # 2) <= unit_roundoff * x)%Q).
  { unfold unit_roundoff.
    apply Qle_trans with (pow2 (-53) * pow2 (ilog2 x))%Q.
    - rewrite <- pow2_plus.
      replace (-53 + ilog2 x) with (e + -1) by (unfold e; lia).
      rewrite pow2_plus. apply Qmult_le_compat_nonneg.
      + split; [apply Qlt_le_weak; exact Pe|apply Qle_refl].
      + split; [discriminate|]. apply Qle_bool_iff. reflexivity.
    - apply Qmult_le_compat_nonneg.
      + split; [apply Qlt_le_weak, pow2_pos|apply Qle_refl].
      + split; [apply Qlt_le_weak, pow2_pos|exact L]. }
  revert R1 R2 Hq Hu. generalize (inject_Z (rne (x / pow2 e))).
  generalize (x / pow2 e)%Q. generalize unit_roundoff. revert Pe.
  generalize (pow2 e). intros p Pp u q r R1 R2 Hq Hu.
  assert (A1 : ((q - (1 # 2)) * p <= r * p)%Q)
    by (apply Qmult_le_compat_r; lra).
  assert (A2 : (r * p <= (q + (1 # 2)) * p)%Q)
    by (apply Qmult_le_compat_r; lra).
  split; lra.
Qed.

(** One rounding of a value that is zero or in the normal range changes it
    by at most the unit roundoff, relatively. *)
Lemma round_error (x : Q) :
  (x == 0)%Q \/ (pow2 (-1022) <= x)%Q ->
  ((1 - unit_roundoff) * x <= round x)%Q /\
  (round x <= (1 + unit_roundoff) * x)%Q.
Proof.
  intros [H0|Hx]; unfold round.
  - destruct (Qcompare_spec x 0) as [C|C|C]; try (exfalso; lra).
    rewrite H0. split; lra.
  - assert (Hpos : (0 < x)%Q)
      by (apply Qlt_le_trans with (pow2 (-1022)); [apply pow2_pos|exact Hx]).
    destruct (Qcompare_spec x 0) as [C|C|C]; try (exfalso; lra).
    apply round_pos_error. exact Hx.
Qed.

Lemma round_zero (x : Q) : (x == 0)%Q -> round x = 0%Q.
Proof.
  intro H. unfold round.
  destruct (Qcompare_spec x 0) as [C|C|C]; [reflexivity| |]; exfalso; lra.
Qed.

Local Open Scope Q_scope.

Lemma qpow_range (q : Q) (n : nat) : 0 <= q <= 1 -> 0 <= qpow q n <= 1.
Proof.
  intro Hq. induction n as [|n IH]; cbn [qpow].
  - split; discriminate.
  - destruct IH as (I0 & I1). destruct Hq as (Q0 & Q1). split.
    + apply Qmult_le_0_compat; assumption.
    + setoid_replace 1 with (1 * 1) by ring.
      apply Qmult_le_compat_nonneg; split; assumption.
Qed.

Lemma unit_roundoff_range : 0 < unit_roundoff /\ unit_roundoff <= 1 # 2.
Proof. split; [reflexivity|]. apply Qle_bool_iff. reflexivity. Qed.

Lemma tiny_half : pow2 (-1022) <= (1 # 2) * pow2 (-1000).
Proof. apply Qle_bool_iff. vm_compute. reflexivity. Qed.

Lemma add_accuracy (a b F S x : Q) :
  1 # 2 <= a -> a <= 1 -> 1 <= b ->
  0 <= S -> S == 0 \/ pow2 (-1000) <= S ->
  ordinary_time x ->
  a * S <= F -> F <= b * S ->
  a * (1 - unit_roundoff) * (S + x) <= add F x /\
  add F x <= b * (1 + unit_roundoff) * (S + x) /\
  0 <= S + x /\
  (S + x == 0 \/ pow2 (-1000) <= S + x).
Proof.
  intros Ha Ha1 Hb HS HS' Hx HF1 HF2.
  pose proof unit_roundoff_range as (U0 & U1).
  pose proof tiny_half as T.
  pose proof (pow2_pos (-1000)) as P.
  assert (Hx0 : 0 <= x) by (destruct Hx as [E|[E _]]; lra).
  assert (Hsum : S + x == 0 \/ pow2 (-1000) <= S + x).
  { destruct Hx as [E|[E _]]; [|right; lra].
    destruct HS' as [E'|E']; [left|right]; lra. }
  assert (Hy1 : a * (S + x) <= F + x) by nra.
  assert (Hy2 : F + x <= b * (S + x)) by nra.
  assert (Hy : F + x == 0 \/ pow2 (-1022) <= F + x).
  { destruct Hsum as [E|E]; [left|right]; nra. }
  destruct (round_error (F + x) Hy) as (R1 & R2).
  unfold add. revert Hy1 Hy2 R1 R2. generalize (round (F + x)).
  generalize unit_roundoff U0 U1. intros u U0' U1' r Hy1 Hy2 R1 R2.
  split; [nra|]. split; [nra|]. split; [lra|exact Hsum].
Qed.

Lemma sum_accuracy (l : list Q) :
  forall a b F S : Q,
    Forall ordinary_time l ->
    1 # 2 <= a * qpow (1 - unit_roundoff) (List.length l) ->
    a <= 1 -> 1 <= b ->
    0 <= S -> S == 0 \/ pow2 (-1000) <= S ->
    a * S <= F -> F <= b * S ->
    a * qpow (1 - unit_roundoff) (List.length l)
      * (S + fold_right Qplus 0 l) <= fold_left add l F /\
    fold_left add l F <=
      b * qpow (1 + unit_roundoff) (List.length l)
        * (S + fold_right Qplus 0 l) /\
    0 <= S + fold_right Qplus 0 l /\
    (S + fold_right Qplus 0 l == 0 \/
     pow2 (-1000) <= S + fold_right Qplus 0 l).
Proof.
  pose proof unit_roundoff_range as (U0 & U1).
  induction l as [|x l IH]; intros a b F S Hl Ha Ha1 Hb HS HS' HF1 HF2.
  - cbn [List.length qpow fold_right fold_left] in *.
    split; [lra|]. split; [lra|]. split; [lra|].
    destruct HS' as [E|E]; [left|right]; lra.
  - cbn [List.length qpow fold_right fold_left] in *.
    inversion Hl as [|? ? Hx Hl']; subst.
    pose proof (qpow_range (1 - unit_roundoff) (List.length l)
                  ltac:(split; lra)) as (Q0 & Q1).
    assert (Ha' : 1 # 2 <= a).
    { revert Ha Q0 Q1.
      generalize (qpow (1 - unit_roundoff) (List.length l)).
      intros p Ha Q0 Q1.
      assert (T0 : 0 <= (1 - unit_roundoff) * p) by nra.
      assert (T1 : (1 - unit_roundoff) * p <= 1) by nra.
      revert Ha T0 T1. generalize ((1 - unit_roundoff) * p).
      intros t Ha T0 T1.
      destruct (Qlt_le_dec a 0) as [N|N]; [exfalso; nra|].
      destruct (Qlt_le_dec a (1 # 2)) as [C|C]; [exfalso; nra|exact C]. }
    destruct (add_accuracy a b F S x Ha' Ha1 Hb HS HS' Hx HF1 HF2)
      as (A1 & A2 & A3 & A4).
    destruct (IH (a * (1 - unit_roundoff)) (b * (1 + unit_roundoff))
                (add F x) (S + x) Hl') as (I1 & I2 & I3 & I4);
      try assumption; try nra.
Qed.

End DoubleFacts.

Lemma Qceiling_unique (y : Q) (c : Z) :
  (inject_Z (c - 1) < y)%Q -> (y <= inject_Z c)%Q -> Qceiling y = c.
Proof.
  intros Hlo Hhi.
  pose proof (Qceiling_resp_le _ _ Hhi) as H1. rewrite Qceiling_Z in H1.
  pose proof (Qle_ceiling y) as H2.
  assert (H3 : (inject_Z (c - 1) < inject_Z (Qceiling y))%Q)
    by (apply Qlt_le_trans with y; assumption).
  rewrite <- Zlt_Qlt in H3. lia.
Qed.

(** Lines 110-111 in [double] arithmetic: for [int] operands the rounding of
    the quotient does not change its ceiling, which is why
    [procs_per_gpu_of] takes the ceiling of the exact quotient. *)
Lemma procs_per_gpu_of_double (procs_per_node first_gpu last_gpu : Z) :
  0 <= procs_per_node < 2 ^ 31 ->
  1 <= last_gpu - first_gpu + 1 < 2 ^ 31 ->
  Qceiling
    (Double.div (inject_Z procs_per_node)
       (inject_Z (last_gpu - first_gpu + 1))) =
  procs_per_gpu_of procs_per_node first_gpu last_gpu.
Proof.
  intros Hp Hn. unfold procs_per_gpu_of, Double.div.
  set (n := last_gpu - first_gpu + 1) in *.
  set (x := (inject_Z procs_per_node / inject_Z n)%Q).
  assert (HN : (1 <= inject_Z n)%Q)
    by (change 1%Q with (inject_Z 1); rewrite <- Zle_Qle; lia).
  assert (HN' : (inject_Z n <= inject_Z (2 ^ 31))%Q)
    by (rewrite <- Zle_Qle; lia).
  assert (HP : (0 <= inject_Z procs_per_node)%Q)
    by (change 0%Q with (inject_Z 0); rewrite <- Zle_Qle; lia).
  assert (HP' : (inject_Z procs_per_node <= inject_Z (2 ^ 31))%Q)
    by (rewrite <- Zle_Qle; lia).
  assert (Hx : (x * inject_Z n == inject_Z procs_per_node)%Q)
    by (unfold x; field; lra).
  apply Qceiling_unique.
  - pose proof (Qceiling_lt x) as Hc.
    set (c1 := Qceiling x - 1) in *.
    assert (Hz : c1 * n + 1 <= procs_per_node).
    { assert (H : (inject_Z (c1 * n) < inject_Z procs_per_node)%Q).
      { rewrite inject_Z_mult, <- Hx.
        apply Qmult_lt_compat_r; [lra|exact Hc]. }
      rewrite <- Zlt_Qlt in H. lia. }
    assert (Hq : (inject_Z c1 * inject_Z n + 1 <= inject_Z procs_per_node)%Q).
    { rewrite <- inject_Z_mult. change 1%Q with (inject_Z 1).
      rewrite <- inject_Z_plus, <- Zle_Qle. exact Hz. }
    destruct (Z.eq_dec procs_per_node 0) as [E0|N0].
    + assert (X0 : (x == 0)%Q).
      { unfold x. rewrite E0. unfold Qdiv. apply Qmult_0_l. }
      rewrite (DoubleFacts.round_zero x X0). rewrite X0 in Hc. exact Hc.
    + assert (HP1 : (1 <= inject_Z procs_per_node)%Q)
        by (change 1%Q with (inject_Z 1); rewrite <- Zle_Qle; lia).
      assert (Hnorm : (x == 0)%Q \/ (Double.pow2 (-1022) <= x)%Q).
      { right. apply Qle_trans with (/ inject_Z (2 ^ 31))%Q;
          [apply Qle_bool_iff; vm_compute; reflexivity|].
        apply Qle_shift_div_l; [lra|].
        apply Qle_trans with (/ inject_Z (2 ^ 31) * inject_Z (2 ^ 31))%Q.
        - apply Qmult_le_compat_nonneg;
            [split; [discriminate|apply Qle_refl]|].
          split; [lra|exact HN'].
        - apply Qle_trans with 1%Q; [|exact HP1].
          apply Qle_bool_iff. vm_compute. reflexivity. }
      destruct (DoubleFacts.round_error x Hnorm) as (R1 & _).
      assert (Hu : (Double.unit_roundoff * inject_Z (2 ^ 31) < 1)%Q)
        by reflexivity.
      apply Qlt_le_trans with ((1 - Double.unit_roundoff) * x)%Q; [|exact R1].
      apply (proj1 (Qmult_lt_r _ _ (inject_Z n) ltac:(lra))).
      setoid_replace ((1 - Double.unit_roundoff) * x * inject_Z n)%Q
        with ((1 - Double.unit_roundoff) * inject_Z procs_per_node)%Q
        by (rewrite <- Hx; ring).
      pose proof DoubleFacts.unit_roundoff_range as (U0 & _).
      revert Hq HP1 HP' Hu U0. generalize (inject_Z c1), (inject_Z n),
        (inject_Z procs_per_node), (inject_Z (2 ^ 31)), Double.unit_roundoff.
      intros C N P M u Hq HP1 HP' Hu U0. nra.
  - pose proof (Qle_ceiling x) as Hc.
    assert (Hxp : (x <= inject_Z procs_per_node)%Q).
    { apply Qle_shift_div_r; [lra|].
      setoid_replace (inject_Z procs_per_node)
        with (inject_Z procs_per_node * 1)%Q at 1 by ring.
      apply Qmult_le_compat_nonneg; split; try lra; discriminate. }
    assert (Hx0 : (0 <= x)%Q).
    { apply Qle_shift_div_l; [lra|]. rewrite Qmult_0_l. exact HP. }
    pose proof (Qceiling_resp_le _ _ Hxp) as Hcp. rewrite Qceiling_Z in Hcp.
    pose proof (Qceiling_resp_le _ _ Hx0) as Hc0.
    change (Qceiling 0) with 0 in Hc0.
    rewrite <- (DoubleFacts.round_Z (Qceiling x)) by lia.
    apply DoubleFacts.round_le. exact Hc.
Qed.

(** ** The ordered map *)

Lemma compare_lt_trans (a b c : string) :
  String.compare a b = Lt -> String.compare b c = Lt ->
  String.compare a c = Lt.
Proof.
  intros Hab Hbc.
  apply String_as_OT.cmp_lt.
  apply String_as_OT.lt_trans with b; apply String_as_OT.cmp_lt; assumption.
Qed.

Lemma compare_refl (a : string) : String.compare a a = Eq.
Proof. apply (proj2 (String_as_OT.cmp_eq a a)). reflexivity. Qed.

Lemma compare_gt_lt (a b : string) :
  String.compare a b = Gt -> String.compare b a = Lt.
Proof.
  intro H. rewrite String.compare_antisym, H. reflexivity.
Qed.

Lemma find_set (k k' : string) (v : Z) (m : NameMap.t) :
  NameMap.find k' (NameMap.set k v m) =
  if String.eqb k' k then Some v else NameMap.find k' m.
Proof.
  induction m as [|[k0 v0] m IH]; simpl.
  - reflexivity.
  - destruct (String.compare k k0) eqn:E; simpl.
    + apply String.compare_eq_iff in E. subst k0.
      destruct (String.eqb k' k); reflexivity.
    + reflexivity.
    + rewrite IH.
      destruct (String.eqb_spec k' k0) as [->|]; [|reflexivity].
      destruct (String.eqb_spec k0 k) as [->|]; [|reflexivity].
      rewrite compare_refl in E. discriminate.
Qed.

Lemma sorted_tail (p : string * Z) (m : NameMap.t) :
  NameMap.sorted (p :: m) -> NameMap.sorted m.
Proof. destruct p. simpl. tauto. Qed.

Lemma set_sorted (k : string) (v : Z) (m : NameMap.t) :
  NameMap.sorted m -> NameMap.sorted (NameMap.set k v m).
Proof.
  induction m as [|[k0 v0] m IH]; intro Hs.
  - simpl. auto.
  - cbn [NameMap.set].
    destruct (String.compare k k0) eqn:E.
    + apply String.compare_eq_iff in E. subst k0. exact Hs.
    + split; assumption.
    + pose proof (IH (sorted_tail _ _ Hs)) as IH'.
      destruct Hs as [Hhd _].
      destruct m as [|[k1 v1] m].
      * simpl. split; [apply compare_gt_lt; exact E | auto].
      * cbn [NameMap.set] in *.
        destruct (String.compare k k1) eqn:E1.
        -- split; [apply compare_gt_lt; exact E | exact IH'].
        -- split; [apply compare_gt_lt; exact E | exact IH'].
        -- split; [exact Hhd | exact IH'].
Qed.

(** The first key of a sorted map is below every other key. *)
Lemma sorted_head_least (k : string) (c : Z) (m : NameMap.t) :
  NameMap.sorted ((k, c) :: m) ->
  forall k', In k' (NameMap.keys m) -> String.compare k k' = Lt.
Proof.
  revert k c.
  induction m as [|[k1 c1] m IH]; intros k c Hs k' Hin.
  - destruct Hin.
  - destruct Hs as [Hlt Hs]. destruct Hin as [<-|Hin].
    + exact Hlt.
    + apply compare_lt_trans with k1; [exact Hlt|].
      apply (IH k1 c1 Hs). exact Hin.
Qed.

Lemma find_keys (k : string) (m : NameMap.t) :
  NameMap.find k m <> None -> In k (NameMap.keys m).
Proof.
  induction m as [|[k0 v0] m IH]; simpl; intro H.
  - congruence.
  - destruct (String.eqb_spec k k0) as [->|]; [left; reflexivity|].
    right. apply IH. exact H.
Qed.

(** ** The counting loop *)

Lemma count_nodes_find (names : list string) :
  forall (m : NameMap.t) (k : string),
    NameMap.find k (count_nodes names m) =
    match count_occ string_dec names k with
    | O => NameMap.find k m
    | S n => Some (stored m k + Z.of_nat (S n))
    end.
Proof.
  induction names as [|n names IH]; intros m k.
  - reflexivity.
  - cbn [count_nodes count_occ]. rewrite IH.
    assert (Hset :
      NameMap.find k
        (match NameMap.find n m with
         | Some c => NameMap.set n (c + 1) m
         | None => NameMap.set n 1 m
         end) =
      if String.eqb k n then Some (stored m n + 1) else NameMap.find k m).
    { unfold stored. destruct (NameMap.find n m); rewrite find_set;
        reflexivity. }
    unfold stored at 1. rewrite Hset.
    destruct (string_dec n k) as [->|Hne].
    + rewrite String.eqb_refl.
      destruct (count_occ string_dec names k); f_equal; lia.
    + destruct (String.eqb_spec k n) as [E|_]; [congruence|].
      destruct (count_occ string_dec names k); reflexivity.
Qed.

Lemma count_nodes_sorted (names : list string) :
  forall m : NameMap.t,
    NameMap.sorted m -> NameMap.sorted (count_nodes names m).
Proof.
  induction names as [|n names IH]; intros m Hs.
  - exact Hs.
  - cbn [count_nodes]. apply IH.
    destruct (NameMap.find n m); apply set_sorted; exact Hs.
Qed.

(** ** Topology resolution *)

(** C1, as stated, fails: on the gathered names [nodeB; nodeA; nodeA] the
    first group in first-seen order is [nodeB], of size 1, but the map
    iterates in key order, its first entry is [nodeA], and the number of
    procs per node comes out as 2. *)
Lemma procs_per_node_not_first_seen :
  first_seen_groups late_first_host = [("nodeB", 1); ("nodeA", 2)]%string /\
  count_nodes late_first_host [] = [("nodeA", 2); ("nodeB", 1)]%string /\
  procs_per_node_of (count_nodes late_first_host []) <>
  first_seen_procs_per_node late_first_host.
Proof.
  split; [reflexivity|]. split; [reflexivity|].
  vm_compute. discriminate.
Qed.

(** C1, amended: the processes are grouped by distinct host identifier in
    ascending (lexicographic) order of the identifiers, every group holds
    the number of ranks that reported its identifier, and the number of
    procs per node is the size of the group of the least identifier. *)
Theorem procs_per_node_least_host (names : list string) :
  names <> [] ->
  NameMap.sorted (count_nodes names []) /\
  (forall host,
      stored (count_nodes names []) host =
      Z.of_nat (count_occ string_dec names host)) /\
  exists least,
    In least names /\
    (forall host, In host names -> String.compare least host <> Gt) /\
    procs_per_node_of (count_nodes names []) =
    Z.of_nat (count_occ string_dec names least).
Proof.
  intro Hne.
  pose proof (count_nodes_sorted names [] I) as Hsorted.
  assert (Hstored : forall host,
             stored (count_nodes names []) host =
             Z.of_nat (count_occ string_dec names host)).
  { intro host. unfold stored at 1. rewrite count_nodes_find.
    destruct (count_occ string_dec names host); reflexivity. }
  split; [exact Hsorted|]. split; [exact Hstored|].
  assert (Hin : forall host, In host names ->
                  In host (NameMap.keys (count_nodes names []))).
  { intros host Hhost. apply find_keys. rewrite count_nodes_find.
    apply (count_occ_In string_dec) in Hhost.
    destruct (count_occ string_dec names host); [lia|discriminate]. }
  destruct (count_nodes names []) as [|[least c] m] eqn:Em.
  - destruct names as [|n names]; [congruence|].
    destruct (Hin n (or_introl eq_refl)).
  - exists least.
    pose proof (Hstored least) as Hc.
    unfold stored in Hc. cbn [NameMap.find] in Hc.
    rewrite String.eqb_refl in Hc.
    split; [|split].
    + apply (count_occ_In string_dec).
      assert (0 < c) by
        (pose proof (count_nodes_find names [] least) as F; rewrite Em in F;
         cbn [NameMap.find] in F; rewrite String.eqb_refl in F;
         destruct (count_occ string_dec names least);
         [discriminate | injection F as ->; unfold stored; simpl; lia]).
      lia.
    + intros host Hhost. destruct (Hin host Hhost) as [<-|Hm].
      * simpl. rewrite compare_refl. discriminate.
      * rewrite (sorted_head_least least c m Hsorted host Hm). discriminate.
    + exact Hc.
Qed.

Lemma procs_per_node_least_host_witness :
  exists least,
    In least two_hosts /\
    procs_per_node_of (count_nodes two_hosts []) =
    Z.of_nat (count_occ string_dec two_hosts least).
Proof.
  destruct (procs_per_node_least_host two_hosts) as (_ & _ & least & H1 & _ & H3).
  - discriminate.
  - exists least. split; assumption.
Defined.

Ltac splits := repeat match goal with |- _ /\ _ => split end.

Ltac case_if :=
  match goal with
  | |- context [if ?b then _ else _] => destruct b eqn:?
  end.

Ltac iff_auto :=
  split; [intro | intros Hc; try destruct Hc as (? & ? & ?)];
  try discriminate; auto.

(** Project through the member updates without normalising whole states. *)
Tactic Notation "simpl_device" :=
  cbn [_init_count _device_init _compiled _nthreads _threads_per_atom
       _threads_per_charge topo caps gpu _long_range_precompute pppm_single
       pppm_double dev_program k_zero k_info _data_in_estimate
       _data_out_estimate atom _neighbor_shared
       set_init_count set_device_init set_compiled set_nthreads
       set_threads_per_atom set_threads_per_charge set_topo set_caps set_gpu
       set_long_range_precompute set_pppm_single set_pppm_double
       set_dev_program set_k_zero set_k_info set_data_in_estimate
       set_data_out_estimate set_atom set_neighbor_shared incr_data_in
       status after calls _warp_size statuses final trace].

Tactic Notation "simpl_device" "in" hyp(H) :=
  cbn [_init_count _device_init _compiled _nthreads _threads_per_atom
       _threads_per_charge topo caps gpu _long_range_precompute pppm_single
       pppm_double dev_program k_zero k_info _data_in_estimate
       _data_out_estimate atom _neighbor_shared
       set_init_count set_device_init set_compiled set_nthreads
       set_threads_per_atom set_threads_per_charge set_topo set_caps set_gpu
       set_long_range_precompute set_pppm_single set_pppm_double
       set_dev_program set_k_zero set_k_info set_data_in_estimate
       set_data_out_estimate set_atom set_neighbor_shared incr_data_in
       status after calls _warp_size statuses final trace] in H.

(** [compile_kernels] touches the compiled state, the capability constants
    and the two lane counts, nothing else. *)
Lemma compile_kernels_frame (cfg : Build) (hw : Hardware) (s : Device) :
  _init_count (after (compile_kernels cfg hw s)) = _init_count s /\
  _device_init (after (compile_kernels cfg hw s)) = _device_init s /\
  _nthreads (after (compile_kernels cfg hw s)) = _nthreads s /\
  topo (after (compile_kernels cfg hw s)) = topo s /\
  gpu (after (compile_kernels cfg hw s)) = gpu s /\
  _long_range_precompute (after (compile_kernels cfg hw s)) =
    _long_range_precompute s /\
  atom (after (compile_kernels cfg hw s)) = atom s /\
  _neighbor_shared (after (compile_kernels cfg hw s)) = _neighbor_shared s /\
  (status (compile_kernels cfg hw s) = 0 \/
   status (compile_kernels cfg hw s) = -4).
Proof.
  unfold compile_kernels.
  repeat case_if; simpl_device; splits; try reflexivity; auto.
Qed.



(** When and what [compile_kernels] builds. *)
Lemma compile_kernels_build (cfg : Build) (hw : Hardware) (s : Device) :
  count_events is_atom_init (calls (compile_kernels cfg hw s)) = 0%nat /\
  (_compiled s = true ->
   status (compile_kernels cfg hw s) = 0 /\
   calls (compile_kernels cfg hw s) = []) /\
  (_compiled s = false ->
   count_events is_load (calls (compile_kernels cfg hw s)) = 1%nat /\
   (build_ok cfg hw = true -> status (compile_kernels cfg hw s) = 0)).
Proof.
  unfold compile_kernels, build_ok. split; [|split; intros ->].
  - repeat case_if; reflexivity.
  - split; reflexivity.
  - destruct (load_string hw =? UCL_SUCCESS cfg); cbn [negb andb].
    + destruct (negb (USE_OPENCL cfg) && Qltb (arch hw) _);
        cbn [negb]; split; try reflexivity; discriminate.
    + split; [reflexivity|discriminate].
Qed.

(** Replace the outcome of the [compile_kernels] call in the goal by a
    variable [o], keeping what [compile_kernels_frame] says about it as
    [F]. *)
Ltac abstract_compile o F :=
  match goal with
  | |- context [compile_kernels ?cfg ?hw ?s0] =>
      generalize (compile_kernels_frame cfg hw s0);
      generalize (compile_kernels cfg hw s0);
      intros o F
  end.

(** The same, keeping what [compile_kernels_build] says as [B] too. *)
Ltac abstract_compile_build o F B :=
  match goal with
  | |- context [compile_kernels ?cfg ?hw ?s0] =>
      generalize (compile_kernels_build cfg hw s0);
      generalize (compile_kernels_frame cfg hw s0);
      generalize (compile_kernels cfg hw s0);
      intros o F B
  end.

Lemma Qceiling_div (a b : Z) :
  0 < b -> Qceiling (inject_Z a / inject_Z b) = - ((- a) / b).
Proof.
  intro Hb. unfold Qceiling. f_equal.
  rewrite Zdiv_Qdiv. apply Qfloor_comp.
  rewrite inject_Z_opp. field.
  intro H. unfold Qeq in H. simpl in H. lia.
Qed.

Lemma procs_per_gpu_ceiling (ppn first last : Z) :
  first <= last ->
  is_ceiling ppn (last - first + 1) (procs_per_gpu_of ppn first last).
Proof.
  intro Hrange. unfold procs_per_gpu_of, is_ceiling.
  rewrite Qceiling_div by lia.
  set (n := last - first + 1). assert (0 < n) by (unfold n; lia).
  pose proof (Z.div_mod (- ppn) n ltac:(lia)) as Hdm.
  pose proof (Z.mod_pos_bound (- ppn) n ltac:(lia)) as Hb.
  nia.
Qed.

(** C6: after a binding [init_device], the number of procs per device is
    the ceiling of procs-per-node over the number of devices in the range,
    and the device index (the colour of the per-device communicator and the
    index the device handle is set to) is the node rank divided by it, plus
    the first device index. *)
Theorem init_device_assignment (cfg : Build) (hw : Hardware) (mpi : MPIEnv)
  (a : InitDeviceArgs) (s : Device) :
  _device_init s = false ->
  1 <= procs_per_node mpi a ->
  first_gpu a <= last_gpu a ->
  0 <= node_rank_of mpi a ->
  let bound := init_device cfg hw mpi a s in
  let procs_per_device := _procs_per_gpu (topo (after bound)) in
  let index := node_rank_of mpi a / procs_per_device + first_gpu a in
  is_ceiling (procs_per_node mpi a) (last_gpu a - first_gpu a + 1)
    procs_per_device /\
  _comm_gpu (topo (after bound)) =
    MPI_Comm_split mpi (node_comm_of mpi a) index 0 /\
  (index < num_devices hw -> device_index (after bound) = Some index) /\
  (num_devices hw <= index ->
   status bound = -2 /\ device_index (after bound) = None).
Proof.
  intros Hunbound Hppn Hrange Hrank.
  pose proof (procs_per_gpu_ceiling (procs_per_node mpi a) _ _ Hrange) as Hceil.
  assert (Hpos : 0 < procs_per_gpu_of (procs_per_node mpi a)
                       (first_gpu a) (last_gpu a))
    by (unfold is_ceiling in Hceil; nia).
  assert (Hquot :
    my_gpu_of (node_rank_of mpi a)
      (procs_per_gpu_of (procs_per_node mpi a) (first_gpu a) (last_gpu a))
      (first_gpu a) =
    node_rank_of mpi a /
      procs_per_gpu_of (procs_per_node mpi a) (first_gpu a) (last_gpu a)
    + first_gpu a).
  { unfold my_gpu_of. rewrite Z.quot_div_nonneg by assumption. reflexivity. }
  cbv zeta. unfold init_device. cbn [_device_init set_threads_per_charge
    set_threads_per_atom set_nthreads]. rewrite Hunbound.
  fold (procs_per_node mpi a). fold (node_comm_of mpi a).
  fold (node_rank_of mpi a). rewrite !Hquot.
  remember (procs_per_gpu_of (procs_per_node mpi a) (first_gpu a)
              (last_gpu a)) as ppg eqn:Eppg.
  remember (node_rank_of mpi a / ppg + first_gpu a) as index eqn:Eindex.
  abstract_compile o F.
  destruct F as (_ & _ & _ & Ftopo & Fgpu & _).
  unfold device_index.
  destruct (index >=? num_devices hw) eqn:Hdev; cbn [after status].
  - cbn [topo set_gpu set_topo _procs_per_gpu _comm_gpu gpu current_device].
    rewrite <- Eindex.
    split; [exact Hceil|]. split; [reflexivity|].
    split; [|intros _; split; reflexivity].
    intro Hin. rewrite Z.geb_leb in Hdev. apply Z.leb_le in Hdev. lia.
  - rewrite Ftopo, Fgpu.
    cbn [topo set_gpu set_topo set_long_range_precompute _procs_per_gpu
         _comm_gpu gpu current_device].
    rewrite <- Eindex.
    split; [exact Hceil|]. split; [reflexivity|].
    split; [intros _; reflexivity|].
    intro Hout. rewrite Z.geb_leb in Hdev. apply Z.leb_gt in Hdev.
    exfalso. clear - Hout Hdev. lia.
Qed.

Lemma init_device_assignment_witness :
  _procs_per_gpu
    (topo (after (init_device cuda_mixed fermi rank5 bind_default
                    (Device_new cuda_mixed)))) = 2 /\
  device_index (after (init_device cuda_mixed fermi rank5 bind_default
                         (Device_new cuda_mixed))) = Some 1.
Proof.
  pose proof (init_device_assignment cuda_mixed fermi rank5 bind_default
                (Device_new cuda_mixed)) as H.
  cbv zeta in H.
  destruct H as (_ & _ & Hidx & _).
  - reflexivity.
  - vm_compute. discriminate.
  - vm_compute. discriminate.
  - vm_compute. discriminate.
  - split; [reflexivity|]. apply Hidx. reflexivity.
Defined.

(** ** Binding *)

(** On a bound manager [init_device] stores the thread count and the
    requested lane count, and returns 0 at line 57. *)
Lemma init_device_bound (cfg : Build) (hw : Hardware) (mpi : MPIEnv)
  (a : InitDeviceArgs) (s : Device) :
  _device_init s = true ->
  init_device cfg hw mpi a s =
  {| status := 0;
     after := set_threads_per_charge (t_per_atom a)
                (set_threads_per_atom (t_per_atom a)
                   (set_nthreads (nthreads a) s));
     calls := if _OPENMP cfg then [omp_set_num_threads (nthreads a)]
              else [] |}.
Proof.
  intro Hbound. unfold init_device.
  cbn [_device_init set_threads_per_charge set_threads_per_atom set_nthreads].
  rewrite Hbound. reflexivity.
Qed.

(** What a second [init_device] leaves alone. *)
Lemma init_device_bound_frame (cfg : Build) (hw : Hardware) (mpi : MPIEnv)
  (a : InitDeviceArgs) (s : Device) :
  _device_init s = true ->
  status (init_device cfg hw mpi a s) = 0 /\
  _device_init (after (init_device cfg hw mpi a s)) = true /\
  device_index (after (init_device cfg hw mpi a s)) = device_index s /\
  topo (after (init_device cfg hw mpi a s)) = topo s /\
  caps (after (init_device cfg hw mpi a s)) = caps s /\
  _compiled (after (init_device cfg hw mpi a s)) = _compiled s /\
  _init_count (after (init_device cfg hw mpi a s)) = _init_count s /\
  _nthreads (after (init_device cfg hw mpi a s)) = nthreads a /\
  _threads_per_atom (after (init_device cfg hw mpi a s)) = t_per_atom a /\
  _threads_per_charge (after (init_device cfg hw mpi a s)) = t_per_atom a /\
  count_events is_load (calls (init_device cfg hw mpi a s)) = 0%nat.
Proof.
  intro Hbound. rewrite (init_device_bound cfg hw mpi a s Hbound).
  cbn. destruct (_OPENMP cfg); repeat split; try reflexivity; assumption.
Qed.

(** C2, evaluated where it breaks: a fresh manager is bound with the
    default lane request [t_per_atom = -1]; the first call resolves it to
    the hardware defaults 4 and 8.  The second call with the same arguments
    returns 0 and keeps the device index, the communicators, the capability
    constants and the thread count, but it has overwritten both lane counts
    with the raw request before reaching the early return, and they are -1
    afterwards. *)
Theorem init_device_twice_resets_lanes :
  let first := init_device cuda_mixed fermi rank5 bind_default
                 (Device_new cuda_mixed) in
  let second := init_device cuda_mixed fermi rank5 bind_default
                  (after first) in
  status first = 0 /\ status second = 0 /\
  device_index (after second) = device_index (after first) /\
  topo (after second) = topo (after first) /\
  caps (after second) = caps (after first) /\
  _nthreads (after second) = _nthreads (after first) /\
  _threads_per_atom (after first) = 4 /\
  _threads_per_charge (after first) = 8 /\
  _threads_per_atom (after second) = -1 /\
  _threads_per_charge (after second) = -1.
Proof.
  cbv zeta. splits; vm_compute; reflexivity.
Qed.

(** C9: when [init_device] returns -2 the manager is left marked as bound,
    with a device handle on which no device was selected and without any
    kernel build; every later [init_device], whatever its arguments and
    environment, returns 0 and selects no device and builds nothing
    either. *)
Theorem init_device_out_of_range_stays_bound (cfg : Build) (hw : Hardware)
  (mpi : MPIEnv) (a : InitDeviceArgs) (s : Device) :
  _device_init s = false ->
  status (init_device cfg hw mpi a s) = -2 ->
  _device_init (after (init_device cfg hw mpi a s)) = true /\
  device_index (after (init_device cfg hw mpi a s)) = None /\
  _compiled (after (init_device cfg hw mpi a s)) = _compiled s /\
  count_events is_load (calls (init_device cfg hw mpi a s)) = 0%nat /\
  forall (hw' : Hardware) (mpi' : MPIEnv) (later : list InitDeviceArgs),
    Forall (fun st => st = 0)
      (statuses (rebind cfg hw' mpi' later
                   (after (init_device cfg hw mpi a s)))) /\
    _device_init (final (rebind cfg hw' mpi' later
                           (after (init_device cfg hw mpi a s)))) = true /\
    device_index (final (rebind cfg hw' mpi' later
                           (after (init_device cfg hw mpi a s)))) = None /\
    _compiled (final (rebind cfg hw' mpi' later
                        (after (init_device cfg hw mpi a s)))) = _compiled s /\
    count_events is_load
      (trace (rebind cfg hw' mpi' later
                (after (init_device cfg hw mpi a s)))) = 0%nat.
Proof.
  intros Hunbound Hstatus.
  assert (Hfirst :
    _device_init (after (init_device cfg hw mpi a s)) = true /\
    device_index (after (init_device cfg hw mpi a s)) = None /\
    _compiled (after (init_device cfg hw mpi a s)) = _compiled s /\
    count_events is_load (calls (init_device cfg hw mpi a s)) = 0%nat).
  { revert Hstatus. unfold init_device.
    cbn [_device_init set_threads_per_charge set_threads_per_atom
         set_nthreads].
    rewrite Hunbound. abstract_compile o F.
    case_if; cbn [status after calls].
    - intros _. unfold device_index, count_events.
      destruct (_OPENMP cfg); cbn; auto.
    - intro Ho. destruct F as (_ & _ & _ & _ & _ & _ & _ & _ & [F|F]);
        rewrite F in Ho; discriminate. }
  destruct Hfirst as (H1 & H2 & H3 & H4).
  splits; try assumption.
  intros hw' mpi' later.
  generalize dependent (after (init_device cfg hw mpi a s)).
  induction later as [|b later IH]; intros s1 H1 H2 H3.
  - cbn. splits; auto.
  - cbn [rebind statuses final trace].
    destruct (init_device_bound_frame cfg hw' mpi' b s1 H1)
      as (B0 & B1 & B2 & _ & _ & B3 & _ & _ & _ & _ & B4).
    destruct (IH (after (init_device cfg hw' mpi' b s1)))
      as (I0 & I1 & I2 & I3 & I4).
    + exact B1.
    + rewrite B2. exact H2.
    + rewrite B3. exact H3.
    + splits; try assumption.
      * constructor; assumption.
      * unfold count_events in *. rewrite filter_app, length_app.
        rewrite B4, I4. reflexivity.
Qed.

Lemma init_device_out_of_range_stays_bound_witness :
  status (init_device cuda_mixed one_device rank5 bind_default
            (Device_new cuda_mixed)) = -2 /\
  Forall (fun st => st = 0)
    (statuses (rebind cuda_mixed fermi rank5 [bind_default; bind_wide]
                 (after (init_device cuda_mixed one_device rank5 bind_default
                           (Device_new cuda_mixed))))).
Proof.
  split; [reflexivity|].
  apply (init_device_out_of_range_stays_bound cuda_mixed one_device rank5
           bind_default (Device_new cuda_mixed)); reflexivity.
Defined.

(** ** Kernel constants *)

Lemma clamp_threads_divides (W t : Z) :
  1 <= W -> 1 <= t ->
  Z.rem W (clamp_threads W t) = 0 /\ 1 <= clamp_threads W t <= W.
Proof.
  intros HW Ht. unfold clamp_threads.
  destruct (t >? W) eqn:Hgt.
  - rewrite Z.rem_same by lia. cbn. split; [apply Z.rem_same|]; lia.
  - rewrite Z.gtb_ltb in Hgt. apply Z.ltb_ge in Hgt.
    destruct (Z.rem W t =? 0) eqn:Hrem; cbn.
    + apply Z.eqb_eq in Hrem. split; [exact Hrem|lia].
    + split; [apply Z.rem_1_r|lia].
Qed.

Lemma clamp_threads_resolved (W d request : Z) :
  1 <= W ->
  clamp_threads W (if request <? 1 then d else request) =
  resolved_lanes W d request.
Proof.
  intro HW. unfold clamp_threads, resolved_lanes. cbv zeta.
  set (wanted := if request <? 1 then d else request).
  rewrite Z.gtb_ltb.
  destruct (W <? wanted).
  - rewrite Z.rem_same by lia. reflexivity.
  - destruct (Z.rem W wanted =? 0); reflexivity.
Qed.

(** C4, as stated, fails: a request for 40 lanes on a device of warp size
    32 does not divide the warp size, yet it is not reset to 1: it is cut
    down to the warp size. *)
Lemma lanes_beyond_warp_not_reset :
  let bound := init_device cuda_mixed fermi rank5 bind_wide
                 (Device_new cuda_mixed) in
  status bound = 0 /\
  t_per_atom bind_wide = 40 /\
  _warp_size (caps (after bound)) = 32 /\
  Z.rem (_warp_size (caps (after bound))) (t_per_atom bind_wide) <> 0 /\
  _threads_per_atom (after bound) = 32 /\
  _threads_per_atom (after bound) <> 1 /\
  _threads_per_charge (after bound) <> 1.
Proof.
  cbv zeta. splits; vm_compute; try reflexivity; discriminate.
Qed.

(** C4, amended: when [compile_kernels] builds the module and returns 0 on
    a device whose kernel reports a warp size and default lane counts of at
    least 1, both resolved lane counts divide the warp size and lie between
    1 and the warp size.  A request below 1 stands for the reported
    default; a count above the warp size becomes the warp size; a count
    within the warp size that does not divide it becomes 1. *)
Theorem compile_kernels_lanes (cfg : Build) (hw : Hardware) (s : Device) :
  _compiled s = false ->
  status (compile_kernels cfg hw s) = 0 ->
  1 <= h_gpu_lib_data hw 2%nat ->
  1 <= h_gpu_lib_data hw 3%nat ->
  1 <= h_gpu_lib_data hw 13%nat ->
  let s' := after (compile_kernels cfg hw s) in
  let W := _warp_size (caps s') in
  W = h_gpu_lib_data hw 2%nat /\
  (Z.rem W (_threads_per_atom s') = 0 /\ 1 <= _threads_per_atom s' <= W) /\
  (Z.rem W (_threads_per_charge s') = 0 /\
   1 <= _threads_per_charge s' <= W) /\
  _threads_per_atom s' =
    resolved_lanes W (h_gpu_lib_data hw 3%nat) (_threads_per_atom s) /\
  _threads_per_charge s' =
    resolved_lanes W (h_gpu_lib_data hw 13%nat) (_threads_per_charge s).
Proof.
  intros Hfresh Hok HW Hd Hdc. cbv zeta.
  revert Hok. unfold compile_kernels. rewrite Hfresh.
  destruct (negb (load_string hw =? UCL_SUCCESS cfg));
    [cbn [status]; discriminate|].
  destruct (negb (USE_OPENCL cfg) &&
            Qltb (arch hw)
              (Double.div (inject_Z (h_gpu_lib_data hw 0%nat)) 100));
    [cbn [status]; discriminate|].
  intros _.
  set (W := h_gpu_lib_data hw 2%nat) in *.
  assert (Ha : 1 <= (if _threads_per_atom s <? 1
                     then h_gpu_lib_data hw 3%nat else _threads_per_atom s))
    by (destruct (_threads_per_atom s <? 1) eqn:E;
        [assumption | apply Z.ltb_ge in E; exact E]).
  assert (Hc : 1 <= (if _threads_per_charge s <? 1
                     then h_gpu_lib_data hw 13%nat
                     else _threads_per_charge s))
    by (destruct (_threads_per_charge s <? 1) eqn:E;
        [assumption | apply Z.ltb_ge in E; exact E]).
  pose proof (clamp_threads_divides W _ HW Ha) as Da.
  pose proof (clamp_threads_divides W _ HW Hc) as Dc.
  pose proof (clamp_threads_resolved W (h_gpu_lib_data hw 3%nat)
                (_threads_per_atom s) HW) as Ra.
  pose proof (clamp_threads_resolved W (h_gpu_lib_data hw 13%nat)
                (_threads_per_charge s) HW) as Rc.
  simpl_device.
  destruct (_threads_per_atom s <? 1); simpl_device;
    destruct (_threads_per_charge s <? 1); simpl_device; fold W;
    (split; [reflexivity|]); (split; [exact Da|]); (split; [exact Dc|]);
    (split; [exact Ra|exact Rc]).
Qed.

Lemma compile_kernels_lanes_witness :
  _threads_per_atom
    (after (compile_kernels cuda_mixed fermi
              (set_threads_per_atom 6 (Device_new cuda_mixed)))) =
  resolved_lanes 32 4 6.
Proof.
  apply (compile_kernels_lanes cuda_mixed fermi
           (set_threads_per_atom 6 (Device_new cuda_mixed)));
    solve [reflexivity | vm_compute; discriminate].
Defined.

(** ** Attach *)

(** The status of [init] in closed form. *)
Lemma init_status (cfg : Build) (hw : Hardware) (al : Allocator)
  (a : InitArgs) (s : Device) :
  status (init cfg hw al a s) =
  if negb (_device_init s) then -1
  else if acctyp_is_double cfg && negb (double_precision hw) then -5
  else if atom_ok al && ans_ok al && nbor_ok al then 0 else -3.
Proof.
  unfold init.
  destruct (negb (_device_init s)); [reflexivity|].
  destruct (acctyp_is_double cfg && negb (double_precision hw));
    [reflexivity|].
  unfold Atom_init, Atom_add_fields, init_rest.
  destruct al as [[] [] []]; cbn [atom_ok ans_ok nbor_ok negb andb];
    destruct (_init_count _ =? 0); reflexivity.
Qed.

Lemma init'_status (cfg : Build) (hw : Hardware) (al : Allocator)
  (nlocal nall : Z) (s : Device) :
  status (init' cfg hw al nlocal nall s) =
  if negb (_device_init s) then -1
  else if acctyp_is_double cfg && negb (double_precision hw) then -5
  else if atom_ok al && ans_ok al then 0 else -3.
Proof.
  unfold init'.
  destruct (negb (_device_init s)); [reflexivity|].
  destruct (acctyp_is_double cfg && negb (double_precision hw));
    [reflexivity|].
  unfold Atom_init, Atom_add_fields.
  destruct al as [[] [] ?]; cbn [atom_ok ans_ok nbor_ok negb andb];
    destruct (_init_count _ =? 0); reflexivity.
Qed.

(** C5: [init] returns -1 exactly when the manager is not bound; -5 exactly
    when it is bound, the accumulation type is double-width and the device
    lacks double precision; -3 exactly when it got past these two checks
    and one of the allocations it attempted failed; and a call that returns
    -1 or -5 leaves the manager as it was and calls no collaborator. *)
Theorem init_status_codes (cfg : Build) (hw : Hardware) (al : Allocator)
  (a : InitArgs) (s : Device) :
  (status (init cfg hw al a s) = -1 <-> _device_init s = false) /\
  (status (init cfg hw al a s) = -5 <->
   _device_init s = true /\ acctyp_is_double cfg = true /\
   double_precision hw = false) /\
  (status (init cfg hw al a s) = -3 <->
   _device_init s = true /\
   acctyp_is_double cfg && negb (double_precision hw) = false /\
   atom_ok al && ans_ok al && nbor_ok al = false) /\
  (status (init cfg hw al a s) = -1 \/ status (init cfg hw al a s) = -5 ->
   after (init cfg hw al a s) = s /\
   _init_count (after (init cfg hw al a s)) = _init_count s /\
   calls (init cfg hw al a s) = []).
Proof.
  rewrite init_status.
  assert (Hframe :
    negb (_device_init s) = true \/
    acctyp_is_double cfg && negb (double_precision hw) = true ->
    after (init cfg hw al a s) = s /\
    _init_count (after (init cfg hw al a s)) = _init_count s /\
    calls (init cfg hw al a s) = []).
  { unfold init. intros [H|H].
    - rewrite H. auto.
    - rewrite H. destruct (negb (_device_init s)); auto. }
  destruct (_device_init s); cbn [negb];
    destruct (acctyp_is_double cfg); destruct (double_precision hw);
    cbn [negb andb] in *;
    destruct (atom_ok al && ans_ok al && nbor_ok al);
    (split; [iff_auto | split; [iff_auto | split; [iff_auto|]]]);
    intros [?|?]; try discriminate; apply Hframe; auto.
Qed.

(** ** Detach *)

Lemma clear_detached (s : Device) :
  _init_count s <= 0 -> clear s = (s, []).
Proof.
  intro H. unfold clear.
  destruct (_init_count s >? 0) eqn:E; [|reflexivity].
  rewrite Z.gtb_ltb in E. apply Z.ltb_lt in E. lia.
Qed.

Lemma clear_attached (s : Device) :
  0 < _init_count s ->
  _init_count (fst (clear s)) = _init_count s - 1 /\
  _long_range_precompute (fst (clear s)) = 0 /\
  _device_init (fst (clear s)) = _device_init s /\
  gpu (fst (clear s)) = gpu s /\
  (_init_count s = 1 -> released (fst (clear s))) /\
  (1 < _init_count s ->
   atom (fst (clear s)) = atom s /\
   _neighbor_shared (fst (clear s)) = _neighbor_shared s /\
   _compiled (fst (clear s)) = _compiled s /\
   snd (clear s) = []).
Proof.
  intro H. unfold clear, released.
  destruct (_init_count s >? 0) eqn:E;
    [|rewrite Z.gtb_ltb in E; apply Z.ltb_ge in E; lia].
  simpl_device.
  destruct (_init_count s - 1 =? 0) eqn:E0.
  - apply Z.eqb_eq in E0.
    destruct (_compiled s) eqn:Ec; cbn [fst snd]; simpl_device;
      splits; try reflexivity; try (intros; exfalso; lia);
      intros _; cbn; splits; auto.
  - apply Z.eqb_neq in E0. cbn [fst snd]. simpl_device.
    splits; try reflexivity;
      [intros; exfalso; lia | intros _; splits; reflexivity].
Qed.

Lemma clear_events (s : Device) :
  count_events is_atom_init (snd (clear s)) = 0%nat /\
  count_events is_load (snd (clear s)) = 0%nat /\
  count_events is_delete_gpu (snd (clear s)) = 0%nat.
Proof.
  unfold clear. repeat case_if; simpl_device; auto.
Qed.

(** C10: a [clear] that finds a positive attach count sets the long-range
    precompute selector to 0 (no client) and takes one attach credit; with
    more than one client attached, the remaining clients stay attached and
    the precompute client that was registered is gone for them. *)
Theorem clear_unregisters_precompute (s : Device) :
  0 < _init_count s ->
  _long_range_precompute (fst (clear s)) = 0 /\
  _init_count (fst (clear s)) = _init_count s - 1 /\
  (1 < _init_count s -> 0 < _init_count (fst (clear s))).
Proof.
  intro H. destruct (clear_attached s H) as (Hc & Hp & _).
  splits; [exact Hp | exact Hc | lia].
Qed.

Lemma clear_unregisters_precompute_witness :
  _long_range_precompute two_attached = 1 /\
  _init_count two_attached = 2 /\
  _long_range_precompute (fst (clear two_attached)) = 0 /\
  0 < _init_count (fst (clear two_attached)).
Proof.
  split; [reflexivity|]. split; [reflexivity|].
  destruct (clear_unregisters_precompute two_attached) as (H1 & H2 & H3).
  - reflexivity.
  - split; [exact H1|]. apply H3. reflexivity.
Defined.

(** ** Teardown *)

(** The loop of [clear_device] stops with nothing attached, and it is the
    given number of detach calls. *)
Lemma clear_loop_detach (n : nat) :
  forall s : Device,
    _init_count s = Z.of_nat n ->
    fst (clear_loop n s) = detach n s /\
    _init_count (fst (clear_loop n s)) = 0 /\
    _device_init (fst (clear_loop n s)) = _device_init s /\
    gpu (fst (clear_loop n s)) = gpu s /\
    count_events is_delete_gpu (snd (clear_loop n s)) = 0%nat /\
    (0 < Z.of_nat n -> released (fst (clear_loop n s))).
Proof.
  induction n as [|n IH]; intros s Hn.
  - cbn [clear_loop detach fst snd]. splits; auto. lia.
  - cbn [clear_loop detach].
    destruct (_init_count s >? 0) eqn:E;
      [|rewrite Z.gtb_ltb in E; apply Z.ltb_ge in E; lia].
    destruct (clear_attached s ltac:(lia)) as (Hc & _ & Hd & Hg & Hr & _).
    destruct (clear_events s) as (_ & _ & He).
    destruct (clear s) as [s1 released1]. cbn [fst snd] in *.
    destruct (IH s1 ltac:(lia)) as (I1 & I2 & I3 & I4 & I5 & I6).
    destruct (clear_loop n s1) as [s2 released2]. cbn [fst snd] in *.
    splits; try congruence.
    + unfold count_events in *. rewrite filter_app, length_app. lia.
    + intros _. destruct n as [|n].
      * cbn [detach] in I1. subst s2. apply Hr. lia.
      * apply I6. lia.
Qed.

(** A binding [init_device] that finds its device and a module that builds
    (or is still there) returns 0, bound to the computed index. *)
Lemma init_device_binds (cfg : Build) (hw : Hardware) (mpi : MPIEnv)
  (a : InitDeviceArgs) (s : Device) :
  _device_init s = false ->
  my_gpu mpi a < num_devices hw ->
  build_ok cfg hw = true ->
  status (init_device cfg hw mpi a s) = 0 /\
  _device_init (after (init_device cfg hw mpi a s)) = true /\
  device_index (after (init_device cfg hw mpi a s)) = Some (my_gpu mpi a) /\
  _init_count (after (init_device cfg hw mpi a s)) = _init_count s /\
  count_events is_atom_init (calls (init_device cfg hw mpi a s)) = 0%nat /\
  (_compiled s = false ->
   count_events is_load (calls (init_device cfg hw mpi a s)) = 1%nat).
Proof.
  intros Hunbound Hrange Hbuild. unfold init_device.
  cbn [_device_init set_threads_per_charge set_threads_per_atom set_nthreads].
  rewrite Hunbound.
  fold (procs_per_node mpi a). fold (node_comm_of mpi a).
  fold (node_rank_of mpi a). fold (my_gpu mpi a).
  abstract_compile_build o F B. simpl_device in F. simpl_device in B.
  destruct (my_gpu mpi a >=? num_devices hw) eqn:E;
    [rewrite Z.geb_leb in E; apply Z.leb_le in E; lia|].
  destruct F as (F1 & F2 & _ & _ & F3 & _).
  destruct B as (Ba & Bc & Bf).
  unfold device_index. simpl_device. rewrite F1, F2, F3. simpl_device.
  assert (Hst : status o = 0).
  { destruct (_compiled s); [apply Bc; reflexivity|].
    apply Bf; [reflexivity|exact Hbuild]. }
  unfold count_events in *.
  rewrite !filter_app, !length_app, Ba.
  splits; try reflexivity; try assumption.
  - destruct (_OPENMP cfg); reflexivity.
  - intro Hc. destruct (Bf Hc) as (-> & _).
    destruct (_OPENMP cfg); reflexivity.
Qed.

(** What an attach call changes. *)
Lemma init_effect (cfg : Build) (hw : Hardware) (al : Allocator)
  (a : InitArgs) (s : Device) :
  _device_init (after (init cfg hw al a s)) = _device_init s /\
  gpu (after (init cfg hw al a s)) = gpu s /\
  _init_count (after (init cfg hw al a s)) =
    (if status (init cfg hw al a s) =? 0
     then _init_count s + 1 else _init_count s) /\
  count_events is_load (calls (init cfg hw al a s)) = 0%nat /\
  count_events is_delete_gpu (calls (init cfg hw al a s)) = 0%nat /\
  (status (init cfg hw al a s) = 0 ->
   count_events is_atom_init (calls (init cfg hw al a s)) =
   if _init_count s =? 0 then 1%nat else 0%nat).
Proof.
  unfold init, init_rest, Atom_init, Atom_add_fields.
  destruct al as [[] [] []]; cbn [atom_ok ans_ok nbor_ok negb];
    destruct (negb (_device_init s));
    destruct (acctyp_is_double cfg && negb (double_precision hw));
    destruct (_init_count s =? 0) eqn:E0;
    simpl_device; try (rewrite E0);
    repeat case_if; simpl_device;
    splits; try reflexivity; try discriminate; auto.
Qed.

Lemma init'_effect (cfg : Build) (hw : Hardware) (al : Allocator)
  (nlocal nall : Z) (s : Device) :
  _device_init (after (init' cfg hw al nlocal nall s)) = _device_init s /\
  gpu (after (init' cfg hw al nlocal nall s)) = gpu s /\
  _init_count (after (init' cfg hw al nlocal nall s)) =
    (if status (init' cfg hw al nlocal nall s) =? 0
     then _init_count s + 1 else _init_count s) /\
  count_events is_load (calls (init' cfg hw al nlocal nall s)) = 0%nat /\
  count_events is_delete_gpu (calls (init' cfg hw al nlocal nall s)) = 0%nat /\
  (status (init' cfg hw al nlocal nall s) = 0 ->
   count_events is_atom_init (calls (init' cfg hw al nlocal nall s)) =
   if _init_count s =? 0 then 1%nat else 0%nat).
Proof.
  unfold init', Atom_init, Atom_add_fields.
  destruct al as [[] [] ?]; cbn [atom_ok ans_ok nbor_ok negb];
    destruct (negb (_device_init s));
    destruct (acctyp_is_double cfg && negb (double_precision hw));
    destruct (_init_count s =? 0) eqn:E0;
    simpl_device; try (rewrite E0);
    splits; try reflexivity; try discriminate; auto.
Qed.

(** The constructor establishes [consistent] and every member function
    keeps it. *)
Lemma Device_new_consistent (cfg : Build) : consistent (Device_new cfg).
Proof.
  split; cbn; [lia|]. split; [discriminate|]. intro H. now elim H.
Qed.

Lemma init_device_consistent (cfg : Build) (hw : Hardware) (mpi : MPIEnv)
  (a : InitDeviceArgs) (s : Device) :
  consistent s -> consistent (after (init_device cfg hw mpi a s)).
Proof.
  intros [Hc Hg]. unfold consistent.
  destruct (_device_init s) eqn:Hb.
  - rewrite (init_device_bound cfg hw mpi a s Hb). simpl_device.
    rewrite Hb. split; assumption.
  - unfold init_device.
    cbn [_device_init set_threads_per_charge set_threads_per_atom
         set_nthreads].
    rewrite Hb. abstract_compile o F.
    destruct F as (F1 & F2 & _ & _ & F3 & _). simpl_device in F1.
    simpl_device in F2. simpl_device in F3.
    case_if; simpl_device; [|rewrite F1, F2, F3];
      (split; [assumption|]); split; try reflexivity; discriminate.
Qed.

Lemma init_consistent (cfg : Build) (hw : Hardware) (al : Allocator)
  (a : InitArgs) (s : Device) :
  consistent s -> consistent (after (init cfg hw al a s)).
Proof.
  intros [Hc Hg]. unfold consistent.
  destruct (init_effect cfg hw al a s) as (-> & -> & -> & _).
  split; [|exact Hg]. destruct (status _ =? 0); lia.
Qed.

Lemma init'_consistent (cfg : Build) (hw : Hardware) (al : Allocator)
  (nlocal nall : Z) (s : Device) :
  consistent s -> consistent (after (init' cfg hw al nlocal nall s)).
Proof.
  intros [Hc Hg]. unfold consistent.
  destruct (init'_effect cfg hw al nlocal nall s) as (-> & -> & -> & _).
  split; [|exact Hg]. destruct (status _ =? 0); lia.
Qed.

Lemma clear_consistent (s : Device) :
  consistent s -> consistent (fst (clear s)).
Proof.
  intros [Hc Hg]. unfold consistent.
  destruct (Z.eq_dec (_init_count s) 0) as [E|E].
  - rewrite clear_detached by lia. split; assumption.
  - destruct (clear_attached s ltac:(lia)) as (-> & _ & -> & -> & _).
    split; [lia|exact Hg].
Qed.

(** What [clear_device] leaves. *)
Lemma clear_device_unbinds (s : Device) :
  consistent s ->
  _init_count (fst (clear_device s)) = 0 /\
  _init_count (detach (Z.to_nat (_init_count s)) s) = 0 /\
  _device_init (fst (clear_device s)) = false /\
  gpu (fst (clear_device s)) = None /\
  count_events is_delete_gpu (snd (clear_device s)) =
    (if _device_init s then 1%nat else 0%nat) /\
  (0 < _init_count s -> released (fst (clear_device s))).
Proof.
  intros [Hc Hg]. unfold clear_device.
  destruct (clear_loop_detach (Z.to_nat (_init_count s)) s
              ltac:(lia)) as (L1 & L2 & L3 & L4 & L5 & L6).
  rewrite Z2Nat.id in L6 by lia.
  rewrite <- L1.
  destruct (clear_loop (Z.to_nat (_init_count s)) s) as [s0 released0].
  cbn [fst snd] in *. rewrite L3.
  destruct (_device_init s) eqn:Hb; cbn [fst snd]; simpl_device.
  - unfold count_events in *. rewrite filter_app, length_app, L5.
    splits; try reflexivity; assumption.
  - splits; try assumption; try reflexivity.
    rewrite L4. destruct (gpu s) eqn:Eg; [|reflexivity].
    assert (false = true) by (apply Hg; discriminate). discriminate.
Qed.

Lemma clear_device_consistent (s : Device) :
  consistent s -> consistent (fst (clear_device s)).
Proof.
  intro Hs. destruct (clear_device_unbinds s Hs) as (M1 & _ & M3 & M4 & _).
  split; [lia|]. rewrite M3, M4. split; [discriminate|].
  intro H. now elim H.
Qed.

(** Every state the manager can be in is consistent. *)
Lemma reachable_consistent (cfg : Build) (s : Device) :
  reachable cfg s -> consistent s.
Proof.
  induction 1.
  - apply Device_new_consistent.
  - apply init_device_consistent; assumption.
  - apply init_consistent; assumption.
  - apply init'_consistent; assumption.
  - exact IHreachable.
  - exact IHreachable.
  - apply clear_consistent; assumption.
  - apply clear_device_consistent; assumption.
Qed.

(** A binding [init_device] on a manager whose module is still marked as
    compiled selects the device and returns 0 without building anything:
    [compile_kernels] returns at line 534, before the lane counts are
    resolved. *)
Lemma init_device_keeps_module (cfg : Build) (hw : Hardware) (mpi : MPIEnv)
  (a : InitDeviceArgs) (s : Device) :
  _device_init s = false ->
  _compiled s = true ->
  my_gpu mpi a < num_devices hw ->
  status (init_device cfg hw mpi a s) = 0 /\
  count_events is_load (calls (init_device cfg hw mpi a s)) = 0%nat /\
  _compiled (after (init_device cfg hw mpi a s)) = true /\
  dev_program (after (init_device cfg hw mpi a s)) = dev_program s /\
  _threads_per_atom (after (init_device cfg hw mpi a s)) = t_per_atom a /\
  _threads_per_charge (after (init_device cfg hw mpi a s)) = t_per_atom a.
Proof.
  intros Hunbound Hc Hrange. unfold init_device.
  cbn [_device_init set_threads_per_charge set_threads_per_atom set_nthreads].
  rewrite Hunbound.
  fold (procs_per_node mpi a). fold (node_comm_of mpi a).
  fold (node_rank_of mpi a). fold (my_gpu mpi a).
  destruct (my_gpu mpi a >=? num_devices hw) eqn:E;
    [rewrite Z.geb_leb in E; apply Z.leb_le in E; lia|].
  unfold compile_kernels. simpl_device. rewrite Hc. simpl_device.
  splits; try reflexivity; [|exact Hc].
  destruct (_OPENMP cfg); reflexivity.
Qed.

(** C7, evaluated where it breaks: a manager that is bound, with its module
    compiled, and to which no client is attached.  [clear_device] is safe
    there, leaves the attach count at zero and releases the device binding,
    but it deletes the device handle and nothing else: the module stays
    marked as compiled and the program object and its kernels stay, so the
    manager is not back in its inert state.  The next [init_device] returns
    0 without building anything for the device it selects and leaves both
    lane counts at the raw request.  With one client attached the same
    teardown does release the module, through the last [clear] of its
    loop. *)
Theorem clear_device_keeps_module (cfg : Build) (hw : Hardware)
  (mpi : MPIEnv) (a : InitDeviceArgs) (al : Allocator) (c : InitArgs)
  (s : Device) :
  consistent s ->
  _device_init s = true ->
  _init_count s = 0 ->
  _compiled s = true ->
  my_gpu mpi a < num_devices hw ->
  snd (clear_device s) = [delete_gpu] /\
  _init_count (fst (clear_device s)) = 0 /\
  _device_init (fst (clear_device s)) = false /\
  gpu (fst (clear_device s)) = None /\
  _compiled (fst (clear_device s)) = true /\
  dev_program (fst (clear_device s)) = dev_program s /\
  k_zero (fst (clear_device s)) = k_zero s /\
  k_info (fst (clear_device s)) = k_info s /\
  ~ released (fst (clear_device s)) /\
  status (init_device cfg hw mpi a (fst (clear_device s))) = 0 /\
  count_events is_load
    (calls (init_device cfg hw mpi a (fst (clear_device s)))) = 0%nat /\
  _threads_per_atom (after (init_device cfg hw mpi a (fst (clear_device s))))
    = t_per_atom a /\
  _threads_per_charge
    (after (init_device cfg hw mpi a (fst (clear_device s)))) = t_per_atom a
  /\
  (status (init cfg hw al c s) = 0 ->
   released (fst (clear_device (after (init cfg hw al c s))))).
Proof.
  intros Hs Hb H0 Hc Hrange.
  assert (Hcd : clear_device s =
                (set_device_init false (set_gpu None s), [delete_gpu])).
  { unfold clear_device. rewrite H0. cbn [Z.to_nat clear_loop].
    rewrite Hb. reflexivity. }
  assert (Hcontrast :
    status (init cfg hw al c s) = 0 ->
    released (fst (clear_device (after (init cfg hw al c s))))).
  { intro Hok.
    pose proof (init_consistent cfg hw al c s Hs) as Hs1.
    destruct (init_effect cfg hw al c s) as (_ & _ & Hcount & _).
    rewrite Hok, H0 in Hcount. cbn in Hcount.
    destruct (clear_device_unbinds _ Hs1) as (_ & _ & _ & _ & _ & Hrel).
    apply Hrel. rewrite Hcount. lia. }
  rewrite Hcd. cbn [fst snd].
  destruct (init_device_keeps_module cfg hw mpi a
              (set_device_init false (set_gpu None s)))
    as (I1 & I2 & _ & _ & I5 & I6);
    [reflexivity | exact Hc | exact Hrange |].
  splits; try assumption; try reflexivity.
  intros (_ & _ & Hrel). simpl_device in Hrel. congruence.
Qed.

Lemma clear_device_keeps_module_witness :
  _threads_per_atom bound_rank5 = 4 /\
  _compiled (fst (clear_device bound_rank5)) = true /\
  ~ released (fst (clear_device bound_rank5)) /\
  status (init_device cuda_mixed fermi rank5 bind_default
            (fst (clear_device bound_rank5))) = 0 /\
  count_events is_load
    (calls (init_device cuda_mixed fermi rank5 bind_default
              (fst (clear_device bound_rank5)))) = 0%nat /\
  _threads_per_atom
    (after (init_device cuda_mixed fermi rank5 bind_default
              (fst (clear_device bound_rank5)))) = -1 /\
  released
    (fst (clear_device
            (after (init cuda_mixed fermi all_ok lj_client bound_rank5)))).
Proof.
  split; [reflexivity|].
  assert (Hs : consistent bound_rank5).
  { split; [vm_compute; discriminate|].
    split; [intros _; vm_compute; discriminate | reflexivity]. }
  destruct (clear_device_keeps_module cuda_mixed fermi rank5 bind_default
              all_ok lj_client bound_rank5 Hs)
    as (_ & _ & _ & _ & H5 & _ & _ & _ & H9 & H10 & H11 & H12 & _ & H14);
    try reflexivity.
  split; [exact H5|]. split; [exact H9|]. split; [exact H10|].
  split; [exact H11|]. split; [exact H12|]. apply H14. reflexivity.
Defined.

(** ** Attach and detach sequences *)

Lemma clear_frame (s : Device) :
  _device_init (fst (clear s)) = _device_init s /\
  gpu (fst (clear s)) = gpu s /\
  (0 <= _init_count s -> 0 <= _init_count (fst (clear s))).
Proof.
  destruct (Z_lt_le_dec 0 (_init_count s)) as [H|H].
  - destruct (clear_attached s H) as (-> & _ & -> & -> & _).
    splits; try reflexivity. lia.
  - rewrite clear_detached by assumption. auto.
Qed.

Lemma is_clear_init (c : Call) : is_clear c = negb (is_init c).
Proof. destruct c; reflexivity. Qed.

Lemma do_call_effect (cfg : Build) (hw : Hardware) (c : Call) (s : Device) :
  _device_init (final (do_call cfg hw c s)) = _device_init s /\
  gpu (final (do_call cfg hw c s)) = gpu s /\
  count_events is_load (trace (do_call cfg hw c s)) = 0%nat /\
  count_events is_delete_gpu (trace (do_call cfg hw c s)) = 0%nat /\
  (0 <= _init_count s -> 0 <= _init_count (final (do_call cfg hw c s))) /\
  (is_init c = true ->
   exists st,
     statuses (do_call cfg hw c s) = [st] /\
     _init_count (final (do_call cfg hw c s)) =
       (if st =? 0 then _init_count s + 1 else _init_count s) /\
     (st = 0 ->
      count_events is_atom_init (trace (do_call cfg hw c s)) =
      if _init_count s =? 0 then 1%nat else 0%nat)) /\
  (is_init c = false ->
   statuses (do_call cfg hw c s) = [] /\
   final (do_call cfg hw c s) = fst (clear s) /\
   count_events is_atom_init (trace (do_call cfg hw c s)) = 0%nat).
Proof.
  destruct c as [al a|al nlocal nall|]; cbn [do_call is_init]; simpl_device.
  - destruct (init_effect cfg hw al a s) as (E1 & E2 & E3 & E4 & E5 & E6).
    splits; try assumption; try discriminate.
    + rewrite E3. destruct (status _ =? 0); lia.
    + intros _. eexists. splits; [reflexivity|exact E3|exact E6].
  - destruct (init'_effect cfg hw al nlocal nall s)
      as (E1 & E2 & E3 & E4 & E5 & E6).
    splits; try assumption; try discriminate.
    + rewrite E3. destruct (status _ =? 0); lia.
    + intros _. eexists. splits; [reflexivity|exact E3|exact E6].
  - destruct (clear_frame s) as (C1 & C2 & C3).
    destruct (clear_events s) as (V1 & V2 & V3).
    splits; try assumption; try discriminate. auto.
Qed.

Lemma run_nonneg (cfg : Build) (hw : Hardware) (cs : list Call) :
  forall s : Device,
    0 <= _init_count s -> 0 <= _init_count (final (run cfg hw cs s)).
Proof.
  induction cs as [|c cs IH]; intros s Hs; cbn [run]; simpl_device.
  - exact Hs.
  - apply IH. apply do_call_effect. exact Hs.
Qed.

Lemma run_matched (cfg : Build) (hw : Hardware) (cs : list Call) :
  forall s : Device,
    0 <= _init_count s ->
    Forall (fun st => st = 0) (statuses (run cfg hw cs s)) ->
    matched (_init_count s) cs ->
    _init_count (final (run cfg hw cs s)) =
      _init_count s + count_calls is_init cs - count_calls is_clear cs /\
    (cs <> [] -> _init_count (final (run cfg hw cs s)) = 0 ->
     released (final (run cfg hw cs s))).
Proof.
  induction cs as [|c cs IH]; intros s Hs Hall Hm.
  - cbn. split; [lia|congruence].
  - cbn [run] in *. simpl_device in Hall. simpl_device.
    destruct (do_call_effect cfg hw c s) as (_ & _ & _ & _ & _ & Hi & Hc).
    unfold count_calls. cbn [filter matched] in *.
    rewrite is_clear_init.
    destruct (is_init c) eqn:Ec; cbn [negb List.length].
    + destruct (Hi eq_refl) as (st & Hst & Hcount & _).
      rewrite Hst in Hall. inversion Hall as [|? ? Hz Hrest]; subst.
      cbn [Z.eqb] in Hcount.
      destruct (IH (final (do_call cfg hw c s))) as (I1 & I2);
        try (rewrite Hcount; (lia || assumption)); try assumption.
      unfold count_calls in *.
      split; [rewrite I1, Hcount; lia|].
      intros _ Hzero. destruct cs as [|c' cs'].
      * cbn [run] in Hzero. simpl_device in Hzero. lia.
      * apply I2; [discriminate|exact Hzero].
    + destruct (Hc eq_refl) as (Hst & Hfin & _). destruct Hm as (Hpos & Hm).
      rewrite Hst in Hall. cbn [app] in Hall. rewrite Hfin in *.
      destruct (clear_attached s Hpos) as (Hcount & _ & _ & _ & Hrel & _).
      destruct (IH (fst (clear s))) as (I1 & I2);
        try (rewrite Hcount; (lia || assumption)); try assumption.
      unfold count_calls in *.
      split; [rewrite I1, Hcount; lia|].
      intros _ Hzero. destruct cs as [|c' cs'].
      * cbn [run] in *. simpl_device in Hzero. simpl_device.
        apply Hrel. lia.
      * apply I2; [discriminate|exact Hzero].
Qed.

Lemma run_attach (cfg : Build) (hw : Hardware) (cs : list Call) :
  forall s : Device,
    0 <= _init_count s ->
    Forall (fun c => is_init c = true) cs ->
    Forall (fun st => st = 0) (statuses (run cfg hw cs s)) ->
    _init_count (final (run cfg hw cs s)) =
      _init_count s + Z.of_nat (List.length cs) /\
    count_events is_load (trace (run cfg hw cs s)) = 0%nat /\
    count_events is_atom_init (trace (run cfg hw cs s)) =
      match cs with
      | [] => 0%nat
      | _ :: _ => if _init_count s =? 0 then 1%nat else 0%nat
      end.
Proof.
  induction cs as [|c cs IH]; intros s Hs Hinit Hall.
  - cbn. splits; auto. lia.
  - cbn [run] in *. simpl_device in Hall. simpl_device.
    inversion Hinit as [|? ? Hc Hcs]; subst.
    destruct (do_call_effect cfg hw c s) as (_ & _ & Hl & _ & _ & Hi & _).
    destruct (Hi Hc) as (st & Hst & Hcount & Hatom).
    rewrite Hst in Hall. inversion Hall as [|? ? Hz Hrest]; subst.
    cbn [Z.eqb] in Hcount.
    destruct (IH (final (do_call cfg hw c s))) as (I1 & I2 & I3);
      try assumption; [rewrite Hcount; lia|].
    unfold count_events in *. rewrite !filter_app, !length_app.
    rewrite I1, I2, I3, Hl, Hcount, (Hatom eq_refl).
    splits; [cbn [List.length]; lia | reflexivity |].
    destruct cs as [|c' cs']; [lia|].
    destruct (_init_count s + 1 =? 0) eqn:E; [|lia].
    apply Z.eqb_eq in E. lia.
Qed.

(** A binding [init_device] that returns 0 attached nothing, and built the
    module once if it was not there. *)
Lemma init_device_success (cfg : Build) (hw : Hardware) (mpi : MPIEnv)
  (a : InitDeviceArgs) (s : Device) :
  _device_init s = false ->
  status (init_device cfg hw mpi a s) = 0 ->
  _device_init (after (init_device cfg hw mpi a s)) = true /\
  _init_count (after (init_device cfg hw mpi a s)) = _init_count s /\
  count_events is_atom_init (calls (init_device cfg hw mpi a s)) = 0%nat /\
  (_compiled s = false ->
   count_events is_load (calls (init_device cfg hw mpi a s)) = 1%nat).
Proof.
  intros Hunbound. unfold init_device.
  cbn [_device_init set_threads_per_charge set_threads_per_atom set_nthreads].
  rewrite Hunbound.
  abstract_compile_build o F B. simpl_device in F. simpl_device in B.
  case_if; simpl_device; [discriminate|]. intros _.
  destruct F as (F1 & F2 & _). destruct B as (Ba & _ & Bf).
  rewrite F1, F2. unfold count_events in *.
  rewrite !filter_app, !length_app, Ba.
  splits; try reflexivity.
  - destruct (_OPENMP cfg); reflexivity.
  - intro Hc. destruct (Bf Hc) as (-> & _).
    destruct (_OPENMP cfg); reflexivity.
Qed.

(** C3, as stated, fails: one [clear] followed by one [init] has balanced
    counts, but the [clear] finds nothing attached and does nothing, so
    the sequence ends with one client attached and the atom storage
    allocated. *)
Lemma balanced_counts_leave_client_attached :
  _device_init bound_rank5 = true /\
  _init_count bound_rank5 = 0 /\
  count_calls is_init clear_then_init = count_calls is_clear clear_then_init /\
  statuses (run cuda_mixed fermi clear_then_init bound_rank5) = [0] /\
  _init_count (final (run cuda_mixed fermi clear_then_init bound_rank5)) = 1 /\
  atom_allocated
    (atom (final (run cuda_mixed fermi clear_then_init bound_rank5))) = true.
Proof.
  splits; vm_compute; reflexivity.
Qed.

(** C3, amended: on a bound manager with nothing attached, for every
    sequence of [init] and [clear] calls in which every [init] returns 0
    and no [clear] is issued while nothing is attached, balanced counts
    leave the attach count at 0 and, when the sequence is not empty, the
    atom and neighbor storage and the compiled module released; a sequence
    of N successful [init] calls leaves the attach count at N after exactly
    one [atom.init] allocation and no kernel build, the only build being
    the one of a successful [init_device] on a fresh manager; the attach
    count never goes below 0, and a [clear] with nothing attached does
    nothing. *)
Theorem attach_detach_accounting (cfg : Build) (hw : Hardware) :
  (forall (cs : list Call) (s : Device),
      _device_init s = true ->
      _init_count s = 0 ->
      Forall (fun st => st = 0) (statuses (run cfg hw cs s)) ->
      matched 0 cs ->
      count_calls is_init cs = count_calls is_clear cs ->
      _init_count (final (run cfg hw cs s)) = 0 /\
      (cs <> [] -> released (final (run cfg hw cs s)))) /\
  (forall (cs : list Call) (s : Device),
      _device_init s = true ->
      _init_count s = 0 ->
      Forall (fun c => is_init c = true) cs ->
      Forall (fun st => st = 0) (statuses (run cfg hw cs s)) ->
      _init_count (final (run cfg hw cs s)) = Z.of_nat (List.length cs) /\
      count_events is_load (trace (run cfg hw cs s)) = 0%nat /\
      (cs <> [] ->
       count_events is_atom_init (trace (run cfg hw cs s)) = 1%nat)) /\
  (forall (mpi : MPIEnv) (a : InitDeviceArgs) (cs : list Call),
      status (init_device cfg hw mpi a (Device_new cfg)) = 0 ->
      Forall (fun c => is_init c = true) cs ->
      cs <> [] ->
      Forall (fun st => st = 0)
        (statuses (run cfg hw cs
                     (after (init_device cfg hw mpi a (Device_new cfg))))) ->
      _init_count
        (final (run cfg hw cs
                  (after (init_device cfg hw mpi a (Device_new cfg))))) =
        Z.of_nat (List.length cs) /\
      count_events is_load
        (calls (init_device cfg hw mpi a (Device_new cfg)) ++
         trace (run cfg hw cs
                  (after (init_device cfg hw mpi a (Device_new cfg))))) =
        1%nat /\
      count_events is_atom_init
        (calls (init_device cfg hw mpi a (Device_new cfg)) ++
         trace (run cfg hw cs
                  (after (init_device cfg hw mpi a (Device_new cfg))))) =
        1%nat) /\
  (forall (cs : list Call) (s : Device),
      0 <= _init_count s -> 0 <= _init_count (final (run cfg hw cs s))) /\
  (forall s : Device, _init_count s = 0 -> clear s = (s, [])).
Proof.
  splits.
  - intros cs s _ Hzero Hall Hm Hbal.
    destruct (run_matched cfg hw cs s) as (R1 & R2);
      try (rewrite Hzero; (lia || assumption)); try assumption.
    assert (Hfin : _init_count (final (run cfg hw cs s)) = 0)
      by (rewrite R1, Hzero, Hbal; lia).
    split; [exact Hfin|]. intro Hne. apply R2; assumption.
  - intros cs s _ Hzero Hinit Hall.
    destruct (run_attach cfg hw cs s) as (A1 & A2 & A3);
      try assumption; [lia|].
    rewrite A1, A2, A3, Hzero. splits; try reflexivity.
    destruct cs; [congruence|reflexivity].
  - intros mpi a cs Hok Hinit Hne Hall.
    destruct (init_device_success cfg hw mpi a (Device_new cfg)
                eq_refl Hok) as (_ & S2 & S3 & S4).
    cbn [Device_new _init_count] in S2.
    destruct (run_attach cfg hw cs
                (after (init_device cfg hw mpi a (Device_new cfg))))
      as (A1 & A2 & A3); try assumption; [lia|].
    unfold count_events in *. rewrite !filter_app, !length_app.
    rewrite A1, A2, A3, S2, S3, (S4 eq_refl).
    splits; try reflexivity.
    destruct cs; [congruence|reflexivity].
  - intros cs s. apply run_nonneg.
  - intros s Hzero. apply clear_detached. lia.
Qed.

Lemma attach_detach_accounting_witness :
  _init_count (final (run cuda_mixed fermi two_runs bound_rank5)) = 0 /\
  released (final (run cuda_mixed fermi two_runs bound_rank5)) /\
  _init_count (final (run cuda_mixed fermi three_clients bound_rank5)) = 3 /\
  count_events is_atom_init
    (trace (run cuda_mixed fermi three_clients bound_rank5)) = 1%nat.
Proof.
  destruct (attach_detach_accounting cuda_mixed fermi)
    as (Hbal & Hatt & _ & _ & _).
  destruct (Hbal two_runs bound_rank5) as (B1 & B2).
  - reflexivity.
  - reflexivity.
  - vm_compute. repeat constructor.
  - vm_compute. repeat split; reflexivity.
  - reflexivity.
  - destruct (Hatt three_clients bound_rank5) as (A1 & _ & A3).
    + reflexivity.
    + reflexivity.
    + repeat constructor.
    + vm_compute. repeat constructor.
    + split; [exact B1|]. split; [apply B2; discriminate|].
      split; [exact A1|]. apply A3. discriminate.
Defined.

(** ** The overhead benchmark *)

Lemma Qmax_cases (x y : Q) : Qmax x y = x \/ Qmax x y = y.
Proof.
  unfold Qmax, GenericMinMax.gmax. destruct (x ?= y)%Q; auto.
Qed.

Lemma allreduce_max_maximum (peers : list Q) :
  forall mine : Q, is_maximum (allreduce_max mine peers) (mine :: peers).
Proof.
  unfold allreduce_max, is_maximum.
  induction peers as [|p peers IH]; intro mine; cbn [fold_left].
  - split; [left; reflexivity|].
    intros x [<-|[]]. apply Qle_refl.
  - destruct (IH (Qmax mine p)) as (Hin & Hub). split.
    + destruct Hin as [Hin|Hin]; [|right; right; exact Hin].
      rewrite <- Hin. destruct (Qmax_cases mine p) as [->| ->].
      * left; reflexivity.
      * right; left; reflexivity.
    + intros x [<-|[<-|Hx]].
      * apply Qle_trans with (Qmax mine p);
          [apply Q.le_max_l | apply Hub; left; reflexivity].
      * apply Qle_trans with (Qmax mine p);
          [apply Q.le_max_r | apply Hub; left; reflexivity].
      * apply Hub. right. exact Hx.
Qed.

Lemma trials_spec (kernel_calls : Z) (s : Device) (clock : nat -> Trial)
  (todo : list nat) :
  forall g d : Q,
    fst (fst (trials kernel_calls s clock todo g d)) =
    fold_left Double.add
      (map (fun i => trial_time kernel_calls s (clock i)) todo) g /\
    snd (fst (trials kernel_calls s clock todo g d)) =
    fold_left Double.add
      (map (fun i => trial_driver_time kernel_calls s (clock i)) todo) d /\
    snd (trials kernel_calls s clock todo g d) =
    flat_map (fun i => trial_events kernel_calls s (clock i)) todo.
Proof.
  induction todo as [|i todo IH]; intros g d.
  - cbn [trials map fold_left flat_map fst snd]. splits; reflexivity.
  - cbn [trials map fold_left flat_map].
    unfold trial_time, trial_driver_time, trial_events in *.
    destruct (trial kernel_calls s (clock i)) as [[m md] ev].
    specialize (IH (Double.add g m) (Double.add d md)).
    destruct (trials kernel_calls s clock todo (Double.add g m)
                (Double.add d md)) as [[g' d'] ev'].
    cbn [fst snd] in *. destruct IH as (I1 & I2 & I3).
    splits.
    + exact I1.
    + exact I2.
    + rewrite I3. reflexivity.
Qed.

Lemma for_loop_no_start {n : Z} {body : Z -> list BenchEvent} :
  (forall i, filter is_start (body i) = []) ->
  filter is_start (for_loop n body) = [].
Proof.
  intro Hbody. unfold for_loop.
  induction (map Z.of_nat (seq 0 (Z.to_nat n))) as [|i l IH].
  - reflexivity.
  - cbn [flat_map]. rewrite filter_app, Hbody, IH. reflexivity.
Qed.

Lemma trial_events_one_start (kernel_calls : Z) (s : Device) (t : Trial) :
  List.length (filter is_start (trial_events kernel_calls s t)) = 1%nat.
Proof.
  unfold trial_events, trial. cbn [snd].
  rewrite !filter_app.
  rewrite !for_loop_no_start by (intro; reflexivity).
  destruct (_time_device (topo s)).
  - rewrite !filter_app.
    rewrite !for_loop_no_start by (intro; reflexivity).
    reflexivity.
  - reflexivity.
Qed.

Lemma trials_starts (kernel_calls : Z) (s : Device) (clock : nat -> Trial)
  (todo : list nat) :
  List.length
    (filter is_start
       (flat_map (fun i => trial_events kernel_calls s (clock i)) todo)) =
  List.length todo.
Proof.
  induction todo as [|i todo IH]; [reflexivity|].
  cbn [flat_map List.length]. rewrite filter_app, length_app.
  rewrite trial_events_one_start, IH. reflexivity.
Qed.

Lemma bench_no_start (kernel_calls : Z) (s : Device) :
  filter is_start (bench_setup kernel_calls s) = [] /\
  filter is_start (bench_teardown kernel_calls s) = [].
Proof.
  unfold bench_setup, bench_teardown. rewrite !filter_app.
  rewrite !for_loop_no_start by (intro; reflexivity).
  destruct (_data_in_estimate s >? 0); destruct (_data_out_estimate s >? 0);
    destruct (kernel_calls >? 0); split; reflexivity.
Qed.

(** The average of ten ordinary times as [double] arithmetic computes it
    is the exact average up to eleven roundings. *)
Lemma mean_accuracy (xs : list Q) :
  List.length xs = 10%nat ->
  Forall ordinary_time xs ->
  close_to (mean xs) (exact_mean xs).
Proof.
  intros Hlen Hxs. unfold mean, exact_mean, close_to. rewrite Hlen.
  change (inject_Z (Z.of_nat 10)) with 10%Q.
  pose proof DoubleFacts.unit_roundoff_range as (U0 & U1).
  assert (Hlo : (1 # 2 <= 1 * Double.qpow (1 - Double.unit_roundoff) 10)%Q)
    by (apply Qle_bool_iff; vm_compute; reflexivity).
  destruct (DoubleFacts.sum_accuracy xs 1 1 0 0 Hxs)
    as (S1 & S2 & S3 & S4);
    try rewrite Hlen; try lra; try (left; reflexivity).
  rewrite Hlen in S1, S2.
  assert (E : (0 + fold_right Qplus 0 xs == fold_right Qplus 0 xs)%Q)
    by ring.
  rewrite E in S1, S2, S3, S4. clear E.
  assert (Hy : (fold_left Double.add xs 0 / 10 == 0)%Q \/
               (Double.pow2 (-1022) <= fold_left Double.add xs 0 / 10)%Q).
  { pose proof DoubleFacts.tiny_half as T.
    pose proof (DoubleFacts.pow2_pos (-1000)) as P.
    assert (T' : (Double.pow2 (-1022) * 10 <=
                  (1 # 2) * Double.pow2 (-1000))%Q)
      by (apply Qle_bool_iff; vm_compute; reflexivity).
    revert S1 S2 Hlo. generalize (Double.qpow (1 - Double.unit_roundoff) 10).
    generalize (Double.qpow (1 + Double.unit_roundoff) 10).
    intros hi lo S1 S2 Hlo.
    destruct S4 as [Z|N].
    - left. rewrite Z in S1, S2.
      assert (F0 : (fold_left Double.add xs 0 == 0)%Q) by lra.
      rewrite F0. reflexivity.
    - right. apply Qle_shift_div_l; [reflexivity|]. nra. }
  destruct (DoubleFacts.round_error _ Hy) as (R1 & R2). unfold Double.div.
  assert (Bhi : ((1 + Double.unit_roundoff)
                 * (1 * Double.qpow (1 + Double.unit_roundoff) 10)
                 <= 1 + Double.pow2 (-49))%Q)
    by (apply Qle_bool_iff; vm_compute; reflexivity).
  assert (Blo : (1 - Double.pow2 (-49)
                 <= (1 - Double.unit_roundoff)
                    * (1 * Double.qpow (1 - Double.unit_roundoff) 10))%Q)
    by (apply Qle_bool_iff; vm_compute; reflexivity).
  revert R1 R2 S1 S2 S3 Bhi Blo Hlo.
  generalize (Double.round (fold_left Double.add xs 0 / 10)%Q).
  generalize (1 * Double.qpow (1 + Double.unit_roundoff) 10)%Q.
  generalize (1 * Double.qpow (1 - Double.unit_roundoff) 10)%Q.
  generalize (Double.pow2 (-49)).
  unfold Qdiv. generalize (fold_left Double.add xs 0%Q).
  generalize (fold_right Qplus 0%Q xs).
  intros S F eps lo hi r R1 R2 S1 S2 S3 Bhi Blo Hlo.
  assert (I10 : (/ 10 == 1 # 10)%Q) by reflexivity. rewrite I10 in *.
  split; nra.
Qed.

(** C8: the benchmark runs exactly ten trials between its set-up and its
    tear-down.  Each trial times, inside one region of the overall timer
    and between two readings of the host clock, every inbound transfer,
    then every kernel launch, then every outbound transfer; it reduces its
    two times over the per-device communicator with [MPI_MAX], which
    yields the largest contribution; and the two overheads returned are
    the averages of the ten reduced times, as [double] arithmetic computes
    an average: the ten values added in trial order to 0.0, the sum divided
    by 10.0, every operation rounded to the nearest double.  When the ten
    reduced times are ordinary (zero, or between 2^-1000 and 2^1000
    seconds) the overhead returned is their exact average up to a relative
    error of 2^-49. *)
Theorem estimate_gpu_overhead_trials (kernel_calls : Z)
  (clock : nat -> Trial) (s : Device) :
  snd (estimate_gpu_overhead kernel_calls clock s) =
    bench_setup kernel_calls s
    ++ flat_map (fun i => trial_events kernel_calls s (clock i)) (seq 0 10)
    ++ bench_teardown kernel_calls s /\
  List.length
    (filter is_start (snd (estimate_gpu_overhead kernel_calls clock s))) =
    10%nat /\
  (forall t : Trial,
      exists totals,
        forallb is_add_to_total totals = true /\
        trial_events kernel_calls s t =
        [gpu_sync; gpu_barrier; over_timer_start; gpu_sync; gpu_barrier;
         MPI_Wtime]
        ++ timed_region (_data_in_estimate s) kernel_calls
             (_data_out_estimate s)
        ++ [over_timer_stop; over_timer_seconds; MPI_Wtime]
        ++ totals
        ++ [MPI_Allreduce_MAX (_comm_gpu (topo s)) (seconds t);
            MPI_Allreduce_MAX (_comm_gpu (topo s))
              (Double.sub (wtime_after t) (wtime_before t))]) /\
  (forall t : Trial,
      is_maximum (trial_time kernel_calls s t) (seconds t :: peer_times t) /\
      is_maximum (trial_driver_time kernel_calls s t)
        (Double.sub (wtime_after t) (wtime_before t)
         :: peer_driver_times t)) /\
  fst (fst (estimate_gpu_overhead kernel_calls clock s)) =
    mean (map (fun i => trial_time kernel_calls s (clock i)) (seq 0 10)) /\
  snd (fst (estimate_gpu_overhead kernel_calls clock s)) =
    mean (map (fun i => trial_driver_time kernel_calls s (clock i))
            (seq 0 10)) /\
  (Forall ordinary_time
     (map (fun i => trial_time kernel_calls s (clock i)) (seq 0 10)) ->
   close_to (fst (fst (estimate_gpu_overhead kernel_calls clock s)))
     (exact_mean
        (map (fun i => trial_time kernel_calls s (clock i)) (seq 0 10)))) /\
  (Forall ordinary_time
     (map (fun i => trial_driver_time kernel_calls s (clock i)) (seq 0 10)) ->
   close_to (snd (fst (estimate_gpu_overhead kernel_calls clock s)))
     (exact_mean
        (map (fun i => trial_driver_time kernel_calls s (clock i))
           (seq 0 10)))).
Proof.
  unfold estimate_gpu_overhead.
  destruct (trials_spec kernel_calls s clock (seq 0 10) 0%Q 0%Q)
    as (T1 & T2 & T3).
  destruct (trials kernel_calls s clock (seq 0 10) 0%Q 0%Q)
    as [[g d] events].
  cbn [fst snd] in *. subst events.
  destruct (bench_no_start kernel_calls s) as (S1 & S2).
  splits.
  - reflexivity.
  - rewrite !filter_app, !length_app, S1, S2, trials_starts. reflexivity.
  - intro t. unfold trial_events, trial, timed_region. cbn [snd].
    exists (if _time_device (topo s)
            then for_loop (_data_in_estimate s)
                   (fun i => [add_to_total data_in i])
                 ++ for_loop kernel_calls (fun i => [add_to_total kernel i])
                 ++ for_loop (_data_out_estimate s)
                      (fun i => [add_to_total data_out i])
            else []).
    split; [|rewrite <- !app_assoc; reflexivity].
    destruct (_time_device (topo s)); [|reflexivity].
    unfold for_loop. rewrite !forallb_app.
    assert (Hall : forall (f : Family) (l : list Z),
               forallb is_add_to_total
                 (flat_map (fun i => [add_to_total f i]) l) = true)
      by (intros f l; induction l; [reflexivity|assumption]).
    rewrite !Hall. reflexivity.
  - intro t. split; apply allreduce_max_maximum.
  - unfold mean. rewrite length_map, length_seq, T1. reflexivity.
  - unfold mean. rewrite length_map, length_seq, T2. reflexivity.
  - intro Hord.
    assert (E : Double.div g 10 =
                mean (map (fun i => trial_time kernel_calls s (clock i))
                        (seq 0 10)))
      by (unfold mean; rewrite length_map, length_seq, T1; reflexivity).
    rewrite E.
    apply mean_accuracy; [rewrite length_map; apply length_seq|exact Hord].
  - intro Hord.
    assert (E : Double.div d 10 =
                mean (map (fun i => trial_driver_time kernel_calls s (clock i))
                        (seq 0 10)))
      by (unfold mean; rewrite length_map, length_seq, T2; reflexivity).
    rewrite E.
    apply mean_accuracy; [rewrite length_map; apply length_seq|exact Hord].
Qed.

Lemma estimate_gpu_overhead_trials_witness :
  List.length
    (filter is_start (snd (estimate_gpu_overhead 1 steady_clock bound_rank5)))
    = 10%nat /\
  (exact_mean
     (map (fun i => trial_time 1 bound_rank5 (steady_clock i)) (seq 0 10))
   == 58 # 10)%Q /\
  close_to (fst (fst (estimate_gpu_overhead 1 steady_clock bound_rank5)))
    (exact_mean
       (map (fun i => trial_time 1 bound_rank5 (steady_clock i))
          (seq 0 10))).
Proof.
  destruct (estimate_gpu_overhead_trials 1 steady_clock bound_rank5)
    as (_ & H2 & _ & _ & _ & _ & H7 & _).
  split; [exact H2|]. split; [vm_compute; reflexivity|].
  apply H7. cbn [map seq].
  repeat (apply Forall_cons;
          [right; split; apply Qle_bool_iff; vm_compute; reflexivity|]).
  apply Forall_nil.
Defined.

(** ** Scenarios *)

(** Eight ranks on two hosts of four, devices 0 and 1 on each host: two
    procs per device, no device timing, and the fourth rank of its host
    (world rank 5) is bound to device 1. *)
Example two_hosts_of_four :
  status (init_device cuda_mixed fermi rank5 bind_default
            (Device_new cuda_mixed)) = 0 /\
  _procs_per_gpu (topo bound_rank5) = 2 /\
  _time_device (topo bound_rank5) = false /\
  device_index bound_rank5 = Some 1.
Proof. splits; vm_compute; reflexivity. Qed.

(** Double-width accumulation on a device without double precision: the
    attach call returns -5 and the manager is as before. *)
Example double_accumulation_unsupported :
  status (init_device cuda_double tesla_single rank5 bind_default
            (Device_new cuda_double)) = 0 /\
  status (init cuda_double tesla_single all_ok lj_client
            (after (init_device cuda_double tesla_single rank5 bind_default
                      (Device_new cuda_double)))) = -5 /\
  after (init cuda_double tesla_single all_ok lj_client
           (after (init_device cuda_double tesla_single rank5 bind_default
                     (Device_new cuda_double)))) =
  after (init_device cuda_double tesla_single rank5 bind_default
           (Device_new cuda_double)).
Proof. splits; vm_compute; reflexivity. Qed.

(** Ten trials whose own times are 1..10 seconds against a peer that
    always reports 3: the reduced times are 3,3,3,4,..,10, their sum is 58
    and the overhead returned is the double nearest to 5.8, which is
    6530219459687219 / 2^50 (5.7999999999999998...); the driver time is 2
    in every trial. *)
Example steady_clock_overheads :
  (fst (fst (estimate_gpu_overhead 1 steady_clock bound_rank5)) ==
   6530219459687219 # 1125899906842624)%Q /\
  (snd (fst (estimate_gpu_overhead 1 steady_clock bound_rank5)) == 2)%Q.
Proof. split; vm_compute; reflexivity. Qed.

(** The architecture test compares two doubles: the double nearest to
    12/10 lies below 12/10, and [120/100.0] is that same double, so a
    device of architecture 1.2 passes the test for kernels that report
    120. *)
Example architecture_test_in_double :
  (arch arch_1_2 < 12 # 10)%Q /\
  (arch arch_1_2 == 5404319552844595 # 4503599627370496)%Q /\
  status (compile_kernels cuda_mixed arch_1_2 (Device_new cuda_mixed)) = 0.
Proof. splits; vm_compute; reflexivity. Qed.

(** A particle split of 0.7 over ten local particles: the [double] product
    rounds to 7.0, and the answer storage is sized for 7 particles, not for
    the 6 of the exact product of the two doubles. *)
Example device_share_in_double :
  (_particle_split (topo bound_uneven_split) * 10 < 7)%Q /\
  ans_init_sizes
    (calls (init cuda_mixed fermi all_ok small_client bound_uneven_split))
  = [7].
Proof. split; vm_compute; reflexivity. Qed.

(** * Further properties *)

(** ** The node map *)

Lemma compare_lt_irrefl (a : string) : String.compare a a <> Lt.
Proof. rewrite compare_refl. discriminate. Qed.

(** In a sorted map a key below the first key is absent. *)
Lemma find_below_head (k k' : string) (v' : Z) (m : NameMap.t) :
  NameMap.sorted ((k', v') :: m) ->
  String.compare k k' = Lt ->
  NameMap.find k ((k', v') :: m) = None.
Proof.
  intros Hs Hlt.
  destruct (NameMap.find k ((k', v') :: m)) eqn:E; [|reflexivity].
  exfalso.
  assert (Hin : In k (NameMap.keys ((k', v') :: m)))
    by (apply find_keys; rewrite E; discriminate).
  destruct Hin as [Heq|Hin].
  - cbn in Heq. subst k'. exact (compare_lt_irrefl k Hlt).
  - pose proof (sorted_head_least k' v' m Hs k Hin) as Hgt.
    apply (compare_lt_irrefl k). apply compare_lt_trans with k'; assumption.
Qed.

Lemma total_count_set (k : string) (v : Z) (m : NameMap.t) :
  NameMap.sorted m ->
  total_count (NameMap.set k v m) = total_count m - stored m k + v.
Proof.
  induction m as [|[k' v'] m IH]; intro Hs.
  - cbn. lia.
  - cbn [NameMap.set].
    destruct (String.compare k k') eqn:E.
    + apply String.compare_eq_iff in E. subst k'.
      unfold stored. cbn [NameMap.find]. rewrite String.eqb_refl.
      cbn [total_count fold_right snd]. lia.
    + unfold stored. rewrite (find_below_head k k' v' m Hs E).
      cbn [total_count fold_right snd]. lia.
    + cbn [total_count fold_right snd].
      fold (total_count (NameMap.set k v m)). fold (total_count m).
      rewrite (IH (sorted_tail _ _ Hs)).
      unfold stored. cbn [NameMap.find].
      destruct (String.eqb_spec k k') as [->|_]; [|lia].
      rewrite compare_refl in E. discriminate.
Qed.

Lemma total_count_nodes (names : list string) :
  forall m : NameMap.t,
    NameMap.sorted m ->
    total_count (count_nodes names m) =
    total_count m + Z.of_nat (List.length names).
Proof.
  induction names as [|n names IH]; intros m Hs.
  - cbn [count_nodes List.length]. lia.
  - cbn [count_nodes List.length].
    rewrite IH.
    + destruct (NameMap.find n m) eqn:E; rewrite total_count_set by exact Hs;
        unfold stored; rewrite E; lia.
    + destruct (NameMap.find n m); apply set_sorted; exact Hs.
Qed.

(** X1: the counting loop counts every rank exactly once: the group sizes
    in the map add up to the number of gathered names, whatever the
    names. *)
Theorem count_nodes_counts_every_rank (names : list string) :
  total_count (count_nodes names []) = Z.of_nat (List.length names).
Proof.
  rewrite total_count_nodes by exact I. reflexivity.
Qed.

Lemma sorted_keys_NoDup (m : NameMap.t) :
  NameMap.sorted m -> NoDup (NameMap.keys m).
Proof.
  induction m as [|[k v] m IH]; intro Hs.
  - constructor.
  - cbn. constructor.
    + intro Hin. apply (compare_lt_irrefl k).
      exact (sorted_head_least k v m Hs k Hin).
    + apply IH. exact (sorted_tail _ _ Hs).
Qed.

Lemma assign_split_id_absent (m : NameMap.t) (node : string) :
  forall n id : Z,
    ~ In node (NameMap.keys m) -> assign_split_id m node n id = id.
Proof.
  induction m as [|[k v] m IH]; intros n id Hout.
  - reflexivity.
  - cbn [assign_split_id].
    destruct (String.eqb_spec k node) as [->|_].
    + elim Hout. left. reflexivity.
    + apply IH. intro H. apply Hout. right. exact H.
Qed.

Lemma assign_split_id_present (m : NameMap.t) (node : string) :
  forall n id : Z,
    NoDup (NameMap.keys m) ->
    In node (NameMap.keys m) ->
    exists i : nat,
      nth_error (NameMap.keys m) i = Some node /\
      assign_split_id m node n id = n + Z.of_nat i.
Proof.
  induction m as [|[k v] m IH]; intros n id Hnd Hin.
  - destruct Hin.
  - cbn in Hnd. inversion Hnd as [|? ? Hk Hm]; subst.
    cbn [assign_split_id].
    destruct (String.eqb_spec k node) as [->|Hne].
    + exists 0%nat. split; [reflexivity|].
      rewrite assign_split_id_absent by exact Hk. lia.
    + destruct Hin as [Heq|Hin]; [cbn in Heq; congruence|].
      destruct (IH (n + 1) id Hm Hin) as (i & Hi & Hid).
      exists (S i). split; [exact Hi|]. rewrite Hid. lia.
Qed.

Lemma gathered_name_is_key (names : list string) (host : string) :
  In host names -> In host (NameMap.keys (count_nodes names [])).
Proof.
  intro Hin. apply find_keys. rewrite count_nodes_find.
  apply (count_occ_In string_dec) in Hin.
  destruct (count_occ string_dec names host); [lia|discriminate].
Qed.

(** X2: the node ids separate the hosts: two gathered host names get the
    same id exactly when they are the same name, and every id lies between
    0 and the number of distinct hosts. *)
Theorem split_id_identifies_host (names : list string) (a b : string) :
  In a names -> In b names ->
  (split_id_of names a = split_id_of names b <-> a = b) /\
  0 <= split_id_of names a <
    Z.of_nat (List.length (count_nodes names [])).
Proof.
  intros Ha Hb. unfold split_id_of.
  pose proof (sorted_keys_NoDup _ (count_nodes_sorted names [] I)) as Hnd.
  destruct (assign_split_id_present _ a 0 0 Hnd
              (gathered_name_is_key names a Ha)) as (i & Hi & Hia).
  destruct (assign_split_id_present _ b 0 0 Hnd
              (gathered_name_is_key names b Hb)) as (j & Hj & Hjb).
  split.
  - split.
    + intro Heq. rewrite Hia, Hjb in Heq.
      assert (i = j) by lia. subst j. congruence.
    + intros ->. reflexivity.
  - rewrite Hia. assert (Hlt : (i < List.length (NameMap.keys (count_nodes names [])))%nat)
      by (apply nth_error_Some; rewrite Hi; discriminate).
    unfold NameMap.keys in Hlt. rewrite length_map in Hlt. lia.
Qed.

Lemma split_id_identifies_host_witness :
  split_id_of two_hosts "nodeA" <> split_id_of two_hosts "nodeB".
Proof.
  intro Heq.
  destruct (split_id_identifies_host two_hosts "nodeA" "nodeB")
    as ((Hsame & _) & _).
  - cbn. auto 10.
  - cbn. auto 10.
  - specialize (Hsame Heq). discriminate.
Defined.

Lemma keys_find (k : string) (m : NameMap.t) :
  In k (NameMap.keys m) -> NameMap.find k m <> None.
Proof.
  induction m as [|[k0 v0] m IH]; intro Hin.
  - destruct Hin.
  - cbn [NameMap.find]. destruct (String.eqb_spec k k0) as [_|Hne].
    + discriminate.
    + destruct Hin as [Heq|Hin]; [cbn in Heq; congruence|].
      exact (IH Hin).
Qed.

(** X3: a host name that was not gathered gets node id 0, the id of the
    least gathered host. *)
Theorem split_id_of_unknown_host (names : list string) (host : string) :
  ~ In host names -> split_id_of names host = 0.
Proof.
  intro Hout. unfold split_id_of. apply assign_split_id_absent.
  intro Hin. apply Hout. apply keys_find in Hin.
  rewrite count_nodes_find in Hin.
  apply (count_occ_In string_dec).
  destruct (count_occ string_dec names host); [|lia].
  cbn in Hin. congruence.
Qed.

Lemma split_id_of_unknown_host_witness :
  split_id_of two_hosts "nodeC" = 0.
Proof.
  apply split_id_of_unknown_host.
  cbn. intros [H|[H|[H|[H|[H|[H|[H|[H|[]]]]]]]]]; discriminate.
Defined.

(** ** Binding, continued *)

Lemma compile_kernels_status (cfg : Build) (hw : Hardware) (s : Device) :
  status (compile_kernels cfg hw s) =
  if _compiled s then 0 else if build_ok cfg hw then 0 else -4.
Proof.
  unfold compile_kernels, build_ok.
  destruct (_compiled s); [reflexivity|].
  destruct (load_string hw =? UCL_SUCCESS cfg); cbn [negb andb];
    [|reflexivity].
  destruct (negb (USE_OPENCL cfg) && Qltb (arch hw) _); reflexivity.
Qed.

(** Replace the outcome of the [compile_kernels] call in the goal by a
    variable [o], keeping its frame as [F] and its status as [St]. *)
Ltac abstract_compile_status o F St :=
  match goal with
  | |- context [compile_kernels ?cfg ?hw ?s0] =>
      generalize (compile_kernels_status cfg hw s0);
      generalize (compile_kernels_frame cfg hw s0);
      generalize (compile_kernels cfg hw s0);
      intros o F St
  end.

(** What a binding [init_device] returns and leaves. *)
Lemma init_device_unbound (cfg : Build) (hw : Hardware) (mpi : MPIEnv)
  (a : InitDeviceArgs) (s : Device) :
  _device_init s = false ->
  status (init_device cfg hw mpi a s) =
    (if my_gpu mpi a >=? num_devices hw then -2
     else if _compiled s then 0 else if build_ok cfg hw then 0 else -4) /\
  device_index (after (init_device cfg hw mpi a s)) =
    (if my_gpu mpi a >=? num_devices hw then None
     else Some (my_gpu mpi a)) /\
  _device_init (after (init_device cfg hw mpi a s)) = true /\
  _init_count (after (init_device cfg hw mpi a s)) = _init_count s /\
  _procs_per_gpu (topo (after (init_device cfg hw mpi a s))) =
    procs_per_gpu_of (procs_per_node mpi a) (first_gpu a) (last_gpu a) /\
  _time_device (topo (after (init_device cfg hw mpi a s))) =
    (if procs_per_gpu_of (procs_per_node mpi a) (first_gpu a) (last_gpu a)
        >? 1 then false else true) /\
  _particle_split (topo (after (init_device cfg hw mpi a s))) = p_split a /\
  _gpu_mode (topo (after (init_device cfg hw mpi a s))) = gpu_mode a.
Proof.
  intro Hunbound. unfold init_device.
  cbn [_device_init set_threads_per_charge set_threads_per_atom set_nthreads].
  rewrite Hunbound.
  fold (procs_per_node mpi a). fold (node_comm_of mpi a).
  fold (node_rank_of mpi a). fold (my_gpu mpi a).
  remember (procs_per_gpu_of (procs_per_node mpi a) (first_gpu a)
              (last_gpu a)) as ppg eqn:Eppg.
  abstract_compile_status o F St.
  simpl_device in F. simpl_device in St.
  destruct F as (F1 & F2 & _ & F3 & F4 & _).
  unfold device_index.
  destruct (my_gpu mpi a >=? num_devices hw); simpl_device.
  - cbn [_procs_per_gpu _time_device _particle_split _gpu_mode
         current_device].
    splits; reflexivity.
  - rewrite F1, F2, F3, F4, St.
    cbn [_procs_per_gpu _time_device _particle_split _gpu_mode
         current_device].
    splits; reflexivity.
Qed.

Lemma procs_per_gpu_positive (ppn first last : Z) :
  1 <= ppn -> first <= last ->
  1 <= procs_per_gpu_of ppn first last.
Proof.
  intros Hppn Hrange.
  pose proof (procs_per_gpu_ceiling ppn first last Hrange) as Hceil.
  unfold is_ceiling in Hceil. nia.
Qed.

(** X4: when the caller's node rank is below the number of procs per node,
    the device index that [init_device] computes lies in the configured
    range [first_gpu..last_gpu]; if the node has that many devices the
    binding does not fail with -2 and the manager is bound to that
    index. *)
Theorem init_device_index_in_range (cfg : Build) (hw : Hardware)
  (mpi : MPIEnv) (a : InitDeviceArgs) (s : Device) :
  _device_init s = false ->
  first_gpu a <= last_gpu a ->
  0 <= node_rank_of mpi a < procs_per_node mpi a ->
  first_gpu a <= my_gpu mpi a <= last_gpu a /\
  (last_gpu a < num_devices hw ->
   status (init_device cfg hw mpi a s) <> -2 /\
   device_index (after (init_device cfg hw mpi a s)) =
     Some (my_gpu mpi a)).
Proof.
  intros Hunbound Hrange Hrank.
  pose proof (procs_per_gpu_ceiling (procs_per_node mpi a) _ _ Hrange)
    as Hceil.
  pose proof (procs_per_gpu_positive (procs_per_node mpi a) _ _
                ltac:(lia) Hrange) as Hpos.
  assert (Hidx : first_gpu a <= my_gpu mpi a <= last_gpu a).
  { unfold my_gpu, my_gpu_of. rewrite Z.quot_div_nonneg by lia.
    set (ppg := procs_per_gpu_of (procs_per_node mpi a) (first_gpu a)
                  (last_gpu a)) in *.
    assert (0 <= node_rank_of mpi a / ppg) by (apply Z.div_pos; lia).
    assert (node_rank_of mpi a / ppg < last_gpu a - first_gpu a + 1).
    { apply Z.div_lt_upper_bound; [lia|].
      unfold is_ceiling in Hceil. nia. }
    lia. }
  split; [exact Hidx|]. intro Hdev.
  destruct (init_device_unbound cfg hw mpi a s Hunbound)
    as (Hst & Hdi & _).
  rewrite Hst, Hdi.
  destruct (my_gpu mpi a >=? num_devices hw) eqn:E.
  - rewrite Z.geb_leb in E. apply Z.leb_le in E. lia.
  - split; [|reflexivity].
    destruct (_compiled s); [discriminate|].
    destruct (build_ok cfg hw); discriminate.
Qed.

Lemma init_device_index_in_range_witness :
  0 <= my_gpu rank5 bind_default <= 1 /\
  device_index (after (init_device cuda_mixed fermi rank5 bind_default
                         (Device_new cuda_mixed))) =
    Some (my_gpu rank5 bind_default).
Proof.
  destruct (init_device_index_in_range cuda_mixed fermi rank5 bind_default
              (Device_new cuda_mixed)) as (H1 & H2).
  - reflexivity.
  - vm_compute. discriminate.
  - vm_compute. split; [discriminate|reflexivity].
  - split; [exact H1|]. apply H2. reflexivity.
Defined.

(** X5: a binding [init_device] enables device timing exactly when the
    procs of a node do not outnumber the devices of the range, that is
    when no device is shared. *)
Theorem init_device_times_unshared_devices (cfg : Build) (hw : Hardware)
  (mpi : MPIEnv) (a : InitDeviceArgs) (s : Device) :
  _device_init s = false ->
  1 <= procs_per_node mpi a ->
  first_gpu a <= last_gpu a ->
  (_time_device (topo (after (init_device cfg hw mpi a s))) = true <->
   procs_per_node mpi a <= last_gpu a - first_gpu a + 1).
Proof.
  intros Hunbound Hppn Hrange.
  destruct (init_device_unbound cfg hw mpi a s Hunbound)
    as (_ & _ & _ & _ & _ & -> & _).
  pose proof (procs_per_gpu_ceiling (procs_per_node mpi a) _ _ Hrange)
    as Hceil.
  unfold is_ceiling in Hceil.
  destruct (procs_per_gpu_of (procs_per_node mpi a) (first_gpu a)
              (last_gpu a) >? 1) eqn:E; rewrite Z.gtb_ltb in E.
  - apply Z.ltb_lt in E. split; [discriminate|]. intro H. exfalso. nia.
  - apply Z.ltb_ge in E. split; [|reflexivity]. intros _. nia.
Qed.

Lemma init_device_times_unshared_devices_witness :
  _time_device
    (topo (after (init_device cuda_mixed fermi rank5 bind_default
                    (Device_new cuda_mixed)))) <> true /\
  ~ procs_per_node rank5 bind_default <= 2.
Proof.
  pose proof (init_device_times_unshared_devices cuda_mixed fermi rank5
                bind_default (Device_new cuda_mixed)) as H.
  assert (Hn : ~ procs_per_node rank5 bind_default <= 2)
    by (vm_compute; intro C; apply C; reflexivity).
  split; [|exact Hn].
  intro Ht. apply Hn. apply H.
  - reflexivity.
  - vm_compute. discriminate.
  - vm_compute. discriminate.
  - exact Ht.
Defined.

(** X6: [init_device] returns 0, -2 or -4, on every call whose divisions
    are defined: the device range is not empty and the node holds at least
    one process (the divisors of lines 110 and 112), and the warp size and
    the two default lane counts reported by the device are positive (the
    divisors of lines 579 and 583).  It returns -2 exactly when the manager
    was unbound and the computed device index is not below the number of
    devices, and -4 exactly when the manager was unbound, the index is in
    range, no module was compiled yet and the build or the architecture
    check, made in [double] arithmetic, fails. *)
Theorem init_device_status_codes (cfg : Build) (hw : Hardware)
  (mpi : MPIEnv) (a : InitDeviceArgs) (s : Device) :
  first_gpu a <= last_gpu a ->
  1 <= procs_per_node mpi a ->
  1 <= h_gpu_lib_data hw 2%nat ->
  1 <= h_gpu_lib_data hw 3%nat ->
  1 <= h_gpu_lib_data hw 13%nat ->
  (status (init_device cfg hw mpi a s) = 0 \/
   status (init_device cfg hw mpi a s) = -2 \/
   status (init_device cfg hw mpi a s) = -4) /\
  (status (init_device cfg hw mpi a s) = -2 <->
   _device_init s = false /\ num_devices hw <= my_gpu mpi a) /\
  (status (init_device cfg hw mpi a s) = -4 <->
   _device_init s = false /\ my_gpu mpi a < num_devices hw /\
   _compiled s = false /\ build_ok cfg hw = false).
Proof.
  intros _ _ _ _ _.
  destruct (_device_init s) eqn:Hb.
  - rewrite (init_device_bound cfg hw mpi a s Hb). simpl_device.
    splits; [auto| |]; (split; [discriminate|]);
      intros (C & _); discriminate.
  - destruct (init_device_unbound cfg hw mpi a s Hb) as (-> & _).
    destruct (my_gpu mpi a >=? num_devices hw) eqn:E;
      rewrite Z.geb_leb in E;
      [apply Z.leb_le in E | apply Z.leb_gt in E].
    + splits; [auto| |].
      * split; [auto|reflexivity].
      * split; [discriminate|]. intros (_ & C & _). lia.
    + destruct (_compiled s); [|destruct (build_ok cfg hw)];
        (splits; [auto| |]);
        try (split; [discriminate|intros (_ & C); lia]);
        try (split; [discriminate|intros (_ & _ & C & _); discriminate]);
        try (split; [discriminate|intros (_ & _ & _ & C); discriminate]).
      split; [auto|reflexivity].
Qed.

Lemma init_device_status_codes_witness :
  status (init_device cuda_mixed old_device rank5 bind_default
            (Device_new cuda_mixed)) = -4 /\
  status (init_device cuda_mixed one_device rank5 bind_default
            (Device_new cuda_mixed)) = -2 /\
  status (init_device cuda_mixed arch_1_2 rank5 bind_default
            (Device_new cuda_mixed)) <> -4.
Proof.
  destruct (init_device_status_codes cuda_mixed old_device rank5
              bind_default (Device_new cuda_mixed))
    as (_ & _ & H4); try (vm_compute; discriminate).
  destruct (init_device_status_codes cuda_mixed one_device rank5
              bind_default (Device_new cuda_mixed))
    as (_ & H2 & _); try (vm_compute; discriminate).
  destruct (init_device_status_codes cuda_mixed arch_1_2 rank5
              bind_default (Device_new cuda_mixed))
    as (_ & _ & H4'); try (vm_compute; discriminate).
  split; [|split].
  - apply H4. vm_compute. splits; try reflexivity.
  - apply H2. vm_compute. split; [reflexivity|discriminate].
  - intro C. apply H4' in C. destruct C as (_ & _ & _ & C).
    vm_compute in C. discriminate.
Defined.

(** ** Kernel compilation, continued *)

Lemma compile_kernels_compiled (cfg : Build) (hw : Hardware) (s : Device) :
  _compiled (after (compile_kernels cfg hw s)) =
  _compiled s || (load_string hw =? UCL_SUCCESS cfg).
Proof.
  unfold compile_kernels.
  destruct (_compiled s) eqn:Ec; [exact Ec|].
  destruct (load_string hw =? UCL_SUCCESS cfg); cbn [negb orb].
  - repeat (case_if; simpl_device); reflexivity.
  - simpl_device. exact Ec.
Qed.

(** X7: [compile_kernels] is idempotent: once a call has returned 0, a
    further call, on whatever hardware, returns 0 without building
    anything and leaves the manager as it is. *)
Theorem compile_kernels_idempotent (cfg : Build) (hw hw' : Hardware)
  (s : Device) :
  status (compile_kernels cfg hw s) = 0 ->
  compile_kernels cfg hw' (after (compile_kernels cfg hw s)) =
  {| status := 0; after := after (compile_kernels cfg hw s); calls := [] |}.
Proof.
  intro Hok.
  assert (Hc : _compiled (after (compile_kernels cfg hw s)) = true).
  { rewrite compile_kernels_compiled.
    rewrite compile_kernels_status in Hok. unfold build_ok in Hok.
    destruct (_compiled s); [reflexivity|].
    destruct (load_string hw =? UCL_SUCCESS cfg); [reflexivity|].
    discriminate. }
  revert Hc. generalize (after (compile_kernels cfg hw s)). intros s1 Hc.
  unfold compile_kernels. rewrite Hc. reflexivity.
Qed.

Lemma compile_kernels_idempotent_witness :
  calls (compile_kernels cuda_mixed old_device
           (after (compile_kernels cuda_mixed fermi
                     (Device_new cuda_mixed)))) = [].
Proof.
  assert (Hok : status (compile_kernels cuda_mixed fermi
                          (Device_new cuda_mixed)) = 0)
    by (vm_compute; reflexivity).
  rewrite (compile_kernels_idempotent cuda_mixed fermi old_device
             (Device_new cuda_mixed) Hok).
  reflexivity.
Defined.

(** X8: when the module builds but the device is older than the
    architecture the kernels target, [compile_kernels] returns -4 after it
    has marked the module as compiled: the warp size and the lane counts
    are left as they were, and every later [compile_kernels] returns 0
    without reading them. *)
Theorem compile_kernels_arch_mismatch (cfg : Build) (hw : Hardware)
  (s : Device) :
  _compiled s = false ->
  load_string hw = UCL_SUCCESS cfg ->
  USE_OPENCL cfg = false ->
  Qltb (arch hw) (Double.div (inject_Z (h_gpu_lib_data hw 0%nat)) 100)
    = true ->
  status (compile_kernels cfg hw s) = -4 /\
  _compiled (after (compile_kernels cfg hw s)) = true /\
  _warp_size (caps (after (compile_kernels cfg hw s))) =
    _warp_size (caps s) /\
  _threads_per_atom (after (compile_kernels cfg hw s)) =
    _threads_per_atom s /\
  _threads_per_charge (after (compile_kernels cfg hw s)) =
    _threads_per_charge s /\
  forall hw' : Hardware,
    status (compile_kernels cfg hw' (after (compile_kernels cfg hw s))) = 0.
Proof.
  intros Hfresh Hload Hcl Hold.
  assert (Hc : _compiled (after (compile_kernels cfg hw s)) = true).
  { rewrite compile_kernels_compiled, Hload, Z.eqb_refl.
    apply orb_true_r. }
  assert (Hrest :
    status (compile_kernels cfg hw s) = -4 /\
    _warp_size (caps (after (compile_kernels cfg hw s))) =
      _warp_size (caps s) /\
    _threads_per_atom (after (compile_kernels cfg hw s)) =
      _threads_per_atom s /\
    _threads_per_charge (after (compile_kernels cfg hw s)) =
      _threads_per_charge s).
  { unfold compile_kernels.
    rewrite Hfresh, Hload, Z.eqb_refl, Hcl, Hold. cbn [negb andb].
    simpl_device. splits; reflexivity. }
  destruct Hrest as (R1 & R2 & R3 & R4).
  splits; try assumption.
  intro hw'. rewrite compile_kernels_status, Hc. reflexivity.
Qed.

Lemma compile_kernels_arch_mismatch_witness :
  status (compile_kernels cuda_mixed old_device (Device_new cuda_mixed)) = -4
  /\
  status (compile_kernels cuda_mixed old_device
            (after (compile_kernels cuda_mixed old_device
                      (Device_new cuda_mixed)))) = 0.
Proof.
  destruct (compile_kernels_arch_mismatch cuda_mixed old_device
              (Device_new cuda_mixed)) as (H1 & _ & _ & _ & _ & H6);
    try reflexivity.
  split; [exact H1|apply H6].
Defined.

Lemma clamp_block_bounds (hw : Hardware) (block : Z) :
  0 <= group_size hw < 2 ^ 31 ->
  - 2 ^ 31 <= block < 2 ^ 31 ->
  0 <= clamp_block hw block <= group_size hw.
Proof.
  intros Hg Hb. unfold clamp_block, to_size_t, to_int.
  destruct (block mod 2 ^ 64 >? group_size hw) eqn:E;
    rewrite Z.gtb_ltb in E.
  - rewrite Z.mod_small by lia. lia.
  - apply Z.ltb_ge in E.
    destruct (Z_lt_le_dec block 0) as [Hneg|Hpos].
    + exfalso.
      assert (block mod 2 ^ 64 = block + 2 ^ 64).
      { symmetry. apply Z.mod_unique with (-1); lia. }
      lia.
    + rewrite Z.mod_small in E by lia. lia.
Qed.

(** X9: after a [compile_kernels] that builds the module and returns 0,
    both block sizes lie between 0 and the group size of the device,
    whatever the kernel reported for them (a negative report reads as a
    huge [size_t] and is cut down too). *)
Theorem compile_kernels_blocks_fit_group (cfg : Build) (hw : Hardware)
  (s : Device) :
  _compiled s = false ->
  status (compile_kernels cfg hw s) = 0 ->
  0 <= group_size hw < 2 ^ 31 ->
  - 2 ^ 31 <= h_gpu_lib_data hw 6%nat < 2 ^ 31 ->
  - 2 ^ 31 <= h_gpu_lib_data hw 11%nat < 2 ^ 31 ->
  0 <= _block_pair (caps (after (compile_kernels cfg hw s)))
    <= group_size hw /\
  0 <= _block_bio_pair (caps (after (compile_kernels cfg hw s)))
    <= group_size hw.
Proof.
  intros Hfresh Hok Hg H6 H11.
  pose proof (clamp_block_bounds hw _ Hg H6) as B6.
  pose proof (clamp_block_bounds hw _ Hg H11) as B11.
  revert Hok. unfold compile_kernels. rewrite Hfresh.
  destruct (negb (load_string hw =? UCL_SUCCESS cfg));
    [cbn [status]; discriminate|].
  destruct (negb (USE_OPENCL cfg) &&
            Qltb (arch hw)
              (Double.div (inject_Z (h_gpu_lib_data hw 0%nat)) 100));
    [cbn [status]; discriminate|].
  intros _. simpl_device.
  destruct (_threads_per_atom s <? 1); simpl_device;
    destruct (_threads_per_charge s <? 1); simpl_device;
    cbn [_block_pair _block_bio_pair]; split; assumption.
Qed.

Lemma compile_kernels_blocks_fit_group_witness :
  0 <= _block_bio_pair
         (caps (after (compile_kernels cuda_mixed small_groups
                         (Device_new cuda_mixed)))) <= 64.
Proof.
  apply (compile_kernels_blocks_fit_group cuda_mixed small_groups
           (Device_new cuda_mixed));
    solve [reflexivity | vm_compute; split; [discriminate|reflexivity]].
Defined.

(** ** Life cycle, continued *)

(** X10: [clear_device] is idempotent: on a manager that was torn down a
    second teardown (the destructor's, for one) changes nothing and calls
    no collaborator, so the device handle is not deleted twice. *)
Theorem clear_device_idempotent (s : Device) :
  consistent s ->
  clear_device (fst (clear_device s)) = (fst (clear_device s), []).
Proof.
  intro Hs.
  destruct (clear_device_unbinds s Hs) as (M1 & _ & M3 & _).
  revert M1 M3. generalize (fst (clear_device s)). intros s1 M1 M3.
  unfold clear_device. rewrite M1. cbn [Z.to_nat clear_loop].
  rewrite M3. reflexivity.
Qed.

Lemma clear_device_idempotent_witness :
  snd (clear_device (fst (clear_device two_attached))) = [].
Proof.
  rewrite (clear_device_idempotent two_attached).
  - reflexivity.
  - split; [vm_compute; discriminate|].
    split; [intros _; vm_compute; discriminate | reflexivity].
Defined.

(** X11: after [clear_device] both attach overloads return -1 and leave
    the manager alone, whatever was attached before. *)
Theorem init_after_clear_device (cfg : Build) (hw : Hardware)
  (al : Allocator) (a : InitArgs) (nlocal nall : Z) (s : Device) :
  consistent s ->
  init cfg hw al a (fst (clear_device s)) =
    {| status := -1; after := fst (clear_device s); calls := [] |} /\
  init' cfg hw al nlocal nall (fst (clear_device s)) =
    {| status := -1; after := fst (clear_device s); calls := [] |}.
Proof.
  intro Hs.
  destruct (clear_device_unbinds s Hs) as (_ & _ & M3 & _).
  revert M3. generalize (fst (clear_device s)). intros s1 M3.
  unfold init, init'. rewrite M3. split; reflexivity.
Qed.

Lemma init_after_clear_device_witness :
  status (init cuda_mixed fermi all_ok lj_client
            (fst (clear_device two_attached))) = -1.
Proof.
  destruct (init_after_clear_device cuda_mixed fermi all_ok lj_client
              1000 1500 two_attached) as (-> & _).
  - split; [vm_compute; discriminate|].
    split; [intros _; vm_compute; discriminate | reflexivity].
  - reflexivity.
Defined.

Lemma do_call_keeps_compiled (cfg : Build) (hw : Hardware) (c : Call)
  (s : Device) :
  is_init c = true ->
  _compiled (final (do_call cfg hw c s)) = _compiled s /\
  dev_program (final (do_call cfg hw c s)) = dev_program s /\
  k_zero (final (do_call cfg hw c s)) = k_zero s.
Proof.
  destruct c as [al a|al nlocal nall|]; cbn [do_call is_init]; simpl_device;
    [| |discriminate]; intros _.
  - unfold init, init_rest, Atom_init, Atom_add_fields.
    destruct al as [[] [] []]; cbn [atom_ok ans_ok nbor_ok negb];
      destruct (negb (_device_init s));
      destruct (acctyp_is_double cfg && negb (double_precision hw));
      destruct (_init_count s =? 0);
      simpl_device; repeat (case_if; simpl_device); splits; reflexivity.
  - unfold init', Atom_init, Atom_add_fields.
    destruct al as [[] [] ?]; cbn [atom_ok ans_ok nbor_ok negb];
      destruct (negb (_device_init s));
      destruct (acctyp_is_double cfg && negb (double_precision hw));
      destruct (_init_count s =? 0);
      simpl_device; splits; reflexivity.
Qed.

(** X12: attaching never builds the module.  When the only client
    detaches, the compiled module is released, and a client that attaches
    afterwards is attached to a manager without a compiled module: no
    attach call loads it again. *)
Theorem reattach_without_module (cfg : Build) (hw : Hardware)
  (c1 c2 : Call) (s : Device) :
  is_init c1 = true -> is_init c2 = true ->
  _init_count s = 0 ->
  statuses (run cfg hw [c1; call_clear; c2] s) = [0; 0] ->
  _init_count (final (run cfg hw [c1; call_clear; c2] s)) = 1 /\
  _compiled (final (run cfg hw [c1; call_clear; c2] s)) = false /\
  count_events is_load (trace (run cfg hw [c1; call_clear; c2] s)) = 0%nat.
Proof.
  intros H1 H2 Hzero. cbn [run]. simpl_device.
  destruct (do_call_effect cfg hw c1 s) as (_ & _ & L1 & _ & _ & I1 & _).
  destruct (I1 H1) as (st1 & Hst1 & Hc1 & _). rewrite Hst1.
  revert Hc1 L1. generalize (do_call cfg hw c1 s). intros r1 Hc1 L1.
  change (do_call cfg hw call_clear (final r1))
    with {| statuses := []; final := fst (clear (final r1));
            trace := snd (clear (final r1)) |}.
  simpl_device.
  destruct (do_call_effect cfg hw c2 (fst (clear (final r1))))
    as (_ & _ & L2 & _ & _ & I2 & _).
  destruct (I2 H2) as (st2 & Hst2 & Hc2 & _).
  destruct (do_call_keeps_compiled cfg hw c2 (fst (clear (final r1))) H2)
    as (K1 & _).
  destruct (clear_events (final r1)) as (_ & Lc & _).
  revert Hc2 L2 K1. rewrite Hst2.
  generalize (do_call cfg hw c2 (fst (clear (final r1)))).
  intros r2 Hc2 L2 K1. cbn [app].
  intro Hall. injection Hall as -> ->. cbn [Z.eqb] in Hc1, Hc2.
  assert (Hone : _init_count (final r1) = 1) by lia.
  destruct (clear_attached (final r1) ltac:(lia))
    as (Hcount & _ & _ & _ & Hrel & _).
  destruct (Hrel Hone) as (_ & _ & Hcomp).
  rewrite Hc2, K1, Hcomp, Hcount, Hone.
  unfold count_events in *. rewrite !filter_app, !length_app, L1, L2, Lc.
  splits; reflexivity.
Qed.

Lemma reattach_without_module_witness :
  _compiled bound_rank5 = true /\
  _compiled
    (final (run cuda_mixed fermi
              [call_init all_ok lj_client; call_clear;
               call_init' all_ok 1000 1500] bound_rank5)) = false.
Proof.
  split; [reflexivity|].
  apply (reattach_without_module cuda_mixed fermi
           (call_init all_ok lj_client) (call_init' all_ok 1000 1500)
           bound_rank5); reflexivity.
Defined.

(** ** Attach, continued *)

(** X13: a successful [init] always sets the outbound transfer estimate
    to 1.  On the first attach the inbound estimate is 1 plus one for
    charge plus one for orientation; on a later attach it counts only the
    fields that the attach adds to the atom storage. *)
Theorem init_transfer_estimates (cfg : Build) (hw : Hardware)
  (al : Allocator) (a : InitArgs) (s : Device) :
  status (init cfg hw al a s) = 0 ->
  _data_out_estimate (after (init cfg hw al a s)) = 1 /\
  _data_in_estimate (after (init cfg hw al a s)) =
    (if _init_count s =? 0
     then 1 + Z.b2z (charge a) + Z.b2z (rot a)
     else Z.b2z (negb (atom_charge (atom s)) && charge a)
          + Z.b2z (negb (atom_quat (atom s)) && rot a)).
Proof.
  unfold init, init_rest, Atom_init, Atom_add_fields.
  destruct (negb (_device_init s)); [cbn [status]; discriminate|].
  destruct (acctyp_is_double cfg && negb (double_precision hw));
    [cbn [status]; discriminate|].
  simpl_device.
  destruct (_init_count s =? 0);
    destruct al as [[] [] []]; cbn [atom_ok ans_ok nbor_ok negb];
    simpl_device; try discriminate; intros _.
  - destruct (charge a); destruct (rot a); simpl_device; split; reflexivity.
  - destruct (negb (atom_charge (atom s)) && charge a); simpl_device;
      destruct (negb (atom_quat (atom s)) && rot a); simpl_device;
      split; reflexivity.
Qed.

Lemma init_transfer_estimates_witness :
  _data_in_estimate
    (after (init cuda_mixed fermi all_ok charged_ellipsoid bound_rank5)) = 3.
Proof.
  apply (init_transfer_estimates cuda_mixed fermi all_ok charged_ellipsoid
           bound_rank5).
  reflexivity.
Defined.

(** X14: when the first attach allocates the atom storage and then fails
    on the answer or neighbor storage, [init] returns -3 without an attach
    credit and without releasing the atom storage; a [clear] on that
    manager finds nothing attached and releases nothing either. *)
Theorem init_failure_keeps_atom_storage (cfg : Build) (hw : Hardware)
  (al : Allocator) (a : InitArgs) (s : Device) :
  _device_init s = true ->
  acctyp_is_double cfg && negb (double_precision hw) = false ->
  _init_count s = 0 ->
  atom_ok al = true ->
  ans_ok al && nbor_ok al = false ->
  status (init cfg hw al a s) = -3 /\
  _init_count (after (init cfg hw al a s)) = 0 /\
  hd_error (calls (init cfg hw al a s)) =
    Some (atom_init (nall a) (charge a) (rot a)
            (_gpu_mode (topo s) =? GPU_NEIGH cfg)
            ((_gpu_mode (topo s) =? GPU_NEIGH cfg) && (maxspecial a >? 0))
            true) /\
  count_events is_atom_clear (calls (init cfg hw al a s)) = 0%nat /\
  clear (after (init cfg hw al a s)) = (after (init cfg hw al a s), []).
Proof.
  intros Hb Hp Hz Hatom Hrest.
  assert (Hmain :
    status (init cfg hw al a s) = -3 /\
    _init_count (after (init cfg hw al a s)) = 0 /\
    hd_error (calls (init cfg hw al a s)) =
      Some (atom_init (nall a) (charge a) (rot a)
              (_gpu_mode (topo s) =? GPU_NEIGH cfg)
              ((_gpu_mode (topo s) =? GPU_NEIGH cfg) && (maxspecial a >? 0))
              true) /\
    count_events is_atom_clear (calls (init cfg hw al a s)) = 0%nat).
  { unfold init, init_rest, Atom_init.
    rewrite Hb, Hp. cbn [negb]. simpl_device.
    rewrite Hz, Hatom. cbn [negb Z.eqb]. simpl_device.
    destruct (ans_ok al); cbn [negb andb] in *.
    - rewrite Hrest. cbn [negb].
      destruct (charge a); destruct (rot a); simpl_device;
        splits; try reflexivity; exact Hz.
    - destruct (charge a); destruct (rot a); simpl_device;
        splits; try reflexivity; exact Hz. }
  destruct Hmain as (M1 & M2 & M3 & M4).
  splits; try assumption.
  apply clear_detached. lia.
Qed.

Lemma init_failure_keeps_atom_storage_witness :
  status (init cuda_mixed fermi ans_fails lj_client bound_rank5) = -3 /\
  snd (clear (after (init cuda_mixed fermi ans_fails lj_client
                       bound_rank5))) = [].
Proof.
  destruct (init_failure_keeps_atom_storage cuda_mixed fermi ans_fails
              lj_client bound_rank5) as (H1 & _ & _ & _ & H5);
    try reflexivity.
  rewrite H5. split; [exact H1|reflexivity].
Defined.

(** X15: the attach of the long-range solver never initialises neighbor
    storage, and it leaves the neighbor storage flag and both transfer
    estimates as they are. *)
Theorem init'_leaves_neighbor_storage (cfg : Build) (hw : Hardware)
  (al : Allocator) (nlocal nall : Z) (s : Device) :
  count_events is_nbor_init (calls (init' cfg hw al nlocal nall s)) = 0%nat /\
  _neighbor_shared (after (init' cfg hw al nlocal nall s)) =
    _neighbor_shared s /\
  _data_in_estimate (after (init' cfg hw al nlocal nall s)) =
    _data_in_estimate s /\
  _data_out_estimate (after (init' cfg hw al nlocal nall s)) =
    _data_out_estimate s.
Proof.
  unfold init', Atom_init, Atom_add_fields.
  destruct al as [[] [] ?]; cbn [atom_ok ans_ok nbor_ok negb];
    destruct (negb (_device_init s));
    destruct (acctyp_is_double cfg && negb (double_precision hw));
    destruct (_init_count s =? 0);
    simpl_device; splits; reflexivity.
Qed.

Lemma device_share_bounds (split : Q) (n : Z) :
  0 <= n < 2 ^ 31 ->
  Qltb split 1 && Qltb 0 split = true ->
  0 <= Qtruncate (Double.mul split (inject_Z n)) <= n.
Proof.
  intros (Hn & Hint) Hs. apply andb_true_iff in Hs. destruct Hs as (H1 & H0).
  unfold Qltb in *. apply negb_true_iff in H1, H0.
  assert (Hlt1 : (split < 1)%Q).
  { apply Qnot_le_lt. intro C. apply Qle_bool_iff in C. congruence. }
  assert (Hgt0 : (0 < split)%Q).
  { apply Qnot_le_lt. intro C. apply Qle_bool_iff in C. congruence. }
  assert (Hn' : (0 <= inject_Z n)%Q)
    by (change 0%Q with (inject_Z 0); rewrite <- Zle_Qle; exact Hn).
  assert (Hlo : (0 <= split * inject_Z n)%Q).
  { apply Qmult_le_0_compat; [apply Qlt_le_weak; exact Hgt0|exact Hn']. }
  assert (Hhi : (split * inject_Z n <= inject_Z n)%Q).
  { setoid_replace (inject_Z n) with (1 * inject_Z n)%Q at 2 by ring.
    apply Qmult_le_compat_r; [apply Qlt_le_weak; exact Hlt1|exact Hn']. }
  assert (Rlo : (0 <= Double.mul split (inject_Z n))%Q)
    by (apply DoubleFacts.round_nonneg; exact Hlo).
  assert (Rhi : (Double.mul split (inject_Z n) <= inject_Z n)%Q).
  { rewrite <- (DoubleFacts.round_Z n) at 2 by lia.
    apply DoubleFacts.round_le. exact Hhi. }
  unfold Qtruncate.
  assert (Hb : Qle_bool 0 (Double.mul split (inject_Z n)) = true)
    by (apply Qle_bool_iff; exact Rlo).
  rewrite Hb. split.
  - change 0 with (Qfloor (inject_Z 0)). apply Qfloor_resp_le. exact Rlo.
  - rewrite <- (Qfloor_Z n) at 2. apply Qfloor_resp_le. exact Rhi.
Qed.

Lemma init_ans_sizes (cfg : Build) (hw : Hardware) (al : Allocator)
  (a : InitArgs) (s : Device) (n : Z) :
  In n (ans_init_sizes (calls (init cfg hw al a s))) ->
  n = (if Qltb (_particle_split (topo s)) 1
          && Qltb 0 (_particle_split (topo s))
       then Qtruncate
              (Double.mul (_particle_split (topo s)) (inject_Z (nlocal a)))
       else nlocal a).
Proof.
  unfold init, init_rest, Atom_init, Atom_add_fields.
  destruct (negb (_device_init s));
    [simpl_device; cbn [ans_init_sizes flat_map]; intros []|].
  destruct (acctyp_is_double cfg && negb (double_precision hw));
    [simpl_device; cbn [ans_init_sizes flat_map]; intros []|].
  simpl_device.
  destruct (_init_count s =? 0);
    destruct al as [[] [] []]; cbn [atom_ok ans_ok nbor_ok negb];
    simpl_device; cbn [ans_init_sizes flat_map app];
    intros H; repeat (destruct H as [H|H]; [symmetry; exact H|]);
    destruct H.
Qed.

(** X16: the answer storage of a client is sized for the device's share of
    its particles.  With a particle split strictly between 0 and 1 the size
    is the [double] product of the split and [nlocal], rounded to the
    nearest double and then truncated to an [int], and it lies between 0
    and [nlocal]; any other split gives [nlocal] itself. *)
Theorem init_sizes_answers_for_device_share (cfg : Build) (hw : Hardware)
  (al : Allocator) (a : InitArgs) (s : Device) (n : Z) :
  0 <= nlocal a < 2 ^ 31 ->
  In n (ans_init_sizes (calls (init cfg hw al a s))) ->
  0 <= n <= nlocal a /\
  (Qltb (_particle_split (topo s)) 1 && Qltb 0 (_particle_split (topo s))
   = true ->
   n = Qtruncate
         (Double.mul (_particle_split (topo s)) (inject_Z (nlocal a)))) /\
  (Qltb (_particle_split (topo s)) 1 && Qltb 0 (_particle_split (topo s))
   = false -> n = nlocal a).
Proof.
  intros Hn Hin. apply init_ans_sizes in Hin. subst n.
  destruct (Qltb (_particle_split (topo s)) 1
            && Qltb 0 (_particle_split (topo s))) eqn:E.
  - splits; [| |reflexivity|discriminate];
      apply device_share_bounds; assumption.
  - splits; [lia|lia|discriminate|reflexivity].
Qed.

Lemma init_sizes_answers_for_device_share_witness :
  ans_init_sizes
    (calls (init cuda_mixed fermi all_ok small_client bound_uneven_split))
    = [7] /\ 0 <= 7 <= nlocal small_client.
Proof.
  split; [vm_compute; reflexivity|].
  apply (init_sizes_answers_for_device_share cuda_mixed fermi all_ok
           small_client bound_uneven_split 7).
  - vm_compute. split; [discriminate|reflexivity].
  - vm_compute. left. reflexivity.
Defined.

(** ** The overhead benchmark, continued *)

Lemma count_bench_app (p : BenchEvent -> bool) (l1 l2 : list BenchEvent) :
  count_bench p (l1 ++ l2) = (count_bench p l1 + count_bench p l2)%nat.
Proof. unfold count_bench. rewrite filter_app, length_app. reflexivity. Qed.

Lemma flat_map_count {A : Type} (p : BenchEvent -> bool)
  (f : A -> list BenchEvent) (c : nat) (l : list A) :
  (forall x, count_bench p (f x) = c) ->
  count_bench p (flat_map f l) = (List.length l * c)%nat.
Proof.
  intro Hf. induction l as [|x l IH].
  - reflexivity.
  - cbn [flat_map List.length]. rewrite count_bench_app, Hf, IH. lia.
Qed.

(** A loop whose every pass holds [c] events of a kind holds [c] times the
    number of passes. *)
Lemma for_loop_count (p : BenchEvent -> bool) (n : Z)
  (body : Z -> list BenchEvent) (c : nat) :
  (forall i, count_bench p (body i) = c) ->
  count_bench p (for_loop n body) = (Z.to_nat n * c)%nat.
Proof.
  intro Hbody. unfold for_loop.
  rewrite (flat_map_count p body c) by exact Hbody.
  rewrite length_map, length_seq. reflexivity.
Qed.

Lemma estimate_events (kernel_calls : Z) (clock : nat -> Trial)
  (s : Device) :
  snd (estimate_gpu_overhead kernel_calls clock s) =
  bench_setup kernel_calls s
  ++ flat_map (fun i => trial_events kernel_calls s (clock i)) (seq 0 10)
  ++ bench_teardown kernel_calls s.
Proof.
  unfold estimate_gpu_overhead.
  destruct (trials_spec kernel_calls s clock (seq 0 10) 0%Q 0%Q)
    as (_ & _ & T3).
  destruct (trials kernel_calls s clock (seq 0 10) 0%Q 0%Q)
    as [[g d] events].
  cbn [fst snd] in *. subst events. reflexivity.
Qed.

(** Count the events of one kind in a goal about the pieces of the
    benchmark: the loops by [for_loop_count], the rest by evaluation. *)
Ltac count_pieces :=
  repeat rewrite count_bench_app;
  repeat match goal with
    | |- context [count_bench ?p (for_loop ?n ?body)] =>
        first
          [ rewrite (for_loop_count p n body 0) by (intro; reflexivity)
          | rewrite (for_loop_count p n body 1) by (intro; reflexivity) ]
    end.

Lemma trial_counts (kernel_calls : Z) (s : Device) (t : Trial) :
  count_bench is_copy_to_device (trial_events kernel_calls s t) =
    Z.to_nat (_data_in_estimate s) /\
  count_bench is_zero (trial_events kernel_calls s t) =
    Z.to_nat kernel_calls /\
  count_bench is_copy_to_host (trial_events kernel_calls s t) =
    Z.to_nat (_data_out_estimate s) /\
  count_bench is_add_to_total (trial_events kernel_calls s t) =
    (if _time_device (topo s)
     then Z.to_nat (_data_in_estimate s) + Z.to_nat kernel_calls
          + Z.to_nat (_data_out_estimate s)
     else 0)%nat.
Proof.
  unfold trial_events, trial. cbn [snd].
  destruct (_time_device (topo s)); splits; count_pieces;
    cbn [count_bench filter List.length is_copy_to_device is_zero
         is_copy_to_host is_add_to_total]; lia.
Qed.

Lemma bench_counts (kernel_calls : Z) (s : Device) :
  count_bench is_copy_to_device (bench_setup kernel_calls s) = 0%nat /\
  count_bench is_zero (bench_setup kernel_calls s) = 0%nat /\
  count_bench is_copy_to_host (bench_setup kernel_calls s) = 0%nat /\
  count_bench is_add_to_total (bench_setup kernel_calls s) = 0%nat /\
  count_bench is_copy_to_device (bench_teardown kernel_calls s) = 0%nat /\
  count_bench is_zero (bench_teardown kernel_calls s) = 0%nat /\
  count_bench is_copy_to_host (bench_teardown kernel_calls s) = 0%nat /\
  count_bench is_add_to_total (bench_teardown kernel_calls s) = 0%nat.
Proof.
  unfold bench_setup, bench_teardown.
  destruct (_data_in_estimate s >? 0); destruct (_data_out_estimate s >? 0);
    destruct (kernel_calls >? 0); splits; count_pieces;
    cbn [count_bench filter List.length app is_copy_to_device is_zero
         is_copy_to_host is_add_to_total]; lia.
Qed.

(** X17: the benchmark performs, over its ten trials, ten inbound copies
    per configured inbound transfer, ten launches of the zeroing kernel
    per requested kernel call and ten outbound copies per configured
    outbound transfer; a count that is not positive gives none. *)
Theorem estimate_gpu_overhead_work (kernel_calls : Z) (clock : nat -> Trial)
  (s : Device) :
  count_bench is_copy_to_device
    (snd (estimate_gpu_overhead kernel_calls clock s)) =
    (10 * Z.to_nat (_data_in_estimate s))%nat /\
  count_bench is_zero (snd (estimate_gpu_overhead kernel_calls clock s)) =
    (10 * Z.to_nat kernel_calls)%nat /\
  count_bench is_copy_to_host
    (snd (estimate_gpu_overhead kernel_calls clock s)) =
    (10 * Z.to_nat (_data_out_estimate s))%nat.
Proof.
  rewrite estimate_events.
  destruct (bench_counts kernel_calls s)
    as (S1 & S2 & S3 & _ & T1 & T2 & T3 & _).
  rewrite !count_bench_app, S1, S2, S3, T1, T2, T3.
  rewrite (flat_map_count is_copy_to_device _
             (Z.to_nat (_data_in_estimate s)))
    by (intro; apply trial_counts).
  rewrite (flat_map_count is_zero _ (Z.to_nat kernel_calls))
    by (intro; apply trial_counts).
  rewrite (flat_map_count is_copy_to_host _
             (Z.to_nat (_data_out_estimate s)))
    by (intro; apply trial_counts).
  rewrite length_seq. splits; lia.
Qed.

(** X18: the per-transfer and per-kernel timers are added to their totals
    only when the device is timed: a manager whose device is shared
    records none, a manager that owns its device records each timer once
    per trial. *)
Theorem estimate_gpu_overhead_totals (kernel_calls : Z)
  (clock : nat -> Trial) (s : Device) :
  count_bench is_add_to_total
    (snd (estimate_gpu_overhead kernel_calls clock s)) =
  (if _time_device (topo s)
   then 10 * (Z.to_nat (_data_in_estimate s) + Z.to_nat kernel_calls
              + Z.to_nat (_data_out_estimate s))
   else 0)%nat.
Proof.
  rewrite estimate_events.
  destruct (bench_counts kernel_calls s)
    as (_ & _ & _ & S4 & _ & _ & _ & T4).
  rewrite !count_bench_app, S4, T4.
  rewrite (flat_map_count is_add_to_total _
             (if _time_device (topo s)
              then Z.to_nat (_data_in_estimate s) + Z.to_nat kernel_calls
                   + Z.to_nat (_data_out_estimate s)
              else 0)%nat)
    by (intro; apply trial_counts).
  rewrite length_seq. destruct (_time_device (topo s)); lia.
Qed.

Lemma trial_buffers (kernel_calls : Z) (s : Device) (t : Trial)
  (f : Family) :
  count_bench (is_new_arrays f) (trial_events kernel_calls s t) = 0%nat /\
  count_bench (is_alloc f) (trial_events kernel_calls s t) = 0%nat /\
  count_bench (is_delete_arrays f) (trial_events kernel_calls s t) = 0%nat.
Proof.
  unfold trial_events, trial. cbn [snd].
  destruct (_time_device (topo s)); splits; count_pieces;
    cbn [count_bench filter List.length is_new_arrays is_alloc
         is_delete_arrays]; lia.
Qed.

(** X19: the benchmark frees what it allocates: for each of its three
    buffer families it creates the arrays once if the family is used at
    all, allocates one buffer per use, and deletes the arrays once again
    under the same condition. *)
Theorem estimate_gpu_overhead_buffers (kernel_calls : Z)
  (clock : nat -> Trial) (s : Device) (f : Family) :
  count_bench (is_new_arrays f)
    (snd (estimate_gpu_overhead kernel_calls clock s)) =
    (if family_size kernel_calls s f >? 0 then 1 else 0)%nat /\
  count_bench (is_alloc f)
    (snd (estimate_gpu_overhead kernel_calls clock s)) =
    Z.to_nat (family_size kernel_calls s f) /\
  count_bench (is_delete_arrays f)
    (snd (estimate_gpu_overhead kernel_calls clock s)) =
    (if family_size kernel_calls s f >? 0 then 1 else 0)%nat.
Proof.
  rewrite estimate_events. rewrite !count_bench_app.
  rewrite (flat_map_count (is_new_arrays f) _ 0)
    by (intro; apply trial_buffers).
  rewrite (flat_map_count (is_alloc f) _ 0)
    by (intro; apply trial_buffers).
  rewrite (flat_map_count (is_delete_arrays f) _ 0)
    by (intro; apply trial_buffers).
  unfold bench_setup, bench_teardown.
  destruct f; cbn [family_size];
    destruct (_data_in_estimate s >? 0);
    destruct (_data_out_estimate s >? 0);
    destruct (kernel_calls >? 0); splits; count_pieces;
    cbn [count_bench filter List.length app is_new_arrays is_alloc
         is_delete_arrays Family_eqb]; lia.
Qed.

Lemma for_loop_nonpositive {A : Type} (n : Z) (body : Z -> list A) :
  n <= 0 -> for_loop n body = [].
Proof.
  intro Hn. unfold for_loop.
  replace (Z.to_nat n) with 0%nat by lia. reflexivity.
Qed.

(** X20: with a number of kernel calls that is not positive the benchmark
    allocates no kernel buffer, starts no kernel timer and launches no
    kernel. *)
Theorem estimate_gpu_overhead_without_kernels (kernel_calls : Z)
  (clock : nat -> Trial) (s : Device) :
  kernel_calls <= 0 ->
  count_bench is_kernel_event
    (snd (estimate_gpu_overhead kernel_calls clock s)) = 0%nat.
Proof.
  intro Hk. rewrite estimate_events. rewrite !count_bench_app.
  assert (Hgt : (kernel_calls >? 0) = false)
    by (rewrite Z.gtb_ltb; apply Z.ltb_ge; exact Hk).
  rewrite (flat_map_count is_kernel_event _ 0).
  - unfold bench_setup, bench_teardown. rewrite Hgt.
    rewrite !(for_loop_nonpositive kernel_calls) by exact Hk.
    destruct (_data_in_estimate s >? 0);
      destruct (_data_out_estimate s >? 0); count_pieces;
      cbn [count_bench filter List.length app is_kernel_event]; lia.
  - intro i. unfold trial_events, trial. cbn [snd].
    rewrite !(for_loop_nonpositive kernel_calls) by exact Hk.
    destruct (_time_device (topo s)); count_pieces;
      cbn [count_bench filter List.length app is_kernel_event]; lia.
Qed.

Lemma estimate_gpu_overhead_without_kernels_witness :
  count_bench is_kernel_event
    (snd (estimate_gpu_overhead (-3) steady_clock bound_rank5)) = 0%nat.
Proof.
  apply estimate_gpu_overhead_without_kernels. discriminate.
Defined.

Lemma double_sum_le_pointwise {A : Type} (f g : A -> Q) (l : list A) :
  (forall x, f x <= g x)%Q ->
  forall acc acc' : Q,
    (acc <= acc')%Q ->
    (fold_left Double.add (map f l) acc <=
     fold_left Double.add (map g l) acc')%Q.
Proof.
  intro Hfg. induction l as [|x l IH]; intros acc acc' Hacc.
  - exact Hacc.
  - cbn [map fold_left]. apply IH. unfold Double.add.
    apply DoubleFacts.round_le.
    apply Qplus_le_compat; [exact Hacc|apply Hfg].
Qed.

Lemma mean_le_pointwise {A : Type} (f g : A -> Q) (l : list A) :
  (forall x, f x <= g x)%Q ->
  (mean (map f l) <= mean (map g l))%Q.
Proof.
  intro Hfg. unfold mean, Double.div. rewrite !length_map.
  apply DoubleFacts.round_le. unfold Qdiv.
  apply Qmult_le_compat_r.
  - apply double_sum_le_pointwise; [exact Hfg|apply Qle_refl].
  - apply Qinv_le_0_compat.
    change 0%Q with (inject_Z 0). rewrite <- Zle_Qle. lia.
Qed.

(** X21: the slowest process sets the estimate: whatever the other
    processes of the communicator report, the overhead returned is at least
    the average of the caller's own ten region times, and the driver
    overhead at least the average of its own ten host-clock differences,
    both averages computed in the [double] arithmetic of the benchmark
    (the ten values added in trial order to 0.0, the sum divided by
    10.0). *)
Theorem estimate_gpu_overhead_at_least_own (kernel_calls : Z)
  (clock : nat -> Trial) (s : Device) :
  (mean (map (fun i => seconds (clock i)) (seq 0 10)) <=
   fst (fst (estimate_gpu_overhead kernel_calls clock s)))%Q /\
  (mean (map (fun i => Double.sub (wtime_after (clock i))
                         (wtime_before (clock i)))
           (seq 0 10)) <=
   snd (fst (estimate_gpu_overhead kernel_calls clock s)))%Q.
Proof.
  assert (Hg :
    fst (fst (estimate_gpu_overhead kernel_calls clock s)) =
    mean (map (fun i => trial_time kernel_calls s (clock i)) (seq 0 10)) /\
    snd (fst (estimate_gpu_overhead kernel_calls clock s)) =
    mean (map (fun i => trial_driver_time kernel_calls s (clock i))
            (seq 0 10))).
  { unfold estimate_gpu_overhead.
    destruct (trials_spec kernel_calls s clock (seq 0 10) 0%Q 0%Q)
      as (T1 & T2 & _).
    destruct (trials kernel_calls s clock (seq 0 10) 0%Q 0%Q)
      as [[g d] events].
    cbn [fst snd] in *. unfold mean. rewrite !length_map, !length_seq.
    rewrite T1, T2. split; reflexivity. }
  destruct Hg as (-> & ->). split.
  - apply mean_le_pointwise.
    intro i. apply (allreduce_max_maximum (peer_times (clock i))).
    left. reflexivity.
  - apply mean_le_pointwise.
    intro i.
    apply (allreduce_max_maximum (peer_driver_times (clock i))).
    left. reflexivity.
Qed.

(** X22: the first attach sets the work of the benchmark: after a first
    [init] that returns 0, every benchmark moves, over its ten trials, ten
    inbound buffers for the positions, ten more if the client has charge
    and ten more if it has orientation, and ten outbound buffers. *)
Theorem first_attach_sets_benchmark (cfg : Build) (hw : Hardware)
  (al : Allocator) (a : InitArgs) (s : Device) (kernel_calls : Z)
  (clock : nat -> Trial) :
  _init_count s = 0 ->
  status (init cfg hw al a s) = 0 ->
  count_bench is_copy_to_device
    (snd (estimate_gpu_overhead kernel_calls clock
            (after (init cfg hw al a s)))) =
    (10 * (1 + Nat.b2n (charge a) + Nat.b2n (rot a)))%nat /\
  count_bench is_copy_to_host
    (snd (estimate_gpu_overhead kernel_calls clock
            (after (init cfg hw al a s)))) = 10%nat.
Proof.
  intros Hzero Hok.
  assert (Hest :
    _data_out_estimate (after (init cfg hw al a s)) = 1 /\
    _data_in_estimate (after (init cfg hw al a s)) =
      1 + Z.b2z (charge a) + Z.b2z (rot a)).
  { revert Hok. unfold init, init_rest, Atom_init.
    destruct (negb (_device_init s)); [cbn [status]; discriminate|].
    destruct (acctyp_is_double cfg && negb (double_precision hw));
      [cbn [status]; discriminate|].
    simpl_device. rewrite Hzero. cbn [Z.eqb].
    destruct al as [[] [] []]; cbn [atom_ok ans_ok nbor_ok negb];
      simpl_device; try discriminate; intros _.
    destruct (charge a); destruct (rot a); simpl_device; split; reflexivity. }
  destruct Hest as (Hout & Hin).
  revert Hout Hin. generalize (after (init cfg hw al a s)).
  intros s1 Hout Hin.
  rewrite estimate_events.
  destruct (bench_counts kernel_calls s1)
    as (S1 & _ & S3 & _ & T1 & _ & T3 & _).
  rewrite !count_bench_app, S1, S3, T1, T3.
  rewrite (flat_map_count is_copy_to_device _
             (Z.to_nat (_data_in_estimate s1)))
    by (intro; apply trial_counts).
  rewrite (flat_map_count is_copy_to_host _
             (Z.to_nat (_data_out_estimate s1)))
    by (intro; apply trial_counts).
  rewrite length_seq, Hout, Hin.
  destruct (charge a); destruct (rot a); split; reflexivity.
Qed.

Lemma first_attach_sets_benchmark_witness :
  count_bench is_copy_to_device
    (snd (estimate_gpu_overhead 1 steady_clock
            (after (init cuda_mixed fermi all_ok charged_ellipsoid
                      bound_rank5)))) = 30%nat.
Proof.
  apply (first_attach_sets_benchmark cuda_mixed fermi all_ok
           charged_ellipsoid bound_rank5 1 steady_clock); reflexivity.
Defined.

(** ** The start-up message *)

Lemma listed_devices_app (l1 l2 : list Printed) :
  listed_devices (l1 ++ l2) = listed_devices l1 ++ listed_devices l2.
Proof. unfold listed_devices. apply flat_map_app. Qed.

Lemma listed_devices_lines (line : Z -> Printed) (l : list Z) :
  (forall i, listed_devices [line i] = [i]) ->
  listed_devices (map line l) = l.
Proof.
  intro Hline. induction l as [|i l IH]; [reflexivity|].
  cbn [map]. change (line i :: map line l) with ([line i] ++ map line l).
  rewrite listed_devices_app, Hline, IH. reflexivity.
Qed.

Lemma in_int_range (first last i : Z) :
  In i (int_range first last) <-> first <= i < last.
Proof.
  unfold int_range. rewrite in_map_iff. split.
  - intros (k & <- & Hk). apply in_seq in Hk. lia.
  - intro Hi. exists (Z.to_nat (i - first)). split; [lia|].
    apply in_seq. lia.
Qed.

Lemma int_range_NoDup (first last : Z) : NoDup (int_range first last).
Proof.
  unfold int_range.
  generalize (seq_NoDup (Z.to_nat (last - first)) 0).
  induction (seq 0 (Z.to_nat (last - first))) as [|k l IH]; intro Hnd.
  - constructor.
  - inversion Hnd as [|? ? Hk Hl]; subst. cbn [map]. constructor.
    + rewrite in_map_iff. intros (k' & Heq & Hin).
      assert (k' = k) by lia. subst k'. exact (Hk Hin).
    + exact (IH Hl).
Qed.

(** X23: the start-up message lists a device exactly when it is printed by
    replica rank 0 to an open screen and the device lies in the requested
    range and exists on the node; no device is listed twice.  A range that
    reaches beyond the node's devices is cut, a range that starts beyond
    them lists nothing. *)
Theorem init_message_lists_existing_devices (cfg : Build)
  (numtyp_is_float : bool) (hw : Hardware) (texts : DeviceTexts)
  (screen : bool) (name : string) (first_gpu last_gpu : Z) (s : Device) :
  (forall i : Z,
      In i (listed_devices
              (init_message cfg numtyp_is_float hw texts screen name
                 first_gpu last_gpu s)) <->
      _replica_me (topo s) = 0 /\ screen = true /\
      first_gpu <= i <= last_gpu /\ i < num_devices hw) /\
  NoDup (listed_devices
           (init_message cfg numtyp_is_float hw texts screen name
              first_gpu last_gpu s)).
Proof.
  unfold init_message.
  destruct (_replica_me (topo s) =? 0) eqn:Er; cbn [andb];
    [apply Z.eqb_eq in Er; destruct screen | apply Z.eqb_neq in Er].
  - rewrite !listed_devices_app.
    rewrite listed_devices_lines by (intro; reflexivity).
    destruct (_OPENMP cfg);
    cbn [listed_devices flat_map app]; rewrite app_nil_r;
    (split; [|apply int_range_NoDup]);
    intro i; rewrite in_int_range;
    (destruct (last_gpu + 1 >? num_devices hw) eqn:E; rewrite Z.gtb_ltb in E;
      [apply Z.ltb_lt in E | apply Z.ltb_ge in E]);
      (split; [intro H| intros (_ & _ & H)]);
      repeat split; lia.
  - split; [|constructor].
    intro i. split; [intros []|intros (_ & C & _); discriminate].
  - split; [|constructor].
    intro i. split; [intros []|intros (C & _); contradiction].
Qed.

(** ** Binding again *)

(** X24: to bind to another device the manager has to be torn down first:
    a second [init_device] with other arguments leaves the manager on the
    device of the first call, while [clear_device] followed by
    [init_device] binds it to the device of the new arguments. *)
Theorem rebinding_needs_clear_device (cfg : Build) (hw : Hardware)
  (mpi : MPIEnv) (a b : InitDeviceArgs) (s : Device) :
  consistent s ->
  _device_init s = false ->
  my_gpu mpi a < num_devices hw ->
  my_gpu mpi b < num_devices hw ->
  build_ok cfg hw = true ->
  status (init_device cfg hw mpi b (after (init_device cfg hw mpi a s))) = 0
  /\
  device_index
    (after (init_device cfg hw mpi b (after (init_device cfg hw mpi a s))))
    = Some (my_gpu mpi a) /\
  status (init_device cfg hw mpi b
            (fst (clear_device (after (init_device cfg hw mpi a s))))) = 0 /\
  device_index
    (after (init_device cfg hw mpi b
              (fst (clear_device (after (init_device cfg hw mpi a s))))))
    = Some (my_gpu mpi b).
Proof.
  intros Hs Hunbound Ha Hb Hbuild.
  pose proof (init_device_consistent cfg hw mpi a s Hs) as Hs1.
  destruct (init_device_binds cfg hw mpi a s Hunbound Ha Hbuild)
    as (_ & B2 & B3 & _).
  revert Hs1 B2 B3. generalize (after (init_device cfg hw mpi a s)).
  intros s1 Hs1 B2 B3.
  destruct (init_device_bound_frame cfg hw mpi b s1 B2)
    as (F0 & _ & F2 & _).
  destruct (clear_device_unbinds s1 Hs1) as (_ & _ & M3 & _).
  destruct (init_device_binds cfg hw mpi b (fst (clear_device s1))
              M3 Hb Hbuild) as (C1 & _ & C3 & _).
  rewrite F0, F2, B3, C1, C3. splits; reflexivity.
Qed.

Lemma rebinding_needs_clear_device_witness :
  device_index
    (after (init_device cuda_mixed fermi alone bind_second
              (after (init_device cuda_mixed fermi alone bind_first
                        (Device_new cuda_mixed))))) = Some 0 /\
  device_index
    (after (init_device cuda_mixed fermi alone bind_second
              (fst (clear_device
                      (after (init_device cuda_mixed fermi alone bind_first
                                (Device_new cuda_mixed))))))) = Some 1.
Proof.
  destruct (rebinding_needs_clear_device cuda_mixed fermi alone bind_first
              bind_second (Device_new cuda_mixed))
    as (_ & H2 & _ & H4).
  - apply Device_new_consistent.
  - reflexivity.
  - reflexivity.
  - reflexivity.
  - reflexivity.
  - split; [exact H2|exact H4].
Defined.

(** ** Invariant *)

Lemma init_device_marks_bound (cfg : Build) (hw : Hardware) (mpi : MPIEnv)
  (a : InitDeviceArgs) (s : Device) :
  _device_init (after (init_device cfg hw mpi a s)) = true.
Proof.
  destruct (_device_init s) eqn:Hb.
  - apply (init_device_bound_frame cfg hw mpi a s Hb).
  - apply (init_device_unbound cfg hw mpi a s Hb).
Qed.

(** X25: in every state that the constructor and the member functions can
    produce, the attach count is not negative, the device handle holds an
    object exactly while the manager is bound, and clients are attached
    only to a bound manager. *)
Theorem reachable_invariant (cfg : Build) (s : Device) :
  reachable cfg s ->
  0 <= _init_count s /\
  (_device_init s = true <-> gpu s <> None) /\
  (0 < _init_count s -> _device_init s = true).
Proof.
  intro Hr.
  assert (Hattached : 0 < _init_count s -> _device_init s = true).
  { induction Hr as [|hw mpi a s Hr IH|hw al a s Hr IH
                     |hw al nlocal nall s Hr IH|pppm s Hr IH|pppm s Hr IH
                     |s Hr IH|s Hr IH].
    - cbn. lia.
    - intros _. apply init_device_marks_bound.
    - destruct (init_effect cfg hw al a s) as (-> & _ & -> & _).
      pose proof (init_status cfg hw al a s) as Hst.
      destruct (status (init cfg hw al a s) =? 0) eqn:E; [|exact IH].
      intros _. apply Z.eqb_eq in E. rewrite E in Hst.
      destruct (_device_init s); [reflexivity|discriminate].
    - destruct (init'_effect cfg hw al nlocal nall s) as (-> & _ & -> & _).
      pose proof (init'_status cfg hw al nlocal nall s) as Hst.
      destruct (status (init' cfg hw al nlocal nall s) =? 0) eqn:E;
        [|exact IH].
      intros _. apply Z.eqb_eq in E. rewrite E in Hst.
      destruct (_device_init s); [reflexivity|discriminate].
    - exact IH.
    - exact IH.
    - pose proof (reachable_consistent cfg s Hr) as (Hc & _).
      destruct (Z.eq_dec (_init_count s) 0) as [E|E].
      + rewrite clear_detached by lia. exact IH.
      + destruct (clear_attached s ltac:(lia)) as (-> & _ & -> & _).
        intros _. apply IH. lia.
    - destruct (clear_device_unbinds s (reachable_consistent cfg s Hr))
        as (-> & _). lia. }
  destruct (reachable_consistent cfg s Hr) as (Hc & Hg).
  splits; assumption.
Qed.

Lemma reachable_invariant_witness :
  0 <= _init_count (fst (clear (fst (clear (Device_new cuda_mixed))))).
Proof.
  apply (reachable_invariant cuda_mixed).
  apply reach_clear. apply reach_clear. apply reach_new.
Defined.
